(** * LinkAI: ball state estimation and flight physics, verified against the source

    A shallow embedding of the core of the repository:
    - [kalman_tracker.py]            (module [Kalman]),
    - [hybrid_detector.py]           (module [Hybrid]),
    - [launch_vector.py]             (module [Launch]),
    - [trajectory_physics.py]        (module [Physics]),
    - [generate_archetype_tables.py] (module [Tables]),
    - [homography_calibration.py]    (module [Homography]),
    - [shot_archetypes.py]           (module [Archetypes]),
    - [gps_converter.py]             (module [Gps]).

    Python [float] is IEEE-754 binary64, so numbers are Rocq's primitive
    floats: [+ - * /], [sqrt] and the comparisons compute bit for bit what
    CPython computes.  What CPython delegates to the C library ([sin], [cos],
    [atan2], [pow], [fmod]) and the built-in [round] are fields of a record
    [Libm]; every general theorem holds for every such record.  Exceptions
    are results of type [res]. *)

From Stdlib Require Import ZArith List Bool String Lia Floats.
Import ListNotations.

Set Warnings "-inexact-float".

Local Open Scope float_scope.

(** ** Python's numeric core *)

Module Py.

(** Exceptions the modelled code can raise. *)
Inductive exn : Set :=
| OverflowError
| ValueError
| ZeroDivisionError
| TypeError
| IndexError
| LinAlgError.

(** The outcome of a Python expression: a value or a raised exception. *)
Inductive res (A : Type) : Type :=
| Ok (a : A)
| Raise (e : exn).
Arguments Ok {A} a.
Arguments Raise {A} e.

Definition bind {A B : Type} (m : res A) (k : A -> res B) : res B :=
  match m with
  | Ok a => k a
  | Raise e => Raise e
  end.



Module Export Notations.
Notation "x <- m ;; k" := (bind m (fun x => k))
  (at level 61, m at next level, right associativity).
Notation "' p <- m ;; k" := (bind m (fun x => match x with p => k end))
  (at level 61, p pattern, m at next level, right associativity).
End Notations.

(** The C library behind CPython's [math] module and float power, and the
    built-in [round(x, ndigits)]. *)
Record Libm : Type := {
  c_sin : float -> float;
  c_cos : float -> float;
  c_atan2 : float -> float -> float;
  c_pow : float -> float -> float;
  c_fmod : float -> float -> float;
  py_round : float -> Z -> float
}.

(** [a > b], [a >= b] are the mirrored IEEE comparisons. *)
Definition gtb (a b : float) : bool := b <? a.
Definition geb (a b : float) : bool := b <=? a.

(** A Python [int] used in float arithmetic (pixel coordinates, frame
    numbers, literals such as [0] and [45]). *)
Definition of_Z (z : Z) : float :=
  match z with
  | Z0 => 0
  | Zpos _ => of_uint63 (Uint63.of_Z z)
  | Zneg _ => - of_uint63 (Uint63.of_Z (- z))
  end.

(** [math.pi], [math.radians], [math.degrees] (mathmodule.c: multiplication
    by the constants [pi / 180.0] and [180.0 / pi]). *)
Definition pi : float := 3.141592653589793.
Definition degToRad : float := pi / 180.
Definition radToDeg : float := 180 / pi.
Definition radians (x : float) : float := x * degToRad.
Definition degrees (x : float) : float := x * radToDeg.

(** [a / b] on floats raises on a zero divisor. *)
Definition fdiv (a b : float) : res float :=
  if b =? 0 then Raise ZeroDivisionError else Ok (a / b).

(** mathmodule.c, [math_1] with [can_overflow = 0]: a NaN result from a
    non-NaN argument, or an infinite result from a finite argument, is a
    [ValueError]. *)
Definition math_1 (f : float -> float) (x : float) : res float :=
  let r := f x in
  if is_nan r && negb (is_nan x) then Raise ValueError
  else if is_infinity r && is_finite x then Raise ValueError
  else Ok r.

Definition msqrt (x : float) : res float := math_1 sqrt x.

Section WithLibm.
Variable lm : Libm.

Definition msin (x : float) : res float := math_1 (c_sin lm) x.
Definition mcos (x : float) : res float := math_1 (c_cos lm) x.

(** mathmodule.c, [math_2]: [atan2(y, x)]. *)
Definition matan2 (y x : float) : res float :=
  let r := c_atan2 lm y x in
  if is_nan r then
    if negb (is_nan y) && negb (is_nan x) then Raise ValueError else Ok r
  else if is_infinity r then
    if is_finite y && is_finite x then Raise OverflowError else Ok r
  else Ok r.

(** floatobject.c, [float_pow], for [x ** n] with a positive integer
    literal [n]: the special cases are decided before the C [pow] is
    called, and an infinite result of [pow] is an [OverflowError]. *)
Definition py_pow (x : float) (n : positive) : res float :=
  let odd := Z.odd (Zpos n) in
  if is_nan x then Ok x
  else if is_infinity x then Ok (if odd then x else abs x)
  else if x =? 0 then Ok (if odd then x else 0)
  else
    let negate := (x <? 0) && odd in
    let iv := if x <? 0 then - x else x in
    if iv =? 1 then Ok (if negate then -1 else 1)
    else
      let ix := c_pow lm iv (of_Z (Zpos n)) in
      if is_infinity ix then Raise OverflowError
      else Ok (if negate then - ix else ix).

(** floatobject.c, [float_rem]: [a % b]. *)
Definition py_mod (a b : float) : res float :=
  if b =? 0 then Raise ZeroDivisionError
  else
    let m := c_fmod lm a b in
    if m =? 0 then Ok (if get_sign b then -0 else 0)
    else if Bool.eqb (b <? 0) (m <? 0) then Ok m else Ok (m + b).
End WithLibm.

(** The built-ins [min(a, b)] and [max(a, b)]: the first argument is kept
    unless the second compares strictly below (above) it. *)
Definition min2 (a b : float) : float := if b <? a then b else a.
Definition max2 (a b : float) : float := if gtb b a then b else a.

(** [sum(xs)] starts from the integer [0] and adds from the left. *)
Definition fsum (xs : list float) : float := fold_left add xs 0.

(** The value of a time variable after [n] executions of [t += dt]. *)
Fixpoint time_after (dt : float) (n : nat) (t : float) : float :=
  match n with
  | O => t
  | S n' => time_after dt n' (t + dt)
  end.

(** The first [n] values such a variable takes, starting with [t]. *)
Fixpoint times (dt : float) (n : nat) (t : float) : list float :=
  match n with
  | O => []
  | S n' => t :: times dt n' (t + dt)
  end.

(** A sequence of floats is strictly increasing. *)
Fixpoint increasing (ts : list float) : bool :=
  match ts with
  | a :: (b :: _) as rest => (a <? b) && increasing rest
  | _ => true
  end.

End Py.

Import Py.Notations.

(** ** numpy's float64 arrays, as far as the filter uses them *)

Module Np.

Definition matrix : Type := list (list float).

Definition entry (i j : nat) (a : matrix) : float := nth j (nth i a []) nan.

Definition ncols (a : matrix) : nat :=
  match a with
  | [] => O
  | r :: _ => List.length r
  end.

Definition col (j : nat) (a : matrix) : list float :=
  map (fun r => nth j r nan) a.

(** [a.T] *)
Definition transpose (a : matrix) : matrix :=
  map (fun j => col j a) (seq 0 (ncols a)).

Fixpoint zip_with (f : float -> float -> float) (u v : list float) : list float :=
  match u, v with
  | a :: u', b :: v' => f a b :: zip_with f u' v'
  | _, _ => []
  end.

(** The inner loop of [matmul]: the accumulator starts at zero and the
    products are added in index order. *)
Definition dot (u v : list float) : float :=
  fold_left add (zip_with mul u v) 0.

(** [a @ b] *)
Definition matmul (a b : matrix) : matrix :=
  map (fun r => map (fun c => dot r c) (transpose b)) a.

Definition ewise (f : float -> float -> float) (a b : matrix) : matrix :=
  map (fun rr => zip_with f (fst rr) (snd rr)) (combine a b).

Definition madd : matrix -> matrix -> matrix := ewise add.
Definition msub : matrix -> matrix -> matrix := ewise sub.

Definition scale (a : matrix) (c : float) : matrix :=
  map (map (fun v => v * c)) a.

(** [np.eye(n)] *)
Definition eye (n : nat) : matrix :=
  map (fun i => map (fun j => if Nat.eqb i j then 1 else 0) (seq 0 n)) (seq 0 n).

(** [np.linalg.inv] on a 2x2 array.  numpy solves [a x = I] with LAPACK's
    [gesv]: an LU factorisation with partial pivoting followed by the two
    triangular solves, and raises [LinAlgError] ("Singular matrix") exactly
    when the factorisation meets a pivot equal to zero.  Any other shape
    reaching this point is a [LinAlgError] as well. *)
Definition inv (a : matrix) : Py.res matrix :=
  match a with
  | [[a00; a01]; [a10; a11]] =>
      let swap := abs a00 <? abs a10 in
      let '(p, q, r, s) :=
        if swap then (a10, a11, a00, a01) else (a00, a01, a10, a11) in
      if p =? 0 then Py.Raise Py.LinAlgError
      else
        let l := r / p in
        let u := s - l * q in
        if u =? 0 then Py.Raise Py.LinAlgError
        else
          let solve (e0 e1 : float) : float * float :=
            let y1 := e1 - l * e0 in
            let x1 := y1 / u in
            ((e0 - q * x1) / p, x1) in
          let '(c00, c10) := if swap then solve 0 1 else solve 1 0 in
          let '(c01, c11) := if swap then solve 1 0 else solve 0 1 in
          Py.Ok [[c00; c01]; [c10; c11]]
  | _ => Py.Raise Py.LinAlgError
  end.

End Np.

(** ** kalman_tracker.py *)

Module Kalman.
Import Np.

Notation "a @ b" := (matmul a b) (at level 40, left associativity).

(** The attributes of a [KalmanTracker] object. *)
Record tracker : Type := mkTracker {
  dt : float;
  x : option matrix;
  P : option matrix;
  F : matrix;
  H : matrix;
  Q : matrix;
  R : matrix;
  is_initialized : bool;
  miss_count : Z;
  max_misses : Z
}.

Definition set_x (k : tracker) (v : option matrix) : tracker :=
  mkTracker (dt k) v (P k) (F k) (H k) (Q k) (R k)
            (is_initialized k) (miss_count k) (max_misses k).
Definition set_P (k : tracker) (v : option matrix) : tracker :=
  mkTracker (dt k) (x k) v (F k) (H k) (Q k) (R k)
            (is_initialized k) (miss_count k) (max_misses k).
Definition set_is_initialized (k : tracker) (b : bool) : tracker :=
  mkTracker (dt k) (x k) (P k) (F k) (H k) (Q k) (R k)
            b (miss_count k) (max_misses k).
Definition set_miss_count (k : tracker) (n : Z) : tracker :=
  mkTracker (dt k) (x k) (P k) (F k) (H k) (Q k) (R k)
            (is_initialized k) n (max_misses k).

(** The dictionary [update] returns. *)
Record estimate : Type := mkEstimate {
  e_x : float;
  e_y : float;
  e_vx : float;
  e_vy : float;
  e_r : float;
  predicted : bool
}.

Section WithLibm.
Variable lm : Py.Libm.

(** [KalmanTracker.__init__(process_noise, measurement_noise, dt)];
    the defaults are [1.0], [10.0] and [0.15]. *)
Definition init (process_noise measurement_noise dt : float) : Py.res tracker :=
  let q := process_noise in
  let r := measurement_noise in
  dt4 <- Py.py_pow lm dt 4 ;;
  dt3 <- Py.py_pow lm dt 3 ;;
  dt2 <- Py.py_pow lm dt 2 ;;
  Py.Ok {|
    dt := dt;
    x := None;
    P := None;
    F := [[1; 0; dt; 0];
          [0; 1; 0; dt];
          [0; 0; 1; 0];
          [0; 0; 0; 1]];
    H := [[1; 0; 0; 0];
          [0; 1; 0; 0]];
    Q := [[q * dt4 / 4; 0; q * dt3 / 2; 0];
          [0; q * dt4 / 4; 0; q * dt3 / 2];
          [q * dt3 / 2; 0; q * dt2; 0];
          [0; q * dt3 / 2; 0; q * dt2]];
    R := [[r; 0];
          [0; r]];
    is_initialized := false;
    miss_count := 0%Z;
    max_misses := 6%Z
  |}.
End WithLibm.

(** [KalmanTracker.predict]: the new object state and the returned value.
    [self.F @ None] is a [TypeError]. *)
Definition predict (k : tracker) : tracker * Py.res (option matrix) :=
  if negb (is_initialized k) then (k, Py.Ok None)
  else
    match x k with
    | None => (k, Py.Raise Py.TypeError)
    | Some xv =>
        let k1 := set_x k (Some (F k @ xv)) in
        match P k1 with
        | None => (k1, Py.Raise Py.TypeError)
        | Some Pv =>
            let k2 := set_P k1 (Some (madd (F k1 @ Pv @ transpose (F k1)) (Q k1))) in
            (k2, Py.Ok (x k2))
        end
    end.

(** The dictionary built from the state vector [self.x]. *)
Definition estimate_of (xv : matrix) (r : float) (pred : bool) : estimate :=
  {| e_x := entry 0 0 xv; e_y := entry 1 0 xv;
     e_vx := entry 2 0 xv; e_vy := entry 3 0 xv;
     e_r := r; predicted := pred |}.

(** [KalmanTracker.update(measurement)], [measurement] being [None] or a
    triple [(x_meas, y_meas, radius)].  The result pairs the object state
    the call leaves behind with what the call returns or raises. *)
Definition update (k : tracker) (measurement : option (float * float * float))
  : tracker * Py.res (option estimate) :=
  match measurement with
  | None =>
      let k1 := set_miss_count k (miss_count k + 1)%Z in
      if (miss_count k1 >=? max_misses k1)%Z then
        (set_P (set_x (set_is_initialized k1 false) None) None, Py.Ok None)
      else
        match predict k1 with
        | (k2, Py.Raise e) => (k2, Py.Raise e)
        | (k2, Py.Ok _) =>
            match x k2 with
            | Some xv => (k2, Py.Ok (Some (estimate_of xv 0 true)))
            | None => (k2, Py.Ok None)
            end
        end
  | Some (x_meas, y_meas, radius) =>
      let z := [[x_meas]; [y_meas]] in
      if negb (is_initialized k) then
        let k1 := set_x k (Some [[x_meas]; [y_meas]; [0]; [0]]) in
        let k2 := set_P k1 (Some (scale (eye 4) 100)) in
        let k3 := set_is_initialized k2 true in
        let k4 := set_miss_count k3 0%Z in
        (k4, Py.Ok (Some {| e_x := x_meas; e_y := y_meas; e_vx := 0; e_vy := 0;
                            e_r := radius; predicted := false |}))
      else
        match predict k with
        | (k1, Py.Raise e) => (k1, Py.Raise e)
        | (k1, Py.Ok _) =>
            match x k1, P k1 with
            | Some xv, Some Pv =>
                let y_innov := msub z (H k1 @ xv) in
                let S := madd (H k1 @ Pv @ transpose (H k1)) (R k1) in
                match inv S with
                | Py.Raise e => (k1, Py.Raise e)
                | Py.Ok Sinv =>
                    let K := Pv @ transpose (H k1) @ Sinv in
                    let k2 := set_x k1 (Some (madd xv (K @ y_innov))) in
                    let I := eye 4 in
                    let k3 := set_P k2 (Some (msub I (K @ H k2) @ Pv)) in
                    let k4 := set_miss_count k3 0%Z in
                    match x k4 with
                    | Some xv' => (k4, Py.Ok (Some (estimate_of xv' radius false)))
                    | None => (k4, Py.Raise Py.TypeError)
                    end
                end
            | _, _ => (k1, Py.Raise Py.TypeError)
            end
        end
  end.

(** Feeding a list of measurements, one [update] per element, as a caller's
    frame loop does; the run stops at the first exception. *)
Fixpoint run (k : tracker) (ms : list (option (float * float * float)))
  : tracker * Py.res (list (option estimate)) :=
  match ms with
  | [] => (k, Py.Ok [])
  | m :: ms' =>
      match update k m with
      | (k1, Py.Raise e) => (k1, Py.Raise e)
      | (k1, Py.Ok r) =>
          match run k1 ms' with
          | (k2, Py.Raise e) => (k2, Py.Raise e)
          | (k2, Py.Ok rs) => (k2, Py.Ok (r :: rs))
          end
      end
  end.

(** [n] consecutive frames without a detection. *)
Definition misses (n : nat) : list (option (float * float * float)) :=
  repeat None n.

(** [KalmanTracker.get_velocity]: the velocity entries of the state vector,
    or [(0.0, 0.0)] when there is no track. *)
Definition get_velocity (k : tracker) : float * float :=
  match is_initialized k, x k with
  | true, Some xv => (entry 2 0 xv, entry 3 0 xv)
  | _, _ => (0, 0)
  end.

(** [KalmanTracker.reset] *)
Definition reset (k : tracker) : tracker :=
  set_miss_count (set_is_initialized (set_P (set_x k None) None) false) 0%Z.

(** The shape of the object between two calls: the state vector and its
    covariance are arrays exactly when the tracker is initialized. *)
Definition consistent (k : tracker) : bool :=
  match is_initialized k, x k, P k with
  | true, Some _, Some _ => true
  | false, None, None => true
  | _, _, _ => false
  end.

End Kalman.

(** ** hybrid_detector.py *)

Module Hybrid.

(** A rectangle [(x, y, w, h)] in pixels: a YOLO bounding box or an ROI. *)
Definition rect : Type := (Z * Z * Z * Z)%type.

(** What [detect_ball] returns: [((x, y), radius)] or [(None, 0)]. *)
Definition detection : Type := (option (Z * Z) * Z)%type.

(** The tracking attributes of a [HybridBallDetector]. *)
Record detector : Type := mkDetector {
  yolo_available : bool;
  roi : option rect;
  consecutive_misses : Z;
  max_misses : Z;
  frame_count : Z;
  yolo_frequency : Z
}.

(** [HybridBallDetector.__init__]: [loaded] tells whether a model path was
    given, exists and was loaded by the ONNX runtime. *)
Definition init (loaded : bool) : detector :=
  {| yolo_available := loaded;
     roi := None;
     consecutive_misses := 0;
     max_misses := 3;
     frame_count := 0;
     yolo_frequency := 5 |}.

Section WithDetectors.
(** The two detectors are image processing outside the core: the network
    behind [_detect_with_yolo] and the Hough search of
    [_detect_with_hough(frame, roi)], each a function of its arguments. *)
Variable frame : Type.
Variable yolo_net : frame -> option rect.
Variable hough : frame -> option rect -> option ((Z * Z) * Z).

(** Detector invocations, in the order they happen. *)
Inductive event : Type :=
| RunYolo (f : frame)
| RunHough (f : frame) (r : option rect).

(** [_detect_with_yolo] *)
Definition _detect_with_yolo (d : detector) (f : frame) : option rect :=
  if negb (yolo_available d) then None else yolo_net f.

Definition should_run_yolo (d : detector) : bool :=
  yolo_available d &&
  (match roi d with None => true | Some _ => false end
   || (consecutive_misses d >? max_misses d)%Z
   || (frame_count d mod yolo_frequency d =? 0)%Z).

Definition set_roi (d : detector) (r : option rect) : detector :=
  mkDetector (yolo_available d) r (consecutive_misses d) (max_misses d)
             (frame_count d) (yolo_frequency d).
Definition set_consecutive_misses (d : detector) (n : Z) : detector :=
  mkDetector (yolo_available d) (roi d) n (max_misses d)
             (frame_count d) (yolo_frequency d).
Definition set_frame_count (d : detector) (n : Z) : detector :=
  mkDetector (yolo_available d) (roi d) (consecutive_misses d) (max_misses d)
             n (yolo_frequency d).

(** Stage 1 of [detect_ball]: the object after the optional YOLO scan,
    and the events of the scan. *)
Definition acquire (d : detector) (f : frame) : detector * list event :=
  if should_run_yolo d then
    match _detect_with_yolo d f with
    | Some (x, y, w, h) =>
        let margin := 20%Z in
        (set_roi d (Some (Z.max 0 (x - margin), Z.max 0 (y - margin),
                          w + 2 * margin, h + 2 * margin)%Z),
         [RunYolo f])
    | None => (d, [RunYolo f])
    end
  else (d, []).

(** [HybridBallDetector.detect_ball(frame)]: the object state after the
    call, the returned pair and the detector invocations made. *)
Definition detect_ball (d : detector) (f : frame)
  : detector * detection * list event :=
  let d0 := set_frame_count d (frame_count d + 1)%Z in
  let '(d1, ev) := acquire d0 f in
  let tr := ev ++ [RunHough f (roi d1)] in
  match hough f (roi d1) with
  | Some (center, radius) =>
      let d2 := set_consecutive_misses d1 0%Z in
      let d3 :=
        match roi d2 with
        | Some _ =>
            let '(cx, cy) := center in
            set_roi d2 (Some (Z.max 0 (cx - 50), Z.max 0 (cy - 50), 100, 100)%Z)
        | None => d2
        end in
      (d3, (Some center, radius), tr)
  | None =>
      let d2 := set_consecutive_misses d1 (consecutive_misses d1 + 1)%Z in
      let d3 :=
        if (consecutive_misses d2 >? max_misses d2)%Z
        then set_roi d2 None else d2 in
      (d3, (None, 0%Z), tr)
  end.

(** The object a call leaves behind, its return value and its trace. *)
Definition after (d : detector) (f : frame) : detector :=
  fst (fst (detect_ball d f)).
Definition returned (d : detector) (f : frame) : detection :=
  snd (fst (detect_ball d f)).
Definition trace (d : detector) (f : frame) : list event :=
  snd (detect_ball d f).

(** A caller's frame loop: one [detect_ball] per frame. *)
Fixpoint run (d : detector) (fs : list frame)
  : detector * list detection * list event :=
  match fs with
  | [] => (d, [], [])
  | f :: fs' =>
      let '(d1, r, tr) := detect_ball d f in
      let '(d2, rs, trs) := run d1 fs' in
      (d2, r :: rs, tr ++ trs)
  end.

(** Every Hough invocation of a trace searched the full frame. *)
Definition full_frame_only (tr : list event) : Prop :=
  forall f r, In (RunHough f r) tr -> r = None.
End WithDetectors.

Arguments RunYolo {frame} f.
Arguments RunHough {frame} f r.

(** [HybridBallDetector.reset] *)
Definition reset (d : detector) : detector :=
  set_frame_count (set_consecutive_misses (set_roi d None) 0%Z) 0%Z.

(** The frames a trace ran the Hough search on, and those it ran YOLO on. *)
Definition hough_frames {frame : Type} (tr : list (event frame)) : list frame :=
  flat_map (fun ev => match ev with RunHough f _ => [f] | RunYolo _ => [] end) tr.
Definition yolo_frames {frame : Type} (tr : list (event frame)) : list frame :=
  flat_map (fun ev => match ev with RunYolo f => [f] | RunHough _ _ => [] end) tr.

Section WithImage.
(** Inside [_detect_with_hough]: a frame is an array with a shape
    [(height, width)]; the OpenCV pipeline from [cv2.cvtColor] to
    [cv2.HoughCircles] is a function of the frame, the crop searched
    ([None]: the whole frame) and [maxRadius], and gives [None] or the
    circles [(circle_x, circle_y, r)] as
    [np.round(circles[0, :]).astype("int")] lists them. *)
Variable image : Type.
Variable shape : image -> Z * Z.
Variable hough_circles : image -> option rect -> Z -> option (list (Z * Z * Z)).

(** What a call of [_detect_with_hough] ends in: a returned pair, or the
    [UnboundLocalError] of reading [search_frame] before any assignment. *)
Inductive hough_result : Type :=
| Returns (r : detection)
| UnboundLocalError.

(** The loop over the circles: the first one with [r >= 2], moved by the
    offset of the crop. *)
Fixpoint first_valid (circles : list (Z * Z * Z)) (x y : Z) : detection :=
  match circles with
  | [] => (None, 0%Z)
  | (circle_x, circle_y, r) :: rest =>
      if (r <? 2)%Z then first_valid rest x y
      else (Some (circle_x + x, circle_y + y)%Z, r)
  end.

(** [_detect_with_hough(frame, roi)].  When the clipped width or height is
    not positive the source sets its local [roi] to [None] and assigns
    nothing to [search_frame], which the next statement reads. *)
Definition _detect_with_hough (f : image) (roi : option rect) : hough_result :=
  match roi with
  | Some (x, y, w, h) =>
      let x := Z.max 0 x in
      let y := Z.max 0 y in
      let '(frame_height, frame_width) := shape f in
      let w := if (x + w >? frame_width)%Z then (frame_width - x)%Z else w in
      let h := if (y + h >? frame_height)%Z then (frame_height - y)%Z else h in
      if (w <=? 0)%Z || (h <=? 0)%Z then UnboundLocalError
      else
        match hough_circles f (Some (x, y, w, h)) 40%Z with
        | None => Returns (None, 0%Z)
        | Some circles => Returns (first_valid circles x y)
        end
  | None =>
      match hough_circles f None 60%Z with
      | None => Returns (None, 0%Z)
      | Some circles => Returns (first_valid circles 0%Z 0%Z)
      end
  end.

(** The local detector as [detect_ball] sees it while the call returns:
    [center, radius = self._detect_with_hough(frame, self.roi)]. *)
Definition hough_of (f : image) (roi : option rect) : option ((Z * Z) * Z) :=
  match _detect_with_hough f roi with
  | Returns (Some center, radius) => Some (center, radius)
  | _ => None
  end.

(** The part of the frame a search covers: the crop, or all of it. *)
Definition searched (f : image) (region : option rect) : rect :=
  match region with
  | Some r => r
  | None => (0, 0, snd (shape f), fst (shape f))%Z
  end.

(** A circle [(circle_x, circle_y, r)] whose centre lies in an image of
    width [w] and height [h]. *)
Definition centre_within (w h : Z) (c : Z * Z * Z) : Prop :=
  let '(circle_x, circle_y, _) := c in
  (0 <= circle_x < w /\ 0 <= circle_y < h)%Z.

(** An ROI that starts inside a frame of the given size and is not empty. *)
Definition roi_in_frame (frame_height frame_width : Z) (d : detector) : Prop :=
  match roi d with
  | Some (x, y, w, h) =>
      (0 <= x < frame_width /\ 0 <= y < frame_height /\ 0 < w /\ 0 < h)%Z
  | None => True
  end.
End WithImage.

(** The state between calls of a detector that started from the
    constructor: the configuration is the constructor's, the miss counter
    is not negative, the ROI starts at non-negative coordinates, and a
    counter beyond [max_misses] goes with no ROI. *)
Definition tracking (b : bool) (d : detector) : Prop :=
  yolo_available d = b /\ max_misses d = 3%Z /\ yolo_frequency d = 5%Z /\
  (0 <= consecutive_misses d)%Z /\
  ((consecutive_misses d > 3)%Z -> roi d = None) /\
  match roi d with
  | Some (x, y, _, _) => (0 <= x /\ 0 <= y)%Z
  | None => True
  end.

End Hybrid.

(** ** hybrid_detector.py: [detect_ball] with the local search it calls *)

Module HybridCalls.
Import Hybrid.

(** How a call of [detect_ball] ends: with the pair it returns, or with the
    [UnboundLocalError] of [_detect_with_hough], which [detect_ball] does
    not catch. *)
Inductive outcome : Type :=
| Returned (r : detection)
| Raised.

Definition is_returned (o : outcome) : bool :=
  match o with
  | Returned _ => true
  | Raised => false
  end.

Section WithFrames.
Variable image : Type.
Variable shape : image -> Z * Z.
Variable hough_circles : image -> option rect -> Z -> option (list (Z * Z * Z)).
Variable yolo_net : image -> option rect.

(** [HybridBallDetector.detect_ball(frame)], the local search being
    [_detect_with_hough]: the object state after the call, how the call
    ends and the detector invocations made.  When the search raises, the
    object keeps the frame count already advanced and the ROI the scan may
    have set, and the miss counter is not touched. *)
Definition detect_ball (d : detector) (f : image)
  : detector * outcome * list (event image) :=
  let d0 := set_frame_count d (frame_count d + 1)%Z in
  let '(d1, ev) := acquire image yolo_net d0 f in
  let tr := ev ++ [RunHough f (roi d1)] in
  match _detect_with_hough image shape hough_circles f (roi d1) with
  | UnboundLocalError => (d1, Raised, tr)
  | Returns (Some center, radius) =>
      let d2 := set_consecutive_misses d1 0%Z in
      let d3 :=
        match roi d2 with
        | Some _ =>
            let '(cx, cy) := center in
            set_roi d2 (Some (Z.max 0 (cx - 50), Z.max 0 (cy - 50), 100, 100)%Z)
        | None => d2
        end in
      (d3, Returned (Some center, radius), tr)
  | Returns (None, _) =>
      let d2 := set_consecutive_misses d1 (consecutive_misses d1 + 1)%Z in
      let d3 :=
        if (consecutive_misses d2 >? max_misses d2)%Z
        then set_roi d2 None else d2 in
      (d3, Returned (None, 0%Z), tr)
  end.

(** The object a call leaves behind, how it ends and its trace. *)
Definition after (d : detector) (f : image) : detector :=
  fst (fst (detect_ball d f)).
Definition ends (d : detector) (f : image) : outcome :=
  snd (fst (detect_ball d f)).
Definition trace (d : detector) (f : image) : list (event image) :=
  snd (detect_ball d f).

(** A caller that keeps one detector over its calls, as the server does
    with its global [detector] (its handlers catch the exception of a call
    and the next request uses the same object): one [detect_ball] per
    frame, whatever the earlier calls ended in. *)
Fixpoint run (d : detector) (fs : list image)
  : detector * list outcome * list (event image) :=
  match fs with
  | [] => (d, [], [])
  | f :: fs' =>
      let '(d1, o, tr) := detect_ball d f in
      let '(d2, os, trs) := run d1 fs' in
      (d2, o :: os, tr ++ trs)
  end.
End WithFrames.

End HybridCalls.

(** ** launch_vector.py *)

Module Launch.

(** A tracked point: a dict with ['x'], ['y'] and optionally ['timestamp']
    and ['frame']. *)
Record point : Type := mkPoint {
  px : float;
  py : float;
  timestamp : option float;
  frame : option Z
}.

(** The dict returned by [_calculate_speed]. *)
Record speed_result : Type := mkSpeed {
  speed_ms : float;
  speed_mph : float;
  displacement_m : option float;
  time_s : option float
}.

(** The dict returned by [_calculate_launch_angle]. *)
Record angle_result : Type := mkAngle {
  angle : float;
  angle_method : string
}.

(** The dict returned by [_calculate_direction]. *)
Record direction_result : Type := mkDirection {
  direction : float;
  pixel_offset : option float;
  direction_method : string
}.

(** The dict returned by [calculate_launch_vector]; a key that one of the
    two return statements leaves out is [None]. *)
Record launch_vector : Type := mkLaunch {
  lv_speed_mph : float;
  lv_speed_ms : option float;
  lv_launch_angle : float;
  lv_direction : float;
  lv_confidence : float;
  lv_frames_used : option nat;
  lv_method : option string;
  lv_error : option string
}.

(** [xs[i]] *)
Definition index {A : Type} (xs : list A) (i : nat) : Py.res A :=
  match nth_error xs i with
  | Some a => Py.Ok a
  | None => Py.Raise Py.IndexError
  end.

Section WithLibm.
Variable lm : Py.Libm.

(** [self.calibrator], when present and calibrated: its
    [pixel_to_meters]. *)
Variable calibrator : option (float * float -> Py.res (float * float)).

Definition zero_speed : speed_result :=
  {| speed_ms := 0; speed_mph := 0; displacement_m := None; time_s := None |}.

(** [_calculate_speed(points, fps)] *)
Definition _calculate_speed (points : list point) (fps : float)
  : Py.res speed_result :=
  if (List.length points <? 2)%nat then Py.Ok zero_speed
  else
    first <- index points 0 ;;
    last <- index points (List.length points - 1) ;;
    let dx_px := px last - px first in
    let dy_px := py last - py first in
    dx2 <- Py.py_pow lm dx_px 2 ;;
    dy2 <- Py.py_pow lm dy_px 2 ;;
    displacement_px <- Py.msqrt (dx2 + dy2) ;;
    dt <- match timestamp first, timestamp last with
          | Some t0, Some t1 => Py.Ok (t1 - t0)
          | _, _ =>
              let l := match frame last with
                       | Some n => n
                       | None => (Z.of_nat (List.length points) - 1)%Z
                       end in
              let f := match frame first with Some n => n | None => 0%Z end in
              Py.fdiv (Py.of_Z (l - f)) fps
          end ;;
    if dt <=? 0 then Py.Ok zero_speed
    else
      displacement_m <-
        match calibrator with
        | Some pixel_to_meters =>
            ' (f0, f1) <- pixel_to_meters (px first, py first) ;;
            ' (l0, l1) <- pixel_to_meters (px last, py last) ;;
            a <- Py.py_pow lm (l0 - f0) 2 ;;
            b <- Py.py_pow lm (l1 - f1) 2 ;;
            Py.msqrt (a + b)
        | None =>
            let estimated_px_per_m := 10 / 0.0214 in
            Py.fdiv displacement_px estimated_px_per_m
        end ;;
      speed_ms <- Py.fdiv displacement_m dt ;;
      let speed_mph := speed_ms * 2.237 in
      Py.Ok {| speed_ms := speed_ms; speed_mph := speed_mph;
               displacement_m := Some displacement_m; time_s := Some dt |}.

(** The clamp [max(0, min(45, a))]. *)
Definition clamp_angle (a : float) : float := Py.max2 0 (Py.min2 45 a).

(** The first half of [_calculate_launch_angle], for a window of at least
    three points: the pixel angle with the camera tilt added, before it is
    clamped. *)
Definition measured_angle (points : list point) (gyro_data : option float)
  : Py.res float :=
  first <- index points 0 ;;
  last <- index points (Nat.min 5 (List.length points - 1)) ;;
  let dx := px last - px first in
  let dy := py last - py first in
  pixel_angle <-
    (if Py.gtb (abs dx) 1
     then (a <- Py.matan2 lm (- dy) dx ;; Py.Ok (Py.degrees a))
     else Py.Ok 0) ;;
  match gyro_data with
  | Some camera_tilt => Py.Ok (pixel_angle + camera_tilt)
  | None => Py.Ok pixel_angle
  end.

(** The second half: the clamp and the substitution of the typical
    value. *)
Definition plausible_angle (corrected_angle : float) : angle_result :=
  let corrected_angle := clamp_angle corrected_angle in
  if (corrected_angle <? 5) || Py.gtb corrected_angle 30
  then {| angle := 12; angle_method := "default_typical" |}
  else {| angle := corrected_angle; angle_method := "calculated" |}.

(** [_calculate_launch_angle(points, gyro_data)] *)
Definition _calculate_launch_angle (points : list point) (gyro_data : option float)
  : Py.res angle_result :=
  if (List.length points <? 3)%nat
  then Py.Ok {| angle := 12; angle_method := "default" |}
  else
    corrected_angle <- measured_angle points gyro_data ;;
    Py.Ok (plausible_angle corrected_angle).

(** [_calculate_direction(points, compass_heading)] *)
Definition _calculate_direction (points : list point) (compass_heading : float)
  : Py.res direction_result :=
  if (List.length points <? 2)%nat
  then Py.Ok {| direction := compass_heading; pixel_offset := None;
                direction_method := "compass_only" |}
  else
    first <- index points 0 ;;
    last <- index points (List.length points - 1) ;;
    let dx := px last - px first in
    let dy := py last - py first in
    pixel_angle <-
      (if Py.gtb (abs dx) 1 || Py.gtb (abs dy) 1
       then (a <- Py.matan2 lm dy dx ;; Py.Ok (Py.degrees a))
       else Py.Ok 0) ;;
    absolute_direction <- Py.py_mod lm (compass_heading + pixel_angle) 360 ;;
    Py.Ok {| direction := absolute_direction; pixel_offset := Some pixel_angle;
             direction_method := "compass_plus_pixels" |}.

(** [_calculate_linearity(positions)] *)
Definition _calculate_linearity (positions : list (float * float))
  : Py.res float :=
  if (List.length positions <? 3)%nat then Py.Ok 1
  else
    let x_coords := map fst positions in
    let y_coords := map snd positions in
    let n := Py.of_Z (Z.of_nat (List.length x_coords)) in
    x_mean <- Py.fdiv (Py.fsum x_coords) n ;;
    y_mean <- Py.fdiv (Py.fsum y_coords) n ;;
    let numerator :=
      Py.fsum (map (fun p => (fst p - x_mean) * (snd p - y_mean)) positions) in
    let squares (m : float) :=
      fix go (vs : list float) : Py.res (list float) :=
        match vs with
        | [] => Py.Ok []
        | v :: vs' =>
            s <- Py.py_pow lm (v - m) 2 ;;
            r <- go vs' ;;
            Py.Ok (s :: r)
        end in
    sx <- squares x_mean x_coords ;;
    sy <- squares y_mean y_coords ;;
    denominator <- Py.msqrt (Py.fsum sx * Py.fsum sy) ;;
    if denominator =? 0 then Py.Ok 0.5
    else
      r <- Py.fdiv numerator denominator ;;
      Py.py_pow lm r 2.

(** The three penalties of [_calculate_confidence] that precede the
    linearity factor; the [elif] is kept as the source has it. *)
Definition penalties (n : nat) (speed_mph angle : float) : float :=
  let confidence := 1 in
  let confidence :=
    if (n <? 5)%nat then confidence * 0.7
    else if (n <? 3)%nat then confidence * 0.4
    else confidence in
  let confidence :=
    if (speed_mph <? 50) || Py.gtb speed_mph 250
    then confidence * 0.5 else confidence in
  if (angle <? 0) || Py.gtb angle 45
  then confidence * 0.6 else confidence.

(** [_calculate_confidence(points, speed_result, angle_result)] *)
Definition _calculate_confidence (points : list point)
  (speed : speed_result) (ang : angle_result) : Py.res float :=
  let confidence := penalties (List.length points) (speed_mph speed) (angle ang) in
  confidence <-
    (if (3 <=? List.length points)%nat then
       let positions := map (fun p => (px p, py p)) points in
       linearity <- _calculate_linearity positions ;;
       Py.Ok (confidence * linearity)
     else Py.Ok confidence) ;;
  Py.Ok (Py.max2 0 (Py.min2 1 confidence)).

(** [calculate_launch_vector(trajectory_points, gyro_data=...,
    compass_heading=..., fps=...)]; the unused [homography_matrix]
    argument is left out. *)
Definition calculate_launch_vector (trajectory_points : list point)
  (gyro_data : option float) (compass_heading fps : float)
  : Py.res launch_vector :=
  if (List.length trajectory_points <? 3)%nat then
    Py.Ok {| lv_speed_mph := 0; lv_speed_ms := None; lv_launch_angle := 0;
             lv_direction := 0; lv_confidence := 0; lv_frames_used := None;
             lv_method := None;
             lv_error := Some "Not enough trajectory points"%string |}
  else
    let launch_frames :=
      firstn (Nat.min 10 (List.length trajectory_points)) trajectory_points in
    speed_result <- _calculate_speed launch_frames fps ;;
    angle_result <- _calculate_launch_angle launch_frames gyro_data ;;
    direction_result <- _calculate_direction launch_frames compass_heading ;;
    confidence <- _calculate_confidence launch_frames speed_result angle_result ;;
    Py.Ok {| lv_speed_mph := speed_mph speed_result;
             lv_speed_ms := Some (speed_ms speed_result);
             lv_launch_angle := angle angle_result;
             lv_direction := direction direction_result;
             lv_confidence := confidence;
             lv_frames_used := Some (List.length launch_frames);
             lv_method := Some "trajectory_analysis"%string;
             lv_error := None |}.
End WithLibm.

End Launch.

(** ** trajectory_physics.py *)

Module Physics.

(** The attributes of a [TrajectorySimulator]. *)
Record simulator : Type := mkSimulator {
  ball_mass : float;
  ball_diameter : float;
  ball_radius : float;
  ball_area : float;
  air_density : float;
  drag_coefficient : float;
  lift_coefficient_per_spin : float;
  gravity : float
}.

(** The integration state [[x, y, z, vx, vy, vz, spin_rate, spin_axis]]
    and, with the same shape, its derivative. *)
Record vec8 : Type := mkVec8 {
  s_x : float;
  s_y : float;
  s_z : float;
  s_vx : float;
  s_vy : float;
  s_vz : float;
  s_spin : float;
  s_axis : float
}.

(** [[f(a[i], b[i]) for i in range(8)]] *)
Definition zip8 (f : float -> float -> float) (a b : vec8) : vec8 :=
  {| s_x := f (s_x a) (s_x b);
     s_y := f (s_y a) (s_y b);
     s_z := f (s_z a) (s_z b);
     s_vx := f (s_vx a) (s_vx b);
     s_vy := f (s_vy a) (s_vy b);
     s_vz := f (s_vz a) (s_vz b);
     s_spin := f (s_spin a) (s_spin b);
     s_axis := f (s_axis a) (s_axis b) |}.

(** The dict returned by [simulate_flight]; [points] holds [[x, y, z]]
    triples in meters. *)
Record flight : Type := mkFlight {
  points : list (float * float * float);
  apex_height_yards : float;
  carry_distance_yards : float;
  curve_yards : float;
  flight_time_seconds : float;
  final_spin_rpm : float;
  num_points : nat
}.

Section WithLibm.
Variable lm : Py.Libm.

(** [TrajectorySimulator.__init__] *)
Definition init : Py.res simulator :=
  let ball_diameter := 0.0427 in
  let ball_radius := ball_diameter / 2 in
  r2 <- Py.py_pow lm ball_radius 2 ;;
  Py.Ok {| ball_mass := 0.0459;
           ball_diameter := ball_diameter;
           ball_radius := ball_radius;
           ball_area := Py.pi * r2;
           air_density := 1.225;
           drag_coefficient := 0.25;
           lift_coefficient_per_spin := 0.00001;
           gravity := 9.81 |}.

(** [set_conditions(altitude_meters, temperature_f)]: the simulator with
    its [air_density] reassigned. *)
Definition set_conditions (sim : simulator) (altitude_meters temperature_f : float)
  : Py.res simulator :=
  let altitude_ft := altitude_meters * 3.28084 in
  let density_ratio := 1 - (altitude_ft / 1000) * 0.04 in
  let temp_c := (temperature_f - 32) * 5 / 9 in
  temp_ratio <- Py.fdiv (273 + 15) (273 + temp_c) ;;
  Py.Ok (mkSimulator (ball_mass sim) (ball_diameter sim) (ball_radius sim)
           (ball_area sim) (1.225 * density_ratio * temp_ratio)
           (drag_coefficient sim) (lift_coefficient_per_spin sim) (gravity sim)).

(** [_forces(state, wind_vector)]: the acceleration [[ax, ay, az]]. *)
Definition _forces (sim : simulator) (state : vec8) (wind_vector : float * float)
  : Py.res (float * float * float) :=
  let vx_rel := s_vx state - fst wind_vector in
  let vy_rel := s_vy state - snd wind_vector in
  let vz_rel := s_vz state in
  a <- Py.py_pow lm vx_rel 2 ;;
  b <- Py.py_pow lm vy_rel 2 ;;
  c <- Py.py_pow lm vz_rel 2 ;;
  v_rel <- Py.msqrt (a + b + c) ;;
  if v_rel <? 0.1 then Py.Ok (0, 0, - gravity sim)
  else
    v2 <- Py.py_pow lm v_rel 2 ;;
    let drag_magnitude :=
      0.5 * air_density sim * v2 * drag_coefficient sim * ball_area sim in
    dm <- Py.fdiv drag_magnitude (ball_mass sim) ;;
    ux <- Py.fdiv vx_rel v_rel ;;
    let drag_x := - dm * ux in
    dm <- Py.fdiv drag_magnitude (ball_mass sim) ;;
    uy <- Py.fdiv vy_rel v_rel ;;
    let drag_y := - dm * uy in
    dm <- Py.fdiv drag_magnitude (ball_mass sim) ;;
    uz <- Py.fdiv vz_rel v_rel ;;
    let drag_z := - dm * uz in
    let spin_rpm := s_spin state in
    let lift_coefficient := lift_coefficient_per_spin sim * spin_rpm in
    let spin_rad := Py.radians (s_axis state) in
    v2 <- Py.py_pow lm v_rel 2 ;;
    magnus_magnitude <-
      Py.fdiv (0.5 * air_density sim * v2 * lift_coefficient * ball_area sim)
              (ball_mass sim) ;;
    cs <- Py.mcos lm spin_rad ;;
    let lift_z := magnus_magnitude * cs in
    sn <- Py.msin lm spin_rad ;;
    let lift_x := magnus_magnitude * sn in
    let lift_y := 0 in
    let ax := drag_x + lift_x in
    let ay := drag_y + lift_y in
    let az := drag_z + lift_z - gravity sim in
    Py.Ok (ax, ay, az).

(** The inner function [derivative(s)] of [_rk4_step]. *)
Definition derivative (sim : simulator) (wind_vector : float * float) (s : vec8)
  : Py.res vec8 :=
  ' (ax, ay, az) <- _forces sim s wind_vector ;;
  let spin_decay := -0.02 * s_spin s in
  Py.Ok {| s_x := s_vx s; s_y := s_vy s; s_z := s_vz s;
           s_vx := ax; s_vy := ay; s_vz := az;
           s_spin := spin_decay; s_axis := 0 |}.

(** [_rk4_step(state, dt, wind_vector)] *)
Definition _rk4_step (sim : simulator) (state : vec8) (dt : float)
  (wind_vector : float * float) : Py.res vec8 :=
  k1 <- derivative sim wind_vector state ;;
  k2 <- derivative sim wind_vector (zip8 (fun s k => s + dt / 2 * k) state k1) ;;
  k3 <- derivative sim wind_vector (zip8 (fun s k => s + dt / 2 * k) state k2) ;;
  k4 <- derivative sim wind_vector (zip8 (fun s k => s + dt * k) state k3) ;;
  let slope :=
    zip8 add (zip8 add (zip8 add k1 (zip8 (fun _ k => 2 * k) k2 k2))
                       (zip8 (fun _ k => 2 * k) k3 k3)) k4 in
  Py.Ok (zip8 (fun s k => s + dt / 6 * k) state slope).

(** The local variables of [simulate_flight] that its [while] loop
    updates. *)
Record loop_state : Type := mkLoop {
  l_state : vec8;
  l_time : float;
  l_points : list (float * float * float);
  l_apex : float
}.

Definition dt : float := 0.01.
Definition max_time : float := 15.0.

(** The loop test [state[2] >= 0 and time < max_time]. *)
Definition airborne (l : loop_state) : bool :=
  Py.geb (s_z (l_state l)) 0 && (l_time l <? max_time).

(** One execution of the loop body. *)
Definition loop_body (sim : simulator) (wind_vector : float * float)
  (l : loop_state) : Py.res loop_state :=
  let st := l_state l in
  let pts := l_points l ++ [(s_x st, s_y st, s_z st)] in
  let apex := if Py.gtb (s_z st) (l_apex l) then s_z st else l_apex l in
  st' <- _rk4_step sim st dt wind_vector ;;
  Py.Ok {| l_state := st'; l_time := l_time l + dt;
           l_points := pts; l_apex := apex |}.

(** The [while] loop, run for at most [fuel] executions of its body;
    [None] means the fuel ran out with the loop test still true. *)
Fixpoint flight_loop (fuel : nat) (sim : simulator)
  (wind_vector : float * float) (l : loop_state)
  : option (Py.res loop_state) :=
  if airborne l then
    match fuel with
    | O => None
    | S fuel' =>
        match loop_body sim wind_vector l with
        | Py.Raise e => Some (Py.Raise e)
        | Py.Ok l' => flight_loop fuel' sim wind_vector l'
        end
    end
  else Some (Py.Ok l).

(** The launch parameters of [simulate_flight], in its argument order;
    the defaults are wind [0], [0], temperature [70], altitude [0]. *)
Record launch : Type := mkLaunchArgs {
  launch_speed_mph : float;
  launch_angle_deg : float;
  backspin_rpm : float;
  side_spin_axis_deg : float;
  wind_speed_mph : float;
  wind_direction_deg : float;
  temperature_f : float;
  altitude_m : float
}.

(** The part of [simulate_flight] before the loop: the simulator with
    the conditions set, the wind vector and the initial loop state. *)
Definition prepare (sim : simulator) (a : launch)
  : Py.res (simulator * (float * float) * loop_state) :=
  sim' <- set_conditions sim (altitude_m a) (temperature_f a) ;;
  let v0 := launch_speed_mph a * 0.44704 in
  let angle_rad := Py.radians (launch_angle_deg a) in
  let wind_speed_ms := wind_speed_mph a * 0.44704 in
  ca <- Py.mcos lm angle_rad ;;
  let vx0 := v0 * ca in
  let vy0 := 0 in
  sa <- Py.msin lm angle_rad ;;
  let vz0 := v0 * sa in
  let wind_rad := Py.radians (wind_direction_deg a) in
  cw <- Py.mcos lm wind_rad ;;
  let wind_x := - wind_speed_ms * cw in
  sw <- Py.msin lm wind_rad ;;
  let wind_y := wind_speed_ms * sw in
  let state := {| s_x := 0; s_y := 0; s_z := 0;
                  s_vx := vx0; s_vy := vy0; s_vz := vz0;
                  s_spin := backspin_rpm a; s_axis := side_spin_axis_deg a |} in
  Py.Ok (sim', (wind_x, wind_y),
         {| l_state := state; l_time := 0; l_points := []; l_apex := 0 |}).

(** The part of [simulate_flight] after the loop. *)
Definition finish (l : loop_state) : Py.res flight :=
  let state := l_state l in
  a <- Py.py_pow lm (s_x state) 2 ;;
  b <- Py.py_pow lm (s_y state) 2 ;;
  carry_distance <- Py.msqrt (a + b) ;;
  let lateral_displacement := s_y state in
  let flight_time := l_time l in
  Py.Ok {| points := l_points l;
           apex_height_yards := l_apex l * 1.09361;
           carry_distance_yards := carry_distance * 1.09361;
           curve_yards := lateral_displacement * 1.09361;
           flight_time_seconds := flight_time;
           final_spin_rpm := s_spin state;
           num_points := List.length (l_points l) |}.

(** [simulate_flight], its loop bounded by [fuel]. *)
Definition simulate_flight_fuel (fuel : nat) (sim : simulator) (a : launch)
  : option (Py.res flight) :=
  match prepare sim a with
  | Py.Raise e => Some (Py.Raise e)
  | Py.Ok (sim', wind_vector, l0) =>
      match flight_loop fuel sim' wind_vector l0 with
      | None => None
      | Some (Py.Raise e) => Some (Py.Raise e)
      | Some (Py.Ok l) => Some (finish l)
      end
  end.

(** The number of loop iterations that no call exceeds: the clock passes
    [max_time] within that many additions of [dt], whatever the flight. *)
Definition max_steps : nat := 1501.

(** [TrajectorySimulator.simulate_flight] *)
Definition simulate_flight (sim : simulator) (a : launch) : option (Py.res flight) :=
  simulate_flight_fuel max_steps sim a.

(** The three keys of a [SHOT_TYPES] entry that [simulate_archetype]
    reads. *)
Record archetype_data : Type := mkArchetypeData {
  launch_angle : float;
  ad_backspin_rpm : float;
  side_spin_axis : float
}.

(** [simulate_archetype(archetype_data, launch_speed_mph, wind_speed_mph,
    wind_direction_deg)] *)
Definition simulate_archetype (sim : simulator) (ad : archetype_data)
  (speed wind_speed wind_direction : float) : option (Py.res flight) :=
  simulate_flight sim
    {| launch_speed_mph := speed;
       launch_angle_deg := launch_angle ad;
       backspin_rpm := ad_backspin_rpm ad;
       side_spin_axis_deg := side_spin_axis ad;
       wind_speed_mph := wind_speed;
       wind_direction_deg := wind_direction;
       temperature_f := 70;
       altitude_m := 0 |}.
End WithLibm.

(** A point at or above ground level. *)
Definition above (p : float * float * float) : Prop := Py.geb (snd p) 0 = true.

End Physics.

(** ** generate_archetype_tables.py *)

Module Tables.

(** [@dataclass TrajectoryPoint] *)
Record TrajectoryPoint : Type := mkPoint {
  p_x : float;
  p_y : float;
  p_z : float;
  p_t : float
}.

(** [@dataclass ShotArchetype] *)
Record ShotArchetype : Type := mkArchetype {
  name : string;
  spin_rate : float;
  spin_axis : float;
  launch_angle : float;
  ball_speed : float;
  curve_factor : float
}.

(** [ARCHETYPES] *)
Definition ARCHETYPES : list ShotArchetype :=
  [ mkArchetype "high_slice" 3500 30 18 150 3.0;
    mkArchetype "high_straight" 3000 0 16 155 0.0;
    mkArchetype "high_hook" 3500 (-30) 18 150 (-3.0);
    mkArchetype "medium_fade" 2500 15 12 160 1.5;
    mkArchetype "straight" 2000 0 11 165 0.0;
    mkArchetype "medium_draw" 2500 (-15) 12 160 (-1.5);
    mkArchetype "low_fade" 1800 10 8 170 1.0;
    mkArchetype "low_straight" 1500 0 7 175 0.0;
    mkArchetype "low_draw" 1800 (-10) 8 170 (-1.0) ].

Definition mph_to_ms (mph : float) : float := mph * 0.44704.
Definition meters_to_yards (m : float) : float := m * 1.09361.

(** The local variables of [calculate_trajectory] that its loop updates. *)
Record loop_state : Type := mkLoop {
  l_x : float;
  l_y : float;
  l_z : float;
  l_vx : float;
  l_vy : float;
  l_vz : float;
  l_t : float;
  l_trajectory : list TrajectoryPoint
}.

(** How one execution of the loop body ends: by falling through to the
    loop test again, or by one of the two [break]s. *)
Inductive step : Type :=
| Continue (l : loop_state)
| Break (l : loop_state).

Section WithLibm.
Variable lm : Py.Libm.

(** The values [calculate_trajectory] computes before its loop. *)
Record constants : Type := mkConstants {
  g : float;
  rho : float;
  mass : float;
  radius : float;
  area : float;
  cd : float;
  cl : float;
  spin_rad_s : float;
  spin_axis_rad : float
}.

(** The loop test [y >= 0 or t < 0.1]. *)
Definition flying (l : loop_state) : bool :=
  Py.geb (l_y l) 0 || (l_t l <? 0.1).

(** One execution of the loop body. *)
Definition loop_body (archetype : ShotArchetype) (k : constants) (dt : float)
  (l : loop_state) : Py.res step :=
  let trajectory :=
    l_trajectory l ++ [mkPoint (l_x l) (l_y l) (l_z l) (l_t l)] in
  let l := mkLoop (l_x l) (l_y l) (l_z l) (l_vx l) (l_vy l) (l_vz l) (l_t l)
                  trajectory in
  a <- Py.py_pow lm (l_vx l) 2 ;;
  b <- Py.py_pow lm (l_vy l) 2 ;;
  c <- Py.py_pow lm (l_vz l) 2 ;;
  v <- Py.msqrt (a + b + c) ;;
  if v <? 0.01 then Py.Ok (Break l)
  else
    v2 <- Py.py_pow lm v 2 ;;
    let Fd := 0.5 * rho k * cd k * area k * v2 in
    ux <- Py.fdiv (l_vx l) v ;;
    ax_drag <- Py.fdiv (- Fd * ux) (mass k) ;;
    uy <- Py.fdiv (l_vy l) v ;;
    ay_drag <- Py.fdiv (- Fd * uy) (mass k) ;;
    uz <- Py.fdiv (l_vz l) v ;;
    az_drag <- Py.fdiv (- Fd * uz) (mass k) ;;
    let Fm := 0.5 * rho k * cl k * area k * v * (spin_rad_s k * radius k) in
    sn <- Py.msin lm (spin_axis_rad k) ;;
    m1 <- Py.fdiv (Fm * sn) (mass k) ;;
    let az_magnus := m1 * curve_factor archetype * 0.1 in
    cs <- Py.mcos lm (spin_axis_rad k) ;;
    m2 <- Py.fdiv (Fm * cs) (mass k) ;;
    let ay_lift := m2 * 0.3 in
    let ax := ax_drag in
    let ay := - g k + ay_drag + ay_lift in
    let az := az_drag + az_magnus in
    let vx := l_vx l + ax * dt in
    let vy := l_vy l + ay * dt in
    let vz := l_vz l + az * dt in
    let x := l_x l + vx * dt in
    let y := l_y l + vy * dt in
    let z := l_z l + vz * dt in
    let t := l_t l + dt in
    let l' := mkLoop x y z vx vy vz t trajectory in
    if Py.gtb t 15 then Py.Ok (Break l') else Py.Ok (Continue l').

(** The [while] loop, run for at most [fuel] executions of its body;
    [None] means the fuel ran out with the loop still going. *)
Fixpoint trajectory_loop (fuel : nat) (archetype : ShotArchetype)
  (k : constants) (dt : float) (l : loop_state)
  : option (Py.res loop_state) :=
  if flying l then
    match fuel with
    | O => None
    | S fuel' =>
        match loop_body archetype k dt l with
        | Py.Raise e => Some (Py.Raise e)
        | Py.Ok (Break l') => Some (Py.Ok l')
        | Py.Ok (Continue l') => trajectory_loop fuel' archetype k dt l'
        end
    end
  else Some (Py.Ok l).

(** The part of [calculate_trajectory] before the loop. *)
Definition prepare (archetype : ShotArchetype) (speed_multiplier : float)
  : Py.res (constants * loop_state) :=
  let v0 := mph_to_ms (ball_speed archetype * speed_multiplier) in
  let angle_rad := Py.radians (launch_angle archetype) in
  ca <- Py.mcos lm angle_rad ;;
  let vx := v0 * ca in
  sa <- Py.msin lm angle_rad ;;
  let vy := v0 * sa in
  let vz := 0.0 in
  let radius := 0.02135 in
  r2 <- Py.py_pow lm radius 2 ;;
  let k := {| g := 9.81; rho := 1.225; mass := 0.0459; radius := radius;
              area := Py.pi * r2; cd := 0.25; cl := 0.15;
              spin_rad_s := spin_rate archetype * 2 * Py.pi / 60;
              spin_axis_rad := Py.radians (spin_axis archetype) |} in
  Py.Ok (k, mkLoop 0.0 0.0 0.0 vx vy vz 0.0 []).

(** [calculate_trajectory(archetype, speed_multiplier, dt)], its loop
    bounded by [fuel]. *)
Definition calculate_trajectory_fuel (fuel : nat) (archetype : ShotArchetype)
  (speed_multiplier dt : float) : option (Py.res (list TrajectoryPoint)) :=
  match prepare archetype speed_multiplier with
  | Py.Raise e => Some (Py.Raise e)
  | Py.Ok (k, l0) =>
      match trajectory_loop fuel archetype k dt l0 with
      | None => None
      | Some (Py.Raise e) => Some (Py.Raise e)
      | Some (Py.Ok l) => Some (Py.Ok (l_trajectory l))
      end
  end.

(** The number of loop iterations that no call with the default
    [dt = 0.02] exceeds: the clock passes 15 within that many additions
    of 0.02, whatever the archetype. *)
Definition max_steps : nat := 751.

(** [calculate_trajectory(archetype, speed_multiplier)] with the default
    [dt = 0.02], the only way the module calls it. *)
Definition calculate_trajectory (archetype : ShotArchetype)
  (speed_multiplier : float) : option (Py.res (list TrajectoryPoint)) :=
  calculate_trajectory_fuel max_steps archetype speed_multiplier 0.02.

(** One value of the dict [generate_speed_variants] builds. *)
Record variant : Type := mkVariant {
  speed_mph : float;
  carry_yards : float;
  max_height_yards : float;
  curve_yards : float;
  curve_direction : string;
  flight_time_seconds : float;
  v_points : list TrajectoryPoint
}.

(** [max(p.y for p in trajectory)]; an empty sequence is a
    [ValueError]. *)
Definition max_y (trajectory : list TrajectoryPoint) : Py.res float :=
  match trajectory with
  | [] => Py.Raise Py.ValueError
  | p :: ps => Py.Ok (fold_left (fun m q => Py.max2 m (p_y q)) ps (p_y p))
  end.

(** The body of the [for speed_pct in ...] loop, given the trajectory. *)
Definition variant_of (archetype : ShotArchetype) (multiplier : float)
  (trajectory : list TrajectoryPoint) : Py.res variant :=
  let rnd := Py.py_round lm in
  let points :=
    map (fun p => mkPoint (rnd (p_x p) 3%Z) (rnd (p_y p) 3%Z)
                          (rnd (p_z p) 3%Z) (rnd (p_t p) 3%Z)) trajectory in
  max_height <- max_y trajectory ;;
  let last := List.last (map Some trajectory) None in
  let total_distance := match last with Some p => p_x p | None => 0 end in
  let total_curve := match last with Some p => p_z p | None => 0 end in
  let flight_time := match last with Some p => p_t p | None => 0 end in
  Py.Ok {| speed_mph := rnd (ball_speed archetype * multiplier) 1%Z;
           carry_yards := rnd (meters_to_yards total_distance) 1%Z;
           max_height_yards := rnd (meters_to_yards max_height) 1%Z;
           curve_yards := rnd (meters_to_yards (abs total_curve)) 1%Z;
           curve_direction :=
             if Py.gtb total_curve 0 then "right"
             else if total_curve <? 0 then "left" else "straight";
           flight_time_seconds := rnd flight_time 2%Z;
           v_points := points |}.

Definition speed_percentages : list Z := [60; 70; 80; 90; 100; 110; 120]%Z.

(** The key [f"{speed_pct}pct"] of a variant stands as the integer
    [speed_pct]. *)
Fixpoint variants_for (archetype : ShotArchetype) (pcts : list Z)
  : option (Py.res (list (Z * variant))) :=
  match pcts with
  | [] => Some (Py.Ok [])
  | speed_pct :: rest =>
      let multiplier := Py.of_Z speed_pct / 100.0 in
      match calculate_trajectory archetype multiplier with
      | None => None
      | Some (Py.Raise e) => Some (Py.Raise e)
      | Some (Py.Ok trajectory) =>
          match variant_of archetype multiplier trajectory with
          | Py.Raise e => Some (Py.Raise e)
          | Py.Ok v =>
              match variants_for archetype rest with
              | Some (Py.Ok vs) => Some (Py.Ok ((speed_pct, v) :: vs))
              | other => other
              end
          end
      end
  end.

(** [generate_speed_variants(archetype)] *)
Definition generate_speed_variants (archetype : ShotArchetype)
  : option (Py.res (list (Z * variant))) :=
  variants_for archetype speed_percentages.
End WithLibm.

(** A recorded point passed the loop test: its height is [>= 0] or its
    time is below 0.1. *)
Definition in_flight (p : TrajectoryPoint) : Prop :=
  Py.geb (p_y p) 0 || (p_t p <? 0.1) = true.

End Tables.

(** ** homography_calibration.py *)

Module Homography.

Section WithCv.
Variable lm : Py.Libm.

(** The 3x3 matrix of [cv2.getPerspectiveTransform] and the transform
    [cv2.perspectiveTransform] applies with it are OpenCV's; the transform
    is a function of the matrix and the pixel point. *)
Variable homography : Type.
Variable perspectiveTransform : homography -> float * float -> float * float.

(** The attributes of a [HomographyCalibrator]. *)
Record calibrator : Type := mkCalibrator {
  homography_matrix : option homography;
  pixels_per_meter : option float;
  calibration_method : option string
}.

(** [HomographyCalibrator.__init__] *)
Definition init : calibrator :=
  {| homography_matrix := None; pixels_per_meter := None;
     calibration_method := None |}.

(** [calibrate_from_known_object(pixel_diameter, real_diameter_meters)]:
    the object after the call and the returned ratio. *)
Definition calibrate_from_known_object (c : calibrator)
  (pixel_diameter real_diameter_meters : float) : Py.res (calibrator * float) :=
  if (pixel_diameter <=? 0) || (real_diameter_meters <=? 0)
  then Py.Raise Py.ValueError
  else
    ratio <- Py.fdiv pixel_diameter real_diameter_meters ;;
    Py.Ok ({| homography_matrix := homography_matrix c;
              pixels_per_meter := Some ratio;
              calibration_method := Some "known_object"%string |}, ratio).

(** [calibrate_from_distance_marker(point1_px, point2_px,
    real_distance_meters)] *)
Definition calibrate_from_distance_marker (c : calibrator)
  (point1_px point2_px : float * float) (real_distance_meters : float)
  : Py.res (calibrator * float) :=
  a <- Py.py_pow lm (fst point2_px - fst point1_px) 2 ;;
  b <- Py.py_pow lm (snd point2_px - snd point1_px) 2 ;;
  pixel_distance <- Py.msqrt (a + b) ;;
  ratio <- Py.fdiv pixel_distance real_distance_meters ;;
  Py.Ok ({| homography_matrix := homography_matrix c;
            pixels_per_meter := Some ratio;
            calibration_method := Some "distance_marker"%string |}, ratio).

(** [pixel_to_meters(pixel_point, use_homography=True)] *)
Definition pixel_to_meters (c : calibrator) (pixel_point : float * float)
  (use_homography : bool) : Py.res (float * float) :=
  match (if use_homography then homography_matrix c else None) with
  | Some m => Py.Ok (perspectiveTransform m pixel_point)
  | None =>
      match pixels_per_meter c with
      | Some ratio =>
          x_meters <- Py.fdiv (fst pixel_point) ratio ;;
          y_meters <- Py.fdiv (snd pixel_point) ratio ;;
          Py.Ok (x_meters, y_meters)
      | None => Py.Raise Py.ValueError
      end
  end.

(** [calculate_real_world_distance(point1_px, point2_px)] *)
Definition calculate_real_world_distance (c : calibrator)
  (point1_px point2_px : float * float) : Py.res float :=
  p1_real <- pixel_to_meters c point1_px true ;;
  p2_real <- pixel_to_meters c point2_px true ;;
  a <- Py.py_pow lm (fst p2_real - fst p1_real) 2 ;;
  b <- Py.py_pow lm (snd p2_real - snd p1_real) 2 ;;
  Py.msqrt (a + b).

(** [is_calibrated()] *)
Definition is_calibrated (c : calibrator) : bool :=
  match pixels_per_meter c with Some _ => true | None => false end
  || match homography_matrix c with Some _ => true | None => false end.

(** [quick_calibrate_from_ball(ball_radius_pixels)] *)
Definition quick_calibrate_from_ball (ball_radius_pixels : float)
  : Py.res calibrator :=
  let GOLF_BALL_DIAMETER_METERS := 0.0427 in
  let calibrator := init in
  ' (calibrator, _) <-
    calibrate_from_known_object calibrator (ball_radius_pixels * 2)
      GOLF_BALL_DIAMETER_METERS ;;
  Py.Ok calibrator.

(** What [LaunchVectorCalculator._calculate_speed] makes of its
    [self.calibrator]: the test [self.calibrator and
    self.calibrator.is_calibrated()] and, when it holds, the calls of
    [pixel_to_meters]. *)
Definition for_launch (c : option calibrator)
  : option (float * float -> Py.res (float * float)) :=
  match c with
  | Some c => if is_calibrated c then Some (fun p => pixel_to_meters c p true)
              else None
  | None => None
  end.
End WithCv.

End Homography.

(** ** shot_archetypes.py *)

Module Archetypes.

(** One value of the dict [SHOT_TYPES]. *)
Record shot : Type := mkShot {
  name : string;
  launch_angle : Z;
  backspin_rpm : Z;
  side_spin_axis : Z;
  color : string;
  description : string;
  typical_distance_loss : Z;
  curve_severity : string
}.

(** [SHOT_TYPES], in the order of its keys. *)
Definition SHOT_TYPES : list (string * shot) :=
  [ ("high_slice",
     mkShot "High Slice" 16 3500 20 "#FF5252"
       "High launch, strong right curve" 30 "severe");
    ("medium_slice",
     mkShot "Medium Slice" 13 3000 15 "#FF9800"
       "Medium launch, moderate right curve" 20 "moderate");
    ("low_fade",
     mkShot "Low Fade" 9 2200 8 "#FFC107"
       "Low launch, gentle right curve (controlled)" 5 "mild");
    ("straight",
     mkShot "Straight" 12 2500 0 "#4CAF50"
       "Neutral flight, minimal curve" 0 "none");
    ("low_draw",
     mkShot "Low Draw" 9 2200 (-8) "#2196F3"
       "Low launch, gentle left curve (controlled)" 5 "mild");
    ("medium_hook",
     mkShot "Medium Hook" 12 2300 (-15) "#3F51B5"
       "Medium launch, moderate left curve" 20 "moderate");
    ("high_hook",
     mkShot "High Hook" 15 2800 (-25) "#9C27B0"
       "High launch, strong left curve" 30 "severe");
    ("low_snap_hook",
     mkShot "Low Snap Hook" 7 1800 (-30) "#673AB7"
       "Low launch with severe left curve (often dives)" 50 "extreme");
    ("high_balloon",
     mkShot "High Balloon" 18 4500 5 "#00BCD4"
       "Very high launch, stalls in air, limited distance" 40 "mild") ]%string%Z.

(** [d.get(key)] on a dict kept as the list of its items. *)
Fixpoint get {A : Type} (d : list (string * A)) (key : string) : option A :=
  match d with
  | [] => None
  | (k, v) :: rest => if String.eqb k key then Some v else get rest key
  end.

(** [get_archetype(shot_type)] *)
Definition get_archetype (shot_type : string) : option shot :=
  get SHOT_TYPES shot_type.

(** [get_all_archetypes()]: each value with its key. *)
Definition get_all_archetypes : list (string * shot) := SHOT_TYPES.

(** [get_archetypes_for_display()]: key, name, color and description. *)
Definition get_archetypes_for_display : list (string * string * string * string) :=
  map (fun kv => (fst kv, name (snd kv), color (snd kv), description (snd kv)))
      SHOT_TYPES.

(** [estimate_archetype_from_curve(observed_curve_yards, direction)] *)
Definition estimate_archetype_from_curve (observed_curve_yards : float)
  (direction : string) : string :=
  let curve := abs observed_curve_yards in
  if String.eqb direction "right" then
    if Py.gtb curve 40 then "high_slice"
    else if Py.gtb curve 25 then "medium_slice"
    else if Py.gtb curve 10 then "low_fade"
    else "straight"
  else
    if Py.gtb curve 50 then "low_snap_hook"
    else if Py.gtb curve 35 then "high_hook"
    else if Py.gtb curve 20 then "medium_hook"
    else if Py.gtb curve 10 then "low_draw"
    else "straight".

(** The three entries of a [SHOT_TYPES] value that
    [TrajectorySimulator.simulate_archetype] reads; the integers enter
    float arithmetic there. *)
Definition archetype_data (s : shot) : Physics.archetype_data :=
  Physics.mkArchetypeData (Py.of_Z (launch_angle s)) (Py.of_Z (backspin_rpm s))
                          (Py.of_Z (side_spin_axis s)).

End Archetypes.

(** ** gps_converter.py *)

Module Gps.

Section WithLibm.
Variable lm : Py.Libm.

(** The C library's [asin], behind [math.asin]. *)
Variable c_asin : float -> float.

Definition masin (x : float) : Py.res float := Py.math_1 c_asin x.

(** Earth radius in meters; [distance_meters / R] divides by this non-zero
    constant. *)
Definition R : float := 6378137.

(** [calculate_new_gps(start_lat, start_lon, distance_meters,
    bearing_degrees)] *)
Definition calculate_new_gps (start_lat start_lon distance_meters
  bearing_degrees : float) : Py.res (float * float) :=
  let lat1 := Py.radians start_lat in
  let lon1 := Py.radians start_lon in
  let bearing := Py.radians bearing_degrees in
  s_lat1 <- Py.msin lm lat1 ;;
  c_d <- Py.mcos lm (distance_meters / R) ;;
  c_lat1 <- Py.mcos lm lat1 ;;
  s_d <- Py.msin lm (distance_meters / R) ;;
  c_b <- Py.mcos lm bearing ;;
  lat2 <- masin (s_lat1 * c_d + c_lat1 * s_d * c_b) ;;
  s_b <- Py.msin lm bearing ;;
  s_d' <- Py.msin lm (distance_meters / R) ;;
  c_lat1' <- Py.mcos lm lat1 ;;
  c_d' <- Py.mcos lm (distance_meters / R) ;;
  s_lat1' <- Py.msin lm lat1 ;;
  s_lat2 <- Py.msin lm lat2 ;;
  a <- Py.matan2 lm (s_b * s_d' * c_lat1') (c_d' - s_lat1' * s_lat2) ;;
  let lon2 := lon1 + a in
  Py.Ok (Py.degrees lat2, Py.degrees lon2).

(** The body of the loop of [trajectory_to_gps] for one point. *)
Definition point_to_gps (start_lat start_lon initial_bearing_deg : float)
  (point : float * float * float) : Py.res (float * float * float) :=
  let '(x, y, z) := point in
  x2 <- Py.py_pow lm x 2 ;;
  y2 <- Py.py_pow lm y 2 ;;
  distance <- Py.msqrt (x2 + y2) ;;
  if distance <? 0.1 then Py.Ok (start_lat, start_lon, z)
  else
    a <- Py.matan2 lm y x ;;
    let lateral_angle := Py.degrees a in
    let bearing := initial_bearing_deg + lateral_angle in
    ' (new_lat, new_lon) <- calculate_new_gps start_lat start_lon distance bearing ;;
    Py.Ok (new_lat, new_lon, z).

(** [trajectory_to_gps(trajectory_points, start_lat, start_lon,
    initial_bearing_deg)] *)
Fixpoint trajectory_to_gps (trajectory_points : list (float * float * float))
  (start_lat start_lon initial_bearing_deg : float)
  : Py.res (list (float * float * float)) :=
  match trajectory_points with
  | [] => Py.Ok []
  | point :: rest =>
      g <- point_to_gps start_lat start_lon initial_bearing_deg point ;;
      gs <- trajectory_to_gps rest start_lat start_lon initial_bearing_deg ;;
      Py.Ok (g :: gs)
  end.

(** The dict returned by [create_search_zone]. *)
Record search_zone : Type := mkZone {
  center : float * float;
  radius_meters : float;
  radius_yards : float;
  perimeter_points : list (float * float)
}.

(** The loop [for angle in range(0, 360, 45)]. *)
Fixpoint circle_points (lat lon radius_meters : float) (angles : list Z)
  : Py.res (list (float * float)) :=
  match angles with
  | [] => Py.Ok []
  | angle :: rest =>
      p <- calculate_new_gps lat lon radius_meters (Py.of_Z angle) ;;
      ps <- circle_points lat lon radius_meters rest ;;
      Py.Ok (p :: ps)
  end.

(** [create_search_zone(landing_gps, radius_meters)]; the default radius
    is [15]. *)
Definition create_search_zone (landing_gps : float * float) (radius_meters : float)
  : Py.res search_zone :=
  let '(lat, lon) := landing_gps in
  circle <- circle_points lat lon radius_meters
              [0; 45; 90; 135; 180; 225; 270; 315]%Z ;;
  Py.Ok {| center := (lat, lon);
           radius_meters := radius_meters;
           radius_yards := radius_meters * 1.09361;
           perimeter_points := circle |}.
End WithLibm.

End Gps.

(** ** A C library for the worked examples

    The examples below run the code on concrete inputs, which takes a
    concrete [Libm].  This one is correctly rounded and is defined only
    where the examples call it: [sin] and [cos] at whole degrees of a table
    (the values glibc returns there as well), [atan2] at two points, [pow]
    for squares and two tabulated powers, [fmod] where the dividend is
    already in range.  Anywhere else it answers NaN, which [math_1] turns
    into a [ValueError], so that an example cannot silently depend on an
    untabulated value. *)

Module Samples.

(** [(degrees, (sin, cos))] *)
Definition trig_table : list (float * (float * float)) :=
  [ (7,  (0.12186934340514748, 0.992546151641322));
    (8,  (0.13917310096006544, 0.9902680687415704));
    (10, (0.17364817766693033, 0.984807753012208));
    (11, (0.1908089953765448,  0.981627183447664));
    (12, (0.20791169081775934, 0.9781476007338057));
    (14, (0.24192189559966773, 0.9702957262759965));
    (15, (0.25881904510252074, 0.9659258262890683));
    (16, (0.27563735581699916, 0.9612616959383189));
    (18, (0.3090169943749474,  0.9510565162951535));
    (20, (0.3420201433256687,  0.9396926207859084));
    (30, (0.49999999999999994, 0.8660254037844387)) ].

Definition trig (x : float) : option (float * float) :=
  option_map snd (find (fun e => Py.radians (fst e) =? abs x) trig_table).

Definition sin (x : float) : float :=
  if x =? 0 then x
  else match trig x with
       | Some (s, _) => if x <? 0 then - s else s
       | None => nan
       end.

Definition cos (x : float) : float :=
  if x =? 0 then 1
  else match trig x with
       | Some (_, c) => c
       | None => nan
       end.

(** [atan2(25, 100)] and [atan2(-25, 100)] *)
Definition atan2 (y x : float) : float :=
  if (abs y =? 25) && (x =? 100)
  then (if y <? 0 then -0.24497866312686414 else 0.24497866312686414)
  else nan.

(** [pow(x, 2.0)] is the rounded product; [pow(0.15, 3.0)] and
    [pow(0.15, 4.0)] are tabulated. *)
Definition pow (x y : float) : float :=
  if y =? 2 then x * x
  else if (x =? 0.15) && (y =? 3) then 0.0033749999999999995
  else if (x =? 0.15) && (y =? 4) then 0.00050625
  else nan.

Definition fmod (a b : float) : float :=
  if (0 <=? a) && (a <? b) then a else nan.

(** [round(x, ndigits)] for [ndigits >= 0]: the exact binary value
    [m * 2^e] is rounded half-even to a multiple of [10^-ndigits], and
    the quotient of the two integers is then the nearest float. *)
Definition round (x : float) (ndigits : Z) : float :=
  match Prim2SF x with
  | S754_finite s m e =>
      if (0 <=? e)%Z then x
      else
        let num := (Zpos m * 10 ^ ndigits)%Z in
        let den := (2 ^ (- e))%Z in
        let q := (num / den)%Z in
        let r := (num mod den)%Z in
        let q := match (2 * r ?= den)%Z with
                 | Lt => q
                 | Gt => (q + 1)%Z
                 | Eq => if Z.even q then q else (q + 1)%Z
                 end in
        let v := Py.of_Z q / Py.of_Z (10 ^ ndigits) in
        if s then - v else v
  | _ => x
  end.

Definition libm : Py.Libm :=
  {| Py.c_sin := sin; Py.c_cos := cos; Py.c_atan2 := atan2;
     Py.c_pow := pow; Py.c_fmod := fmod; Py.py_round := round |}.

(** [TrajectorySimulator()] *)
Definition simulator : Physics.simulator :=
  Eval vm_compute in
    match Physics.init libm with
    | Py.Ok s => s
    | Py.Raise _ => Physics.mkSimulator nan nan nan nan nan nan nan nan
    end.

(** A call of [simulate_flight] with the default wind, temperature and
    altitude. *)
Definition shot (speed_mph angle_deg backspin side_spin : float) : Physics.launch :=
  {| Physics.launch_speed_mph := speed_mph;
     Physics.launch_angle_deg := angle_deg;
     Physics.backspin_rpm := backspin;
     Physics.side_spin_axis_deg := side_spin;
     Physics.wind_speed_mph := 0;
     Physics.wind_direction_deg := 0;
     Physics.temperature_f := 70;
     Physics.altitude_m := 0 |}.

(** [KalmanTracker()] with the default noise and time step, and the same
    tracker after its first detection. *)
Definition fresh_tracker : Kalman.tracker :=
  Eval vm_compute in
    match Kalman.init libm 1.0 10.0 0.15 with
    | Py.Ok k => k
    | Py.Raise _ => Kalman.mkTracker nan None None [] [] [] [] false 0 0
    end.

Definition tracked : Kalman.tracker :=
  Eval vm_compute in fst (Kalman.update fresh_tracker (Some (100, 200, 5))).

(** [KalmanTracker(process_noise=1.0, measurement_noise=r, dt=0.0)]: a
    degenerate noise configuration, the measurement noise being zero or
    next to zero. *)
Definition degenerate_tracker (r : float) : Kalman.tracker :=
  match Kalman.init libm 1.0 r 0.0 with
  | Py.Ok k => k
  | Py.Raise _ => Kalman.mkTracker nan None None [] [] [] [] false 0 0
  end.

(** The first three detections of the specification's Kalman scenario. *)
Definition detections : list (option (float * float * float)) :=
  [Some (100, 200, 5); Some (120, 195, 5); Some (140, 190, 5)].



(** Frames for the detector examples are numbered; the wide detector
    finds the box [(300, 200, 24, 24)] in every frame, and the local
    detector sees the ball in frame 9 only. *)
Definition yolo_box (f : nat) : option Hybrid.rect := Some (300, 200, 24, 24)%Z.



Definition hough_frame9 (f : nat) (r : option Hybrid.rect)
  : option ((Z * Z) * Z) :=
  if Nat.eqb f 9 then Some ((312, 212), 6)%Z else None.

(** The test trajectory of [launch_vector.py], and its first two points. *)
Definition test_trajectory : list Launch.point :=
  [ Launch.mkPoint 100 200 (Some 0.0) (Some 0%Z);
    Launch.mkPoint 120 195 (Some 0.033) (Some 1%Z);
    Launch.mkPoint 140 190 (Some 0.066) (Some 2%Z);
    Launch.mkPoint 160 185 (Some 0.099) (Some 3%Z);
    Launch.mkPoint 180 180 (Some 0.132) (Some 4%Z);
    Launch.mkPoint 200 175 (Some 0.165) (Some 5%Z) ].

Definition two_points : list Launch.point := firstn 2 test_trajectory.

(** The second entry of [ARCHETYPES]. *)
Definition high_straight : Tables.ShotArchetype :=
  Tables.mkArchetype "high_straight" 3000 0 16 155 0.0.

(** [lo < v < hi] *)
Definition between (lo v hi : float) : bool := (lo <? v) && (v <? hi).

(** The numbered frames as 640 x 480 images in which OpenCV reports one
    circle of radius 6 at the centre of whatever image it is given. *)
Definition frame_shape (f : nat) : Z * Z := (480, 640)%Z.

Definition centre_circle (f : nat) (region : option Hybrid.rect) (max_radius : Z)
  : option (list (Z * Z * Z)) :=
  let '(_, _, w, h) := Hybrid.searched nat frame_shape f region in
  if ((0 <? w) && (0 <? h))%Z then Some [(w / 2, h / 2, 6)%Z] else None.

(** [asin] is tabulated nowhere: like the rest of this library it answers
    NaN, and [math_1] raises. *)
Definition asin (x : float) : float := nan.

(** A chip of 1 mph, which lands after two recorded points within a
    centimeter of the tee. *)
Definition chip : Physics.launch := shot 1 12 2500 0.

(** [high_straight] with a ball speed far out of range. *)
Definition overflowing : Tables.ShotArchetype :=
  Tables.mkArchetype "overflowing" 3000 0 16 1e200 0.

(** Frames in which OpenCV reports no circle, and a wide detector that
    finds nothing but, in frame 5, a box beyond the right edge of the
    640 x 480 frame. *)
Definition no_circles (f : nat) (region : option Hybrid.rect) (max_radius : Z)
  : option (list (Z * Z * Z)) := None.

Definition yolo_beyond_edge (f : nat) : option Hybrid.rect :=
  if Nat.eqb f 5 then Some (700, 100, 24, 24)%Z else None.

End Samples.

(** * Theorems *)

(** ** Facts on IEEE comparisons *)

Module PyFacts.

Lemma SFcompare_antisym (a b : spec_float) :
  SFcompare a b = option_map CompOpp (SFcompare b a).
Proof.
  destruct a as [sa|sa| |sa ma ea], b as [sb|sb| |sb mb eb]; simpl;
    try reflexivity;
    try (destruct sa; reflexivity);
    try (destruct sb; reflexivity);
    try (destruct sa, sb; reflexivity).
  destruct sa, sb; try reflexivity;
    rewrite (Z.compare_antisym eb ea);
    destruct (eb ?= ea)%Z; simpl; try reflexivity;
    rewrite (Pos.compare_cont_antisym mb ma Eq); simpl;
    destruct (Pos.compare_cont Eq mb ma); reflexivity.
Qed.

Lemma SFcompare_refl (a : spec_float) :
  SFcompare a a = match a with S754_nan => None | _ => Some Eq end.
Proof.
  destruct a as [s|s| |s m e]; simpl; try reflexivity.
  - destruct s; reflexivity.
  - rewrite Z.compare_refl, Pos.compare_cont_refl. destruct s; reflexivity.
Qed.

Lemma is_nan_spec (v : float) :
  is_nan v = match Prim2SF v with S754_nan => true | _ => false end.
Proof.
  unfold is_nan. rewrite eqb_spec. unfold SFeqb. rewrite SFcompare_refl.
  destruct (Prim2SF v); reflexivity.
Qed.

Lemma ltb_leb (a b : float) : (a <? b) = true -> (a <=? b) = true.
Proof.
  rewrite ltb_spec, leb_spec. unfold SFltb, SFleb.
  destruct (SFcompare _ _) as [[]|]; congruence.
Qed.

Lemma ltb_not_nan (a b : float) :
  (a <? b) = true -> is_nan a = false /\ is_nan b = false.
Proof.
  rewrite ltb_spec, !is_nan_spec. unfold SFltb.
  destruct (Prim2SF a), (Prim2SF b); simpl; try discriminate; auto.
Qed.

Lemma not_ltb_leb (a b : float) :
  is_nan a = false -> is_nan b = false -> (a <? b) = false -> (b <=? a) = true.
Proof.
  rewrite ltb_spec, leb_spec, !is_nan_spec. unfold SFltb, SFleb.
  rewrite (SFcompare_antisym (Prim2SF b) (Prim2SF a)).
  destruct (Prim2SF a) eqn:Ea, (Prim2SF b) eqn:Eb; try discriminate; intros _ _;
    destruct (SFcompare _ _) as [[]|] eqn:E; simpl; try congruence;
    simpl in E; discriminate E.
Qed.

(** [min(hi, a)] then [max(lo, .)] never yields NaN and stays in range,
    whatever [a] is. *)
Lemma clamp_range (lo hi a : float) :
  (lo <? hi) = true ->
  let c := Py.max2 lo (Py.min2 hi a) in
  is_nan c = false /\ (lo <=? c) = true /\ (c <=? hi) = true.
Proof.
  intros Hlh c. subst c. unfold Py.max2, Py.min2, Py.gtb.
  destruct (ltb_not_nan _ _ Hlh) as [Nl Nh].
  assert (Rl : (lo <=? lo) = true).
  { apply not_ltb_leb; auto.
    rewrite ltb_spec. unfold SFltb. rewrite SFcompare_refl.
    destruct (Prim2SF lo); reflexivity. }
  assert (Rh : (hi <=? hi) = true).
  { apply not_ltb_leb; auto.
    rewrite ltb_spec. unfold SFltb. rewrite SFcompare_refl.
    destruct (Prim2SF hi); reflexivity. }
  destruct (a <? hi) eqn:Ea.
  - destruct (lo <? a) eqn:El.
    + repeat split; auto using ltb_leb. apply (ltb_not_nan _ _ Ea).
    + repeat split; auto using ltb_leb.
  - rewrite Hlh. repeat split; auto using ltb_leb.
Qed.

End PyFacts.

(** ** kalman_tracker.py *)

Module KalmanFacts.
Import Np Kalman.

(** The tracker [predict] leaves behind when there is a state to
    propagate. *)
Lemma predict_initialized (k : tracker) (xv Pv : matrix) :
  is_initialized k = true -> x k = Some xv -> P k = Some Pv ->
  predict k =
    (set_P (set_x k (Some (F k @ xv)))
           (Some (madd (F k @ Pv @ transpose (F k)) (Q k))),
     Py.Ok (Some (F k @ xv))).
Proof.
  intros Hi Hx HP. unfold predict. rewrite Hi, Hx. simpl. rewrite HP. reflexivity.
Qed.

(** One missed frame on a live track, by cases on the counter. *)
Lemma update_none_step (k : tracker) (xv Pv : matrix) :
  is_initialized k = true -> x k = Some xv -> P k = Some Pv ->
  update k None =
    if (miss_count k + 1 >=? max_misses k)%Z
    then (set_P (set_x (set_is_initialized
                          (set_miss_count k (miss_count k + 1)%Z) false) None) None,
          Py.Ok None)
    else (set_P (set_x (set_miss_count k (miss_count k + 1)%Z) (Some (F k @ xv)))
                (Some (madd (F k @ Pv @ transpose (F k)) (Q k))),
          Py.Ok (Some (estimate_of (F k @ xv) 0 true))).
Proof.
  intros Hi Hx HP. unfold update. cbn [miss_count max_misses set_miss_count].
  destruct (miss_count k + 1 >=? max_misses k)%Z; [reflexivity|].
  rewrite (predict_initialized _ xv Pv) by assumption. reflexivity.
Qed.

(** Fewer misses than the threshold leaves: the track survives and every
    frame returns a prediction. *)
Lemma run_misses_alive (n : nat) : forall (k : tracker) (xv Pv : matrix),
  is_initialized k = true -> x k = Some xv -> P k = Some Pv ->
  (miss_count k + Z.of_nat n < max_misses k)%Z ->
  exists k' xv' Pv' rs,
    run k (misses n) = (k', Py.Ok rs) /\
    is_initialized k' = true /\ x k' = Some xv' /\ P k' = Some Pv' /\
    miss_count k' = (miss_count k + Z.of_nat n)%Z /\
    max_misses k' = max_misses k /\
    List.length rs = n /\
    Forall (fun r => exists e, r = Some e /\ predicted e = true) rs.
Proof.
  induction n as [|n IH]; intros k xv Pv Hi Hx HP Hlt.
  - exists k, xv, Pv, []. simpl. repeat split; auto. lia.
  - cbn [misses repeat run].
    rewrite (update_none_step k xv Pv) by assumption.
    destruct (miss_count k + 1 >=? max_misses k)%Z eqn:E; [lia|].
    set (k1 := set_P _ _).
    destruct (IH k1 (F k @ xv) (madd (F k @ Pv @ transpose (F k)) (Q k)))
      as (k' & xv' & Pv' & rs & Hr & Hi' & Hx' & HP' & Hm & HM & Hl & Hf);
      [ exact Hi | reflexivity | reflexivity | subst k1; simpl; lia | ].
    unfold misses in Hr. rewrite Hr.
    exists k', xv', Pv', (Some (estimate_of (F k @ xv) 0 true) :: rs).
    subst k1. simpl in Hm, HM.
    repeat split; auto; try lia.
    + simpl. lia.
    + constructor; [eexists; split; reflexivity | assumption].
Qed.

(** As many misses as the threshold leaves: the last one discards the
    track. *)
Lemma run_misses_lost (n : nat) : forall (k : tracker) (xv Pv : matrix),
  is_initialized k = true -> x k = Some xv -> P k = Some Pv ->
  (miss_count k + Z.of_nat (S n) = max_misses k)%Z ->
  exists k' rs,
    run k (misses (S n)) = (k', Py.Ok (rs ++ [None])) /\
    is_initialized k' = false /\ x k' = None /\ P k' = None /\
    List.length rs = n /\
    Forall (fun r => exists e, r = Some e /\ predicted e = true) rs.
Proof.
  induction n as [|n IH]; intros k xv Pv Hi Hx HP Heq.
  - cbn [misses repeat run].
    rewrite (update_none_step k xv Pv) by assumption.
    destruct (miss_count k + 1 >=? max_misses k)%Z eqn:E; [|lia].
    eexists _, []. simpl. repeat split; auto.
  - change (misses (S (S n))) with (None :: misses (S n)). cbn [run].
    rewrite (update_none_step k xv Pv) by assumption.
    destruct (miss_count k + 1 >=? max_misses k)%Z eqn:E; [lia|].
    set (k1 := set_P _ _).
    destruct (IH k1 (F k @ xv) (madd (F k @ Pv @ transpose (F k)) (Q k)))
      as (k' & rs & Hr & Hi' & Hx' & HP' & Hl & Hf);
      [ exact Hi | reflexivity | reflexivity | subst k1; simpl; lia | ].
    rewrite Hr.
    exists k', (Some (estimate_of (F k @ xv) 0 true) :: rs).
    repeat split; auto.
    + simpl. lia.
    + constructor; [eexists; split; reflexivity | assumption].
Qed.

(** C1, as the claim states it, fails: [max_misses] is 6, and the sixth
    consecutive frame without a detection already discards the track of
    [Samples.tracked]: the counter is then 6, which has reached but not
    exceeded [max_misses], and that call returns [None]. *)
Lemma six_misses_discard_track :
  miss_count Samples.tracked = 0%Z /\ max_misses Samples.tracked = 6%Z /\
  exists k' e1 e2 e3 e4 e5,
    run Samples.tracked (misses 6) =
      (k', Py.Ok [Some e1; Some e2; Some e3; Some e4; Some e5; None]) /\
    miss_count k' = 6%Z /\ (miss_count k' >? max_misses k')%Z = false /\
    is_initialized k' = false /\ x k' = None /\ P k' = None.
Proof.
  split; [reflexivity|]. split; [reflexivity|].
  do 6 eexists. vm_compute. repeat split; reflexivity.
Qed.

(** C1 (amended): on an initialized tracker, [update(None)] increments the
    miss counter; when the counter has reached [max_misses] (the test is
    [>=]) it discards the state and returns [None], otherwise it only
    predicts and returns the propagated state with [predicted = True].
    So after a detection, fewer than [max_misses] consecutive misses keep
    the track, exactly [max_misses] of them discard it, and the next
    detection then initializes afresh with zero velocity. *)
Theorem update_without_measurement (k : tracker) (xv Pv : matrix) :
  is_initialized k = true -> x k = Some xv -> P k = Some Pv ->
  (let k' := fst (update k None) in
   miss_count k' = (miss_count k + 1)%Z /\
   if (miss_count k + 1 >=? max_misses k)%Z
   then snd (update k None) = Py.Ok None /\
        is_initialized k' = false /\ x k' = None /\ P k' = None
   else snd (update k None) = Py.Ok (Some (estimate_of (F k @ xv) 0 true)) /\
        is_initialized k' = true /\ x k' = Some (F k @ xv) /\
        P k' = Some (madd (F k @ Pv @ transpose (F k)) (Q k))) /\
  (miss_count k = 0%Z -> (0 < max_misses k)%Z ->
   (forall n, (Z.of_nat n < max_misses k)%Z ->
      exists k' rs,
        run k (misses n) = (k', Py.Ok rs) /\ is_initialized k' = true /\
        Forall (fun r => exists e, r = Some e /\ predicted e = true) rs) /\
   (exists k' rs,
      run k (misses (Z.to_nat (max_misses k))) = (k', Py.Ok (rs ++ [None])) /\
      Forall (fun r => exists e, r = Some e /\ predicted e = true) rs /\
      is_initialized k' = false /\ x k' = None /\ P k' = None /\
      forall x_meas y_meas radius,
        let k'' := fst (update k' (Some (x_meas, y_meas, radius))) in
        snd (update k' (Some (x_meas, y_meas, radius))) =
          Py.Ok (Some {| e_x := x_meas; e_y := y_meas; e_vx := 0; e_vy := 0;
                         e_r := radius; predicted := false |}) /\
        x k'' = Some [[x_meas]; [y_meas]; [0]; [0]] /\
        is_initialized k'' = true /\ miss_count k'' = 0%Z)).
Proof.
  intros Hi Hx HP. split.
  - rewrite (update_none_step k xv Pv) by assumption.
    destruct (miss_count k + 1 >=? max_misses k)%Z; simpl; auto.
  - intros H0 Hpos. split.
    + intros n Hn.
      destruct (run_misses_alive n k xv Pv Hi Hx HP)
        as (k' & _ & _ & rs & Hr & Hi' & _ & _ & _ & _ & _ & Hf); [lia|].
      exists k', rs. auto.
    + destruct (Z.to_nat (max_misses k)) as [|m] eqn:Em; [lia|].
      destruct (run_misses_lost m k xv Pv Hi Hx HP)
        as (k' & rs & Hr & Hi' & Hx' & HP' & _ & Hf); [lia|].
      exists k', rs. repeat split; auto;
        unfold update; rewrite Hi'; reflexivity.
Qed.

(** The amended C1 on the tracker of the spec's scenario after its first
    detection: six misses end in a discarded track. *)
Lemma update_without_measurement_witness :
  is_initialized Samples.tracked = true /\
  exists k' rs,
    run Samples.tracked (misses 6) = (k', Py.Ok (rs ++ [None])) /\
    is_initialized k' = false.
Proof.
  split; [reflexivity|].
  destruct (update_without_measurement Samples.tracked _ _
              eq_refl eq_refl eq_refl) as [_ H].
  destruct (H eq_refl eq_refl) as [_ (k' & rs & Hr & _ & Hi & _)].
  exists k', rs. split; assumption.
Defined.

(** C5, as the claim states it, fails.  With zero measurement noise and
    [dt = 0] the third detection meets an innovation covariance that is
    exactly singular, and the [LinAlgError] of [np.linalg.inv] leaves
    [update]; with a measurement noise of [1e-320] the matrix is only
    nearly singular, nothing is raised, and the state and the returned
    estimate are NaN. *)
Lemma degenerate_noise_unguarded :
  snd (run (Samples.degenerate_tracker 0) Samples.detections)
    = Py.Raise Py.LinAlgError /\
  exists k' e1 e2 e3 xv,
    run (Samples.degenerate_tracker 1e-320) Samples.detections
      = (k', Py.Ok [Some e1; Some e2; Some e3]) /\
    x k' = Some xv /\
    forallb (forallb is_nan) xv = true /\
    is_nan (e_x e3) = true /\ is_nan (e_vx e3) = true.
Proof.
  split; [vm_compute; reflexivity|].
  do 5 eexists. vm_compute. repeat split; reflexivity.
Qed.

(** C5 (amended): [update] with a detection on an initialized tracker
    predicts, forms [S = H P H^T + R] and hands it to [np.linalg.inv]
    with no check before or after.  When [inv] raises (an exactly singular
    [S]), the exception leaves [update], the tracker keeps the predicted
    state and covariance and the miss counter is not reset; when [inv]
    returns, the gain built from its result is applied as it is. *)
Theorem update_inverts_unguarded (k : tracker) (xv Pv : matrix)
  (x_meas y_meas radius : float) :
  is_initialized k = true -> x k = Some xv -> P k = Some Pv ->
  let xp := F k @ xv in
  let Pp := madd (F k @ Pv @ transpose (F k)) (Q k) in
  let S := madd (H k @ Pp @ transpose (H k)) (R k) in
  let k' := fst (update k (Some (x_meas, y_meas, radius))) in
  match inv S with
  | Py.Raise e =>
      snd (update k (Some (x_meas, y_meas, radius))) = Py.Raise e /\
      x k' = Some xp /\ P k' = Some Pp /\
      is_initialized k' = true /\ miss_count k' = miss_count k
  | Py.Ok Sinv =>
      let K := Pp @ transpose (H k) @ Sinv in
      let xn := madd xp (K @ msub [[x_meas]; [y_meas]] (H k @ xp)) in
      snd (update k (Some (x_meas, y_meas, radius)))
        = Py.Ok (Some (estimate_of xn radius false)) /\
      x k' = Some xn /\ P k' = Some (msub (eye 4) (K @ H k) @ Pp) /\
      is_initialized k' = true /\ miss_count k' = 0%Z
  end.
Proof.
  intros Hi Hx HP xp Pp S k'. subst k'. unfold update.
  rewrite Hi. cbn [negb].
  rewrite (predict_initialized k xv Pv) by assumption.
  cbn [x P H R set_x set_P]. fold xp. fold Pp. fold S.
  destruct (inv S) as [Sinv|e]; simpl; repeat split; auto.
Qed.

(** The amended C5 on the degenerate tracker after two detections: the
    third one raises. *)
Lemma update_inverts_unguarded_witness :
  let k := fst (run (Samples.degenerate_tracker 0) (firstn 2 Samples.detections)) in
  is_initialized k = true /\
  snd (update k (Some (140, 190, 5))) = Py.Raise Py.LinAlgError.
Proof.
  cbv zeta. split; [vm_compute; reflexivity|].
  set (k := fst _).
  pose proof (update_inverts_unguarded k
                [[120]; [195]; [0]; [0]]
                [[0; 0; 0; 0]; [0; 0; 0; 0]; [0; 0; 100; 0]; [0; 0; 0; 100]]
                140 190 5) as Hw.
  cbv zeta in Hw.
  assert (Hs : inv (madd (H k @ madd (F k @ [[0; 0; 0; 0]; [0; 0; 0; 0];
                                              [0; 0; 100; 0]; [0; 0; 0; 100]]
                                       @ transpose (F k)) (Q k)
                          @ transpose (H k)) (R k))
               = Py.Raise Py.LinAlgError) by (vm_compute; reflexivity).
  rewrite Hs in Hw.
  apply Hw; vm_compute; reflexivity.
Defined.

End KalmanFacts.

(** ** hybrid_detector.py *)

Module HybridFacts.
Import Hybrid.

Section WithDetectors.
Variable frame : Type.
Variable yolo_net : frame -> option rect.
Variable hough : frame -> option rect -> option ((Z * Z) * Z).

#[local] Abbreviation detect_ball := (detect_ball frame yolo_net hough).
#[local] Abbreviation acquire := (acquire frame yolo_net).
#[local] Abbreviation run := (run frame yolo_net hough).
#[local] Abbreviation after := (after frame yolo_net hough).
#[local] Abbreviation returned := (returned frame yolo_net hough).
#[local] Abbreviation trace := (trace frame yolo_net hough).
#[local] Abbreviation _detect_with_yolo := (_detect_with_yolo frame yolo_net).





(** A call on a detector that has no ROI, when the wide detector
    contributes no box to it. *)
Lemma detect_ball_without_box (d : detector) (f : frame) :
  roi d = None ->
  _detect_with_yolo d f = None ->
  roi (after d f) = None /\
  yolo_available (after d f) = yolo_available d /\
  returned d f = match hough f None with
                 | Some (c, r) => (Some c, r)
                 | None => (None, 0%Z)
                 end /\
  (forall f' r, In (RunHough f' r) (trace d f) -> r = None) /\
  (forall f', In (RunYolo f') (trace d f) -> yolo_available d = true).
Proof.
  intros Hroi Hy.
  unfold Hybrid.after, Hybrid.returned, Hybrid.trace, Hybrid.detect_ball, Hybrid.acquire.
  change (Hybrid._detect_with_yolo frame yolo_net
            (set_frame_count d (frame_count d + 1)%Z) f)
    with (_detect_with_yolo d f).
  rewrite Hy.
  assert (Hs : should_run_yolo (set_frame_count d (frame_count d + 1)%Z) = true ->
               yolo_available d = true).
  { unfold should_run_yolo. cbn [yolo_available set_frame_count].
    destruct (yolo_available d); [reflexivity | discriminate]. }
  destruct (should_run_yolo _);
    cbn [roi set_frame_count fst snd app]; rewrite Hroi;
    (destruct (hough f None) as [[c r]|];
     [ cbn [roi set_consecutive_misses set_frame_count fst snd]; rewrite Hroi
     | cbn [consecutive_misses max_misses set_consecutive_misses set_frame_count];
       destruct (_ >? _)%Z ]);
    cbn [roi yolo_available set_roi set_consecutive_misses set_frame_count fst snd];
    repeat split; auto;
    try (intros f' r' Hin; simpl in Hin;
         repeat (destruct Hin as [Hin|Hin]; try discriminate Hin;
                 try (inversion Hin; reflexivity));
         contradiction);
    try (intros f' Hin; simpl in Hin;
         repeat (destruct Hin as [Hin|Hin]; try discriminate Hin);
         contradiction).
Qed.

(** C10: the ROI leaves [None] only through a box found by the wide
    detector; a local detection made with no ROI is returned and leaves
    the ROI [None]; and a detector without the YOLO model keeps the ROI
    [None] over any run of frames, during which no wide scan is made and
    every local search is full-frame. *)
Theorem roi_only_from_yolo :
  (forall (d : detector) (f : frame),
     roi d = None -> roi (after d f) <> None ->
     yolo_available d = true /\ exists b, yolo_net f = Some b) /\
  (forall (d : detector) (f : frame) (c : Z * Z) (r : Z),
     roi d = None -> _detect_with_yolo d f = None ->
     hough f None = Some (c, r) ->
     returned d f = (Some c, r) /\ roi (after d f) = None) /\
  (forall (fs : list frame) (d : detector),
     yolo_available d = false -> roi d = None ->
     roi (fst (fst (run d fs))) = None /\
     full_frame_only frame (snd (run d fs)) /\
     forall f, ~ In (RunYolo f) (snd (run d fs))).
Proof.
  split; [|split].
  - intros d f Hroi Hne.
    destruct (_detect_with_yolo d f) as [b|] eqn:Ey.
    + unfold Hybrid._detect_with_yolo in Ey.
      destruct (yolo_available d); [eauto | discriminate].
    + destruct (detect_ball_without_box d f Hroi Ey) as (Hr & _).
      contradiction.
  - intros d f c r Hroi Ey Hh.
    destruct (detect_ball_without_box d f Hroi Ey) as (Hr & _ & Hret & _).
    rewrite Hh in Hret. auto.
  - induction fs as [|f fs IH]; intros d Hy Hroi.
    + simpl. repeat split; auto. intros f r [].
    + assert (Ey : _detect_with_yolo d f = None)
        by (unfold Hybrid._detect_with_yolo; rewrite Hy; reflexivity).
      destruct (detect_ball_without_box d f Hroi Ey) as (Hr & Hy' & _ & Hh & Hn).
      unfold Hybrid.after, Hybrid.trace in Hr, Hy', Hh, Hn.
      cbn [Hybrid.run].
      destruct (detect_ball d f) as [[d1 r1] tr1]. simpl in Hr, Hy', Hh, Hn.
      rewrite Hy in Hy'. specialize (IH d1 Hy' Hr).
      destruct (run d1 fs) as [[d2 rs] trs]. simpl in IH. simpl.
      destruct IH as (Ha & Hb & Hc). repeat split; auto.
      * intros f0 r0 Hin. apply in_app_or in Hin. destruct Hin as [Hin|Hin];
          [eapply Hh | eapply Hb]; eauto.
      * intros f0 Hin. apply in_app_or in Hin. destruct Hin as [Hin|Hin].
        -- specialize (Hn f0 Hin). congruence.
        -- eapply Hc; eauto.
Qed.

End WithDetectors.


(** C10 on a detector built without a model: a local detection in frame 9
    is returned and the ROI stays [None]. *)
Lemma roi_only_from_yolo_witness :
  Hybrid.returned nat Samples.yolo_box Samples.hough_frame9 (Hybrid.init false) 9%nat
    = (Some (312, 212)%Z, 6%Z) /\
  roi (Hybrid.after nat Samples.yolo_box Samples.hough_frame9 (Hybrid.init false) 9%nat)
    = None.
Proof.
  apply (proj1 (proj2 (roi_only_from_yolo nat Samples.yolo_box Samples.hough_frame9)));
    reflexivity.
Defined.

End HybridFacts.

(** ** launch_vector.py *)

Module LaunchFacts.
Import Launch.

(** What the clamp and the substitution make of any corrected angle. *)
Lemma plausible_angle_range (a : float) :
  let c := clamp_angle a in
  (0 <=? c) = true /\ (c <=? 45) = true /\
  plausible_angle a =
    (if (c <? 5) || Py.gtb c 30
     then {| angle := 12; angle_method := "default_typical" |}
     else {| angle := c; angle_method := "calculated" |}) /\
  (5 <=? angle (plausible_angle a)) = true /\
  (angle (plausible_angle a) <=? 30) = true.
Proof.
  intros c.
  destruct (PyFacts.clamp_range 0 45 a eq_refl) as (Hn & Hlo & Hhi).
  fold (clamp_angle a) in Hn, Hlo, Hhi. fold c in Hn, Hlo, Hhi.
  split; [exact Hlo|]. split; [exact Hhi|]. split; [reflexivity|].
  unfold plausible_angle. fold c. unfold Py.gtb.
  destruct (c <? 5) eqn:E5; cbn [orb angle]; [split; reflexivity|].
  destruct (30 <? c) eqn:E30; cbn [angle]; [split; reflexivity|].
  split; apply PyFacts.not_ltb_leb; auto.
Qed.

(** C7, as the claim states it, fails in its last part.  On the module's
    own test trajectory a camera tilt of 5 degrees gives a measured angle
    (19.04 degrees, ["calculated"]) and a tilt of 40 degrees gives the
    substituted one (12 degrees, ["default_typical"]); the two launch
    vectors returned to the caller carry the same [method]. *)
Lemma launch_vector_method_is_constant :
  exists r1 r2 v1 v2,
    _calculate_launch_angle Samples.libm Samples.test_trajectory (Some 5) = Py.Ok r1 /\
    _calculate_launch_angle Samples.libm Samples.test_trajectory (Some 40) = Py.Ok r2 /\
    calculate_launch_vector Samples.libm None Samples.test_trajectory (Some 5) 45 30
      = Py.Ok v1 /\
    calculate_launch_vector Samples.libm None Samples.test_trajectory (Some 40) 45 30
      = Py.Ok v2 /\
    Samples.between 19.03 (angle r1) 19.04 = true /\
    angle_method r1 = "calculated"%string /\
    angle r2 = 12 /\ angle_method r2 = "default_typical"%string /\
    lv_launch_angle v1 = angle r1 /\ lv_launch_angle v2 = angle r2 /\
    lv_method v1 = Some "trajectory_analysis"%string /\
    lv_method v2 = lv_method v1.
Proof.
  do 4 eexists. vm_compute. repeat split; reflexivity.
Qed.

(** C7 (amended): for a window of at least three points the corrected
    angle is clamped to [0, 45]; a clamped angle below 5 or above 30 is
    replaced by 12, and [_calculate_launch_angle] marks its own result
    ["default_typical"] then and ["calculated"] otherwise, so the angle it
    returns always lies in [5, 30].  The launch vector returned by
    [calculate_launch_vector] takes the angle from that result and drops
    its marker: its [method] is always ["trajectory_analysis"]. *)
Theorem launch_angle_substitution (lm : Py.Libm)
  (calibrator : option (float * float -> Py.res (float * float)))
  (points : list point) (gyro_data : option float) (compass_heading fps : float) :
  (3 <= List.length points)%nat ->
  match measured_angle lm points gyro_data with
  | Py.Raise e => _calculate_launch_angle lm points gyro_data = Py.Raise e
  | Py.Ok raw =>
      let c := clamp_angle raw in
      (0 <=? c) = true /\ (c <=? 45) = true /\
      _calculate_launch_angle lm points gyro_data =
        Py.Ok (if (c <? 5) || Py.gtb c 30
               then {| angle := 12; angle_method := "default_typical" |}
               else {| angle := c; angle_method := "calculated" |}) /\
      (forall r, _calculate_launch_angle lm points gyro_data = Py.Ok r ->
                 (5 <=? angle r) = true /\ (angle r <=? 30) = true)
  end /\
  (forall v,
     calculate_launch_vector lm calibrator points gyro_data compass_heading fps
       = Py.Ok v ->
     lv_method v = Some "trajectory_analysis"%string /\
     exists r,
       _calculate_launch_angle lm
         (firstn (Nat.min 10 (List.length points)) points) gyro_data = Py.Ok r /\
       lv_launch_angle v = angle r).
Proof.
  intros Hlen.
  assert (Hlt : (List.length points <? 3)%nat = false)
    by (apply Nat.ltb_ge; exact Hlen).
  split.
  - unfold _calculate_launch_angle. rewrite Hlt.
    destruct (measured_angle lm points gyro_data) as [raw|e]; [|reflexivity].
    cbn [Py.bind].
    destruct (plausible_angle_range raw) as (Hlo & Hhi & Heq & H5 & H30).
    cbv zeta. rewrite <- Heq.
    split; [exact Hlo|]. split; [exact Hhi|]. split; [reflexivity|].
    intros res Hres. inversion Hres; subst. split; assumption.
  - intros v. unfold calculate_launch_vector. rewrite Hlt.
    destruct (_calculate_speed _ _ _ _) as [sp|e]; [|discriminate].
    cbn [Py.bind].
    destruct (_calculate_launch_angle _ _ _) as [an|e]; [|discriminate].
    cbn [Py.bind].
    destruct (_calculate_direction _ _ _) as [di|e]; [|discriminate].
    cbn [Py.bind].
    destruct (_calculate_confidence _ _ _ _) as [co|e]; [|discriminate].
    cbn [Py.bind]. intros Hv. inversion Hv; subst. cbn [lv_method lv_launch_angle].
    split; [reflexivity|]. exists an. split; reflexivity.
Qed.

(** The amended C7 on the module's test trajectory with a tilt of 40
    degrees: the angle is the substituted one and lies in [5, 30]. *)
Lemma launch_angle_substitution_witness :
  (3 <= List.length Samples.test_trajectory)%nat /\
  _calculate_launch_angle Samples.libm Samples.test_trajectory (Some 40)
    = Py.Ok {| angle := 12; angle_method := "default_typical" |}.
Proof.
  split; [vm_compute; lia|].
  pose proof (launch_angle_substitution Samples.libm None Samples.test_trajectory
                (Some 40) 45 30) as Hw.
  assert (Hm : measured_angle Samples.libm Samples.test_trajectory (Some 40)
               = Py.Ok 54.036243467926479) by (vm_compute; reflexivity).
  rewrite Hm in Hw.
  destruct Hw as [(_ & _ & Heq & _) _]; [vm_compute; lia|].
  rewrite Heq. vm_compute. reflexivity.
Defined.

(** An angle in [5, 30] is never outside [0, 45]. *)
Lemma angle_never_penalized (a : float) :
  (5 <=? a) = true -> (a <=? 30) = true ->
  (a <? 0) || Py.gtb a 45 = false.
Proof.
  unfold Py.gtb. rewrite !leb_spec, !ltb_spec. unfold SFleb, SFltb.
  change (Prim2SF 5) with (S754_finite false 5629499534213120 (-50)).
  change (Prim2SF 30) with (S754_finite false 8444249301319680 (-48)).
  change (Prim2SF 45) with (S754_finite false 6333186975989760 (-47)).
  change (Prim2SF 0) with (S754_zero false).
  destruct (Prim2SF a) as [s|s| |s m e]; try discriminate.
  - destruct s; discriminate.
  - destruct s; [discriminate|]. cbn [SFcompare orb]. intros _.
    destruct (e ?= -48)%Z eqn:E1; destruct (-47 ?= e)%Z eqn:E2;
      try reflexivity; try discriminate;
      try (apply Z.compare_eq in E1); try (apply Z.compare_eq in E2);
      try (rewrite Z.compare_lt_iff in E1); try (rewrite Z.compare_lt_iff in E2);
      try (rewrite Z.compare_gt_iff in E1); try (rewrite Z.compare_gt_iff in E2);
      lia.
Qed.

(** C8, as the claim states it, fails for a trajectory of fewer than three
    points.  The launch vector of the first two points of the module's test
    trajectory has confidence 0 and carries the error marker: the guard at
    the head of [calculate_launch_vector] answers such a trajectory itself.
    The linearity of the two points is 1.0, so the product the claim
    describes is at least 0.7 x 0.4 x 0.5 x 0.6 x 1.0, and 0 is below
    it. *)
Lemma short_window_has_no_confidence :
  List.length Samples.two_points = 2%nat /\
  _calculate_linearity Samples.libm
    (map (fun p => (px p, py p)) Samples.two_points) = Py.Ok 1 /\
  exists v,
    calculate_launch_vector Samples.libm None Samples.two_points None 45 30
      = Py.Ok v /\
    lv_confidence v = 0 /\
    (lv_confidence v <? 0.7 * 0.4 * 0.5 * 0.6 * 1) = true /\
    lv_error v = Some "Not enough trajectory points"%string.
Proof.
  split; [reflexivity|]. split; [reflexivity|].
  eexists. vm_compute. repeat split; reflexivity.
Qed.

(** C8 (amended): a trajectory of fewer than three points gets confidence
    0 and an error marker.  Otherwise the confidence is computed on the
    window of the first [min(10, n)] points: it starts at 1, is multiplied
    by 0.7 when the window has fewer than five points and by 0.5 when the
    speed is outside 50-250 mph, then by the window's linearity, and the
    product is clamped by [max(0, min(1, .))], so the value lies in [0, 1]
    and is not NaN.  The factor 0.4 is applied for no window length (its
    [elif] stands under [if len(points) < 5]), and the factor 0.6 for an
    angle outside [0, 45] never applies to a launch vector, whose angle lies
    in [5, 30]. *)
Theorem launch_confidence_factors (lm : Py.Libm)
  (calibrator : option (float * float -> Py.res (float * float)))
  (points : list point) (gyro_data : option float) (compass_heading fps : float)
  (v : launch_vector) :
  calculate_launch_vector lm calibrator points gyro_data compass_heading fps
    = Py.Ok v ->
  (forall n speed_mph ang,
     penalties n speed_mph ang =
       let c := if (n <? 5)%nat then 1 * 0.7 else 1 in
       let c := if (speed_mph <? 50) || Py.gtb speed_mph 250
                then c * 0.5 else c in
       if (ang <? 0) || Py.gtb ang 45 then c * 0.6 else c) /\
  if (List.length points <? 3)%nat
  then lv_confidence v = 0 /\
       lv_error v = Some "Not enough trajectory points"%string
  else
    let window := firstn (Nat.min 10 (List.length points)) points in
    exists speed ang linearity,
      _calculate_speed lm calibrator window fps = Py.Ok speed /\
      _calculate_launch_angle lm window gyro_data = Py.Ok ang /\
      _calculate_linearity lm (map (fun p => (px p, py p)) window)
        = Py.Ok linearity /\
      (angle ang <? 0) || Py.gtb (angle ang) 45 = false /\
      (let c := if (List.length window <? 5)%nat then 1 * 0.7 else 1 in
       let c := if (speed_mph speed <? 50) || Py.gtb (speed_mph speed) 250
                then c * 0.5 else c in
       lv_confidence v = Py.max2 0 (Py.min2 1 (c * linearity))) /\
      is_nan (lv_confidence v) = false /\
      (0 <=? lv_confidence v) = true /\ (lv_confidence v <=? 1) = true /\
      lv_error v = None.
Proof.
  intros Hv.
  assert (Hpen : forall n speed_mph ang,
            penalties n speed_mph ang =
              let c := if (n <? 5)%nat then 1 * 0.7 else 1 in
              let c := if (speed_mph <? 50) || Py.gtb speed_mph 250
                       then c * 0.5 else c in
              if (ang <? 0) || Py.gtb ang 45 then c * 0.6 else c).
  { intros n s a. unfold penalties. cbv zeta.
    destruct (n <? 5)%nat eqn:E5; [reflexivity|].
    apply Nat.ltb_ge in E5.
    replace (n <? 3)%nat with false by (symmetry; apply Nat.ltb_ge; lia).
    reflexivity. }
  split; [exact Hpen|].
  revert Hv. unfold calculate_launch_vector.
  destruct (List.length points <? 3)%nat eqn:El.
  - intros [= <-]. split; reflexivity.
  - apply Nat.ltb_ge in El.
    set (window := firstn _ points).
    assert (Hw : (3 <= List.length window)%nat)
      by (subst window; rewrite length_firstn; lia).
    destruct (_calculate_speed lm calibrator window fps) as [sp|e];
      [|discriminate]. cbn [Py.bind].
    destruct (_calculate_launch_angle lm window gyro_data) as [an|e] eqn:Ea;
      [|discriminate]. cbn [Py.bind].
    destruct (_calculate_direction lm window compass_heading) as [di|e];
      [|discriminate]. cbn [Py.bind].
    unfold _calculate_confidence.
    replace (3 <=? List.length window)%nat with true
      by (symmetry; apply Nat.leb_le; exact Hw).
    destruct (_calculate_linearity lm _) as [lin|e]; [|discriminate].
    cbn [Py.bind]. intros [= <-]. cbn [lv_confidence lv_error].
    assert (Hang : (angle an <? 0) || Py.gtb (angle an) 45 = false).
    { revert Ea. unfold _calculate_launch_angle.
      replace (List.length window <? 3)%nat with false
        by (symmetry; apply Nat.ltb_ge; exact Hw).
      destruct (measured_angle lm window gyro_data) as [raw|e]; [|discriminate].
      cbn [Py.bind]. intros [= <-].
      destruct (plausible_angle_range raw) as (_ & _ & _ & H5 & H30).
      exact (angle_never_penalized _ H5 H30). }
    exists sp, an, lin.
    split; [reflexivity|]. split; [reflexivity|]. split; [reflexivity|].
    split; [exact Hang|].
    rewrite Hpen. cbv zeta. rewrite Hang.
    split; [reflexivity|].
    destruct (PyFacts.clamp_range 0 1
                ((if (speed_mph sp <? 50) || Py.gtb (speed_mph sp) 250
                  then (if (List.length window <? 5)%nat then 1 * 0.7 else 1) * 0.5
                  else if (List.length window <? 5)%nat then 1 * 0.7 else 1) * lin)
                eq_refl) as (Hn & H0 & H1).
    repeat split; assumption.
Qed.

(** The amended C8 on the module's test trajectory, six points at a speed
    below 50 mph: the confidence is the clamped product of 0.5 and the
    linearity. *)
Lemma launch_confidence_factors_witness :
  exists v linearity,
    calculate_launch_vector Samples.libm None Samples.test_trajectory None 45 30
      = Py.Ok v /\
    _calculate_linearity Samples.libm
      (map (fun p => (px p, py p)) Samples.test_trajectory) = Py.Ok linearity /\
    lv_confidence v = Py.max2 0 (Py.min2 1 (1 * 0.5 * linearity)) /\
    (0 <=? lv_confidence v) = true /\ (lv_confidence v <=? 1) = true.
Proof.
  assert (Hv : exists v,
             calculate_launch_vector Samples.libm None Samples.test_trajectory
               None 45 30 = Py.Ok v)
    by (eexists; vm_compute; reflexivity).
  destruct Hv as [v Hv].
  destruct (launch_confidence_factors Samples.libm None Samples.test_trajectory
              None 45 30 v Hv) as [_ Hw].
  change (List.length Samples.test_trajectory <? 3)%nat with false in Hw.
  cbv zeta in Hw.
  change (firstn (Nat.min 10 (List.length Samples.test_trajectory))
            Samples.test_trajectory) with Samples.test_trajectory in Hw.
  destruct Hw as (sp & an & lin & Hs & _ & Hl & _ & Hc & _ & H0 & H1 & _).
  change (List.length Samples.test_trajectory <? 5)%nat with false in Hc.
  assert (Hsp : (speed_mph sp <? 50) || Py.gtb (speed_mph sp) 250 = true).
  { revert Hs. vm_compute. intros [= <-]. reflexivity. }
  rewrite Hsp in Hc.
  exists v, lin. repeat split; assumption.
Defined.

End LaunchFacts.

(** ** Facts on accumulated time *)

Module TimeFacts.

Lemma times_length (dt : float) (n : nat) : forall t,
  List.length (Py.times dt n t) = n.
Proof. induction n as [|n IH]; intros t; simpl; [reflexivity | now rewrite IH]. Qed.

Lemma times_snoc (dt : float) (n : nat) : forall t,
  Py.times dt (S n) t = Py.times dt n t ++ [Py.time_after dt n t].
Proof.
  induction n as [|n IH]; intros t; [reflexivity|].
  change (Py.times dt (S (S n)) t) with (t :: Py.times dt (S n) (t + dt)).
  rewrite IH. reflexivity.
Qed.

Lemma times_firstn (dt : float) (m : nat) : forall n t,
  (m <= n)%nat -> Py.times dt m t = firstn m (Py.times dt n t).
Proof.
  induction m as [|m IH]; intros n t Hle; [reflexivity|].
  destruct n as [|n]; [lia|]. simpl. f_equal. apply IH. lia.
Qed.

Lemma increasing_firstn (ts : list float) : forall m,
  Py.increasing ts = true -> Py.increasing (firstn m ts) = true.
Proof.
  induction ts as [|a ts IH]; intros m H; [destruct m; reflexivity|].
  destruct m as [|m]; [reflexivity|].
  destruct ts as [|b ts]; [destruct m; reflexivity|].
  destruct m as [|m]; [reflexivity|].
  change (Py.increasing (a :: b :: ts)) with ((a <? b) && Py.increasing (b :: ts)) in H.
  apply andb_prop in H. destruct H as [Hab Hrest].
  change (firstn (S (S m)) (a :: b :: ts)) with (a :: firstn (S m) (b :: ts)).
  specialize (IH (S m) Hrest). simpl in IH |- *. rewrite Hab. exact IH.
Qed.

(** A prefix of a run of a clock that is increasing is increasing. *)
Lemma times_increasing (dt : float) (m n : nat) (t : float) :
  (m <= n)%nat -> Py.increasing (Py.times dt n t) = true ->
  Py.increasing (Py.times dt m t) = true.
Proof.
  intros Hle H. rewrite (times_firstn dt m n t Hle). now apply increasing_firstn.
Qed.

End TimeFacts.

(** ** trajectory_physics.py *)

Module PhysicsFacts.
Import Physics.

Section WithLibm.
Variable lm : Py.Libm.
Variable sim : simulator.
Variable wind_vector : float * float.

(** What one execution of the loop body does to the clock and to the
    list of points. *)
Lemma flight_body_ok (l l' : loop_state) :
  loop_body lm sim wind_vector l = Py.Ok l' ->
  l_time l' = l_time l + dt /\
  l_points l' =
    l_points l ++ [(s_x (l_state l), s_y (l_state l), s_z (l_state l))].
Proof.
  unfold loop_body.
  destruct (_rk4_step lm sim (l_state l) dt wind_vector) as [st|e];
    cbn [Py.bind]; intros H; inversion H; subst; split; reflexivity.
Qed.

(** The loop ends within [n] executions of its body as soon as [n]
    additions of [dt] take the clock out of [time < max_time]. *)
Lemma flight_loop_enough (n : nat) : forall l : loop_state,
  (Py.time_after dt n (l_time l) <? max_time) = false ->
  exists r, flight_loop lm n sim wind_vector l = Some r.
Proof.
  induction n as [|n IH]; intros l Ht.
  - simpl in Ht. unfold flight_loop, airborne. rewrite Ht, andb_false_r. eauto.
  - cbn [flight_loop]. destruct (airborne l); [|eauto].
    destruct (loop_body lm sim wind_vector l) as [l'|e] eqn:Eb; [|eauto].
    apply IH. destruct (flight_body_ok l l' Eb) as [Hl _]. rewrite Hl. exact Ht.
Qed.

(** More fuel changes nothing once the loop has ended. *)
Lemma flight_loop_more (n : nat) : forall (l : loop_state) r (extra : nat),
  flight_loop lm n sim wind_vector l = Some r ->
  flight_loop lm (n + extra) sim wind_vector l = Some r.
Proof.
  induction n as [|n IH]; intros l r extra H.
  - simpl in H. destruct extra as [|extra]; [exact H|].
    cbn [Nat.add flight_loop]. destruct (airborne l); [discriminate | exact H].
  - cbn [Nat.add flight_loop] in *. destruct (airborne l); [|exact H].
    destruct (loop_body lm sim wind_vector l) as [l'|e]; [|exact H].
    apply IH. exact H.
Qed.

(** The loop appends one point per execution of its body, each recorded
    with [state[2] >= 0], advances the clock once per point, and ends
    with its test false. *)
Lemma flight_loop_points (n : nat) : forall l l' : loop_state,
  flight_loop lm n sim wind_vector l = Some (Py.Ok l') ->
  exists new,
    l_points l' = l_points l ++ new /\
    (List.length new <= n)%nat /\
    Forall above new /\
    l_time l' = Py.time_after dt (List.length new) (l_time l) /\
    airborne l' = false.
Proof.
  induction n as [|n IH]; intros l l' H.
  - simpl in H. destruct (airborne l) eqn:Ea; [discriminate|].
    inversion H; subst. exists []. rewrite app_nil_r. repeat split; auto.
  - cbn [flight_loop] in H. destruct (airborne l) eqn:Ea.
    + destruct (loop_body lm sim wind_vector l) as [l1|e] eqn:Eb; [|discriminate].
      destruct (flight_body_ok l l1 Eb) as [Ht Hp].
      destruct (IH l1 l' H) as (new & Hn & Hlen & Hab & Htime & Hend).
      exists ((s_x (l_state l), s_y (l_state l), s_z (l_state l)) :: new).
      rewrite Hn, Hp, <- app_assoc. repeat split; auto.
      * simpl. lia.
      * constructor; [|exact Hab]. unfold above. simpl.
        unfold airborne in Ea. apply andb_prop in Ea. tauto.
      * rewrite Htime, Ht. reflexivity.
    + inversion H; subst. exists []. rewrite app_nil_r. repeat split; auto.
      simpl. lia.
Qed.

End WithLibm.

(** 1500 additions of [0.01] leave the clock below 15.0; the next one
    takes it past. *)
Lemma clock_reaches_cap :
  (Py.time_after dt 1500 0 <? max_time) = true /\
  (Py.time_after dt max_steps 0 <? max_time) = false /\
  Py.increasing (Py.times dt max_steps 0) = true.
Proof. vm_compute. repeat split; reflexivity. Qed.

(** The loop of [simulate_flight] starts at time 0 with no point. *)
Lemma flight_initial (lm : Py.Libm) (sim sim' : simulator) (a : launch)
  (w : float * float) (l0 : loop_state) :
  prepare lm sim a = Py.Ok (sim', w, l0) ->
  l_time l0 = 0 /\ l_points l0 = [].
Proof.
  unfold prepare.
  destruct (set_conditions sim _ _) as [s1|e]; [|discriminate]. cbn [Py.bind].
  destruct (Py.mcos lm _) as [ca|e]; [|discriminate]. cbn [Py.bind].
  destruct (Py.msin lm _) as [sa|e]; [|discriminate]. cbn [Py.bind].
  destruct (Py.mcos lm _) as [cw|e]; [|discriminate]. cbn [Py.bind].
  destruct (Py.msin lm _) as [sw|e]; [|discriminate]. cbn [Py.bind].
  intros H. inversion H; subst. split; reflexivity.
Qed.

(** The returned dict takes its points and its flight time from the
    loop. *)
Lemma finish_ok (lm : Py.Libm) (l : loop_state) (f : flight) :
  finish lm l = Py.Ok f ->
  points f = l_points l /\ num_points f = List.length (l_points l) /\
  flight_time_seconds f = l_time l.
Proof.
  unfold finish.
  destruct (Py.py_pow lm _ 2) as [a|e]; [|discriminate]. cbn [Py.bind].
  destruct (Py.py_pow lm _ 2) as [b|e]; [|discriminate]. cbn [Py.bind].
  destruct (Py.msqrt _) as [c|e]; [|discriminate]. cbn [Py.bind].
  intros H. inversion H; subst. repeat split; reflexivity.
Qed.

(** C2, as the claim states it, fails in its count and in "always
    returns".  1500 floating-point additions of 0.01 give
    14.999999999999725, which is still below 15.0, so a flight that stays
    up (200 mph, level launch, 40000 rpm of backspin) runs the loop body
    1501 times, ending at a flight time of 15.009999999999724; a bound of
    1500 iterations is not enough for it.  And a launch speed of 1e200 mph
    ends the call in the first step with the [OverflowError] of
    [vx_rel**2]. *)
Lemma time_cap_takes_1501_steps :
  Py.time_after dt 1500 0 = 14.999999999999725 /\
  simulate_flight_fuel Samples.libm 1500 Samples.simulator
    (Samples.shot 200 0 40000 0) = None /\
  simulate_flight Samples.libm Samples.simulator (Samples.shot 1e200 0 2500 0)
    = Some (Py.Raise Py.OverflowError) /\
  exists f,
    simulate_flight Samples.libm Samples.simulator (Samples.shot 200 0 40000 0)
      = Some (Py.Ok f) /\
    num_points f = 1501%nat /\
    flight_time_seconds f = 15.009999999999724.
Proof.
  split; [vm_compute; reflexivity|]. split; [vm_compute; reflexivity|].
  split; [vm_compute; reflexivity|].
  eexists. vm_compute. repeat split; reflexivity.
Qed.

(** C2 (amended): [simulate_flight] terminates for every input and every
    C library.  Its loop runs while the height is [>= 0] and the clock is
    [< 15.0]; the clock leaves that range after 1501 additions of 0.01,
    so 1501 executions of the loop body always suffice: the call then
    returns its dict (with at most 1501 points) or has raised, and more
    fuel never changes the outcome. *)
Theorem flight_loop_total (lm : Py.Libm) (sim : simulator) (a : launch)
  (extra : nat) :
  simulate_flight_fuel lm (max_steps + extra) sim a = simulate_flight lm sim a /\
  exists r,
    simulate_flight lm sim a = Some r /\
    match r with
    | Py.Ok f => (num_points f <= max_steps)%nat
    | Py.Raise _ => True
    end.
Proof.
  unfold simulate_flight, simulate_flight_fuel.
  destruct (prepare lm sim a) as [[[sim' w] l0]|e] eqn:Ep.
  - destruct (flight_initial lm sim sim' a w l0 Ep) as [Ht Hp].
    destruct (flight_loop_enough lm sim' w max_steps l0) as [r Hr].
    { rewrite Ht. apply clock_reaches_cap. }
    rewrite (flight_loop_more lm sim' w max_steps l0 r extra Hr), Hr.
    split; [reflexivity|].
    destruct r as [l|e]; [|exists (Py.Raise e); auto].
    exists (finish lm l). split; [reflexivity|].
    destruct (finish lm l) as [f|e] eqn:Ef; [|exact I].
    destruct (finish_ok lm l f Ef) as (_ & Hn & _).
    destruct (flight_loop_points lm sim' w max_steps l0 l Hr)
      as (new & Hnew & Hlen & _).
    rewrite Hn, Hnew, Hp. simpl. exact Hlen.
  - split; [reflexivity|]. exists (Py.Raise e). auto.
Qed.

(** C4 fails on the code at the module's own slice test (140 mph, 14
    degrees, 3200 rpm) with the spin axis at +20 and at -20 degrees: the
    curve is 0 in both flights, and the carry (149.2 against 145.5 yards)
    and the flight time (311 against 310 steps) differ.
    [_forces] adds the side-spin term [lift_x] to the forward
    acceleration and sets [lift_y = 0], so the lateral coordinate
    [state[1]] never leaves 0. *)
Lemma side_spin_moves_carry_not_curve :
  exists f1 f2,
    simulate_flight Samples.libm Samples.simulator (Samples.shot 140 14 3200 20)
      = Some (Py.Ok f1) /\
    simulate_flight Samples.libm Samples.simulator (Samples.shot 140 14 3200 (-20))
      = Some (Py.Ok f2) /\
    curve_yards f1 = 0 /\ curve_yards f2 = 0 /\
    Samples.between 149.2 (carry_distance_yards f1) 149.3 = true /\
    Samples.between 145.4 (carry_distance_yards f2) 145.5 = true /\
    num_points f1 = 311%nat /\ num_points f2 = 310%nat /\
    flight_time_seconds f1 = 3.1099999999999777 /\
    flight_time_seconds f2 = 3.0999999999999779 /\
    Forall (fun p => snd (fst p) = 0) (points f1).
Proof.
  do 2 eexists. vm_compute.
  repeat split; try reflexivity.
  repeat (constructor; [reflexivity|]). constructor.
Qed.

End PhysicsFacts.

(** ** generate_archetype_tables.py *)

Module TablesFacts.
Import Tables.

(** The last element of a non-empty list does not depend on the
    default. *)
Lemma last_default {A : Type} (t : list A) : forall b d1 d2 : A,
  List.last (b :: t) d1 = List.last (b :: t) d2.
Proof.
  induction t as [|c t IH]; intros b d1 d2; [reflexivity|].
  change (List.last (b :: c :: t) d1) with (List.last (c :: t) d1).
  change (List.last (b :: c :: t) d2) with (List.last (c :: t) d2).
  apply IH.
Qed.

(** [trajectory[-1] if trajectory else ...] on a non-empty list. *)
Lemma last_map_Some {A : Type} (t : list A) : forall (q : A) (d : option A),
  List.last (map Some (q :: t)) d = Some (List.last (q :: t) q).
Proof.
  induction t as [|b t IH]; intros q d; [reflexivity|].
  change (List.last (map Some (q :: b :: t)) d)
    with (List.last (map Some (b :: t)) d).
  change (List.last (q :: b :: t) q) with (List.last (b :: t) q).
  rewrite IH. f_equal. apply last_default.
Qed.

(** Splits on the outcome of the next operation that can raise. *)
Ltac next_operation :=
  match goal with
  | |- context [Py.bind ?m _] => destruct m; cbn [Py.bind]; [|discriminate]
  end.

Section WithLibm.
Variable lm : Py.Libm.
Variable archetype : ShotArchetype.
Variable k : constants.
Variable dt : float.

(** What one execution of the loop body does to the clock and to the
    trajectory. *)
Lemma trajectory_body_ok (l : loop_state) (s : step) :
  loop_body lm archetype k dt l = Py.Ok s ->
  let p := mkPoint (l_x l) (l_y l) (l_z l) (l_t l) in
  match s with
  | Continue l' =>
      l_trajectory l' = l_trajectory l ++ [p] /\
      l_t l' = l_t l + dt /\ Py.gtb (l_t l + dt) 15 = false
  | Break l' => l_trajectory l' = l_trajectory l ++ [p]
  end.
Proof.
  unfold loop_body. cbn [l_x l_y l_z l_vx l_vy l_vz l_t l_trajectory].
  do 4 next_operation.
  destruct (_ <? 0.01); [intros H; inversion H; subst; reflexivity|].
  repeat next_operation.
  destruct (Py.gtb (l_t l + dt) 15) eqn:E; intros H; inversion H; subst;
    cbn [l_t l_trajectory]; auto.
Qed.

(** The loop ends within [S n] executions of its body as soon as [S n]
    additions of [dt] take the clock past 15. *)
Lemma trajectory_loop_enough (n : nat) : forall l : loop_state,
  Py.gtb (Py.time_after dt (S n) (l_t l)) 15 = true ->
  exists r, trajectory_loop lm (S n) archetype k dt l = Some r.
Proof.
  induction n as [|n IH]; intros l Ht.
  - cbn [trajectory_loop]. destruct (flying l); [|eauto].
    destruct (loop_body lm archetype k dt l) as [[l'|l']|e] eqn:Eb; eauto.
    pose proof (trajectory_body_ok l _ Eb) as Hb. cbv zeta in Hb.
    destruct Hb as (_ & _ & Hg). simpl in Ht. congruence.
  - change (trajectory_loop lm (S (S n)) archetype k dt l)
      with (if flying l then
              match loop_body lm archetype k dt l with
              | Py.Raise e => Some (Py.Raise e)
              | Py.Ok (Break l') => Some (Py.Ok l')
              | Py.Ok (Continue l') => trajectory_loop lm (S n) archetype k dt l'
              end
            else Some (Py.Ok l)).
    destruct (flying l); [|eauto].
    destruct (loop_body lm archetype k dt l) as [[l'|l']|e] eqn:Eb; eauto.
    pose proof (trajectory_body_ok l _ Eb) as Hb. cbv zeta in Hb.
    destruct Hb as (_ & Hl & _).
    apply IH. rewrite Hl. exact Ht.
Qed.

(** More fuel changes nothing once the loop has ended. *)
Lemma trajectory_loop_more (n : nat) : forall (l : loop_state) r (extra : nat),
  trajectory_loop lm n archetype k dt l = Some r ->
  trajectory_loop lm (n + extra) archetype k dt l = Some r.
Proof.
  induction n as [|n IH]; intros l r extra H.
  - simpl in H. destruct extra as [|extra]; [exact H|].
    cbn [Nat.add trajectory_loop]. destruct (flying l); [discriminate | exact H].
  - cbn [Nat.add trajectory_loop] in *. destruct (flying l); [|exact H].
    destruct (loop_body lm archetype k dt l) as [[l'|l']|e]; auto.
Qed.

(** The loop appends one point per execution of its body, each recorded
    with the loop test true, at the successive values of the clock. *)
Lemma trajectory_loop_points (n : nat) : forall l l' : loop_state,
  trajectory_loop lm n archetype k dt l = Some (Py.Ok l') ->
  exists new,
    l_trajectory l' = l_trajectory l ++ new /\
    (List.length new <= n)%nat /\
    Forall in_flight new /\
    map p_t new = Py.times dt (List.length new) (l_t l) /\
    (flying l = true ->
     exists rest, new = mkPoint (l_x l) (l_y l) (l_z l) (l_t l) :: rest).
Proof.
  induction n as [|n IH]; intros l l' H.
  - simpl in H. destruct (flying l); [discriminate|].
    inversion H; subst. exists []. rewrite app_nil_r.
    repeat split; auto. discriminate.
  - cbn [trajectory_loop] in H. destruct (flying l) eqn:Ef.
    + assert (Hin : in_flight (mkPoint (l_x l) (l_y l) (l_z l) (l_t l)))
        by exact Ef.
      destruct (loop_body lm archetype k dt l) as [[l1|l1]|e] eqn:Eb;
        [ | |discriminate];
        pose proof (trajectory_body_ok l _ Eb) as Hb; cbv zeta in Hb.
      * destruct Hb as (Hp & Ht & _).
        destruct (IH l1 l' H) as (new & Hn & Hlen & Hfl & Htimes & _).
        exists (mkPoint (l_x l) (l_y l) (l_z l) (l_t l) :: new).
        rewrite Hn, Hp, <- app_assoc. repeat split; eauto.
        -- simpl. lia.
        -- simpl. rewrite Htimes, Ht. reflexivity.
      * inversion H; subst.
        exists [mkPoint (l_x l) (l_y l) (l_z l) (l_t l)].
        repeat split; eauto. simpl. lia.
    + inversion H; subst. exists []. rewrite app_nil_r.
      repeat split; auto; [simpl; lia | discriminate].
Qed.

End WithLibm.

(** 750 additions of [0.02] leave the clock at or below 15; the next
    one takes it past, and the clock values up to there increase. *)
Lemma clock_passes_cap :
  Py.gtb (Py.time_after 0.02 max_steps 0.0) 15 = true /\
  Py.increasing (Py.times 0.02 max_steps 0.0) = true.
Proof. vm_compute. split; reflexivity. Qed.

(** The loop of [calculate_trajectory] starts at time 0 with no point and
    with the first loop test true. *)
Lemma trajectory_initial (lm : Py.Libm) (archetype : ShotArchetype) (m : float)
  (k : constants) (l0 : loop_state) :
  prepare lm archetype m = Py.Ok (k, l0) ->
  l_t l0 = 0.0 /\ l_trajectory l0 = [] /\
  l_x l0 = 0.0 /\ l_y l0 = 0.0 /\ l_z l0 = 0.0.
Proof.
  unfold prepare. repeat next_operation.
  intros H. inversion H; subst. repeat split; reflexivity.
Qed.

(** [calculate_trajectory] always ends within its 751 iterations, and
    what it returns starts at the origin, is recorded at the successive
    clock values [0, 0.02, ...] and holds only points that passed the loop
    test. *)
Lemma calculate_trajectory_spec (lm : Py.Libm) (archetype : ShotArchetype)
  (m : float) :
  exists r,
    calculate_trajectory lm archetype m = Some r /\
    match r with
    | Py.Raise _ => True
    | Py.Ok traj =>
        (List.length traj <= max_steps)%nat /\
        map p_t traj = Py.times 0.02 (List.length traj) 0.0 /\
        Py.increasing (map p_t traj) = true /\
        Forall in_flight traj /\
        exists rest, traj = mkPoint 0.0 0.0 0.0 0.0 :: rest
    end.
Proof.
  unfold calculate_trajectory, calculate_trajectory_fuel.
  destruct (prepare lm archetype m) as [[k l0]|e] eqn:Ep;
    [|exists (Py.Raise e); auto].
  destruct (trajectory_initial lm archetype m k l0 Ep) as (Ht & Hp & Hx & Hy & Hz).
  destruct (trajectory_loop_enough lm archetype k 0.02 750 l0) as [r Hr].
  { rewrite Ht. apply clock_passes_cap. }
  change (S 750) with max_steps in Hr. rewrite Hr.
  destruct r as [l|e]; [|exists (Py.Raise e); auto].
  exists (Py.Ok (l_trajectory l)). split; [reflexivity|].
  destruct (trajectory_loop_points lm archetype k 0.02 max_steps l0 l Hr)
    as (new & Hnew & Hlen & Hfl & Htimes & Hfirst).
  rewrite Hp in Hnew. simpl in Hnew. rewrite Hnew. rewrite Ht in Htimes.
  repeat split; auto.
  - rewrite Htimes.
    apply (TimeFacts.times_increasing 0.02 _ max_steps 0.0 Hlen).
    apply clock_passes_cap.
  - destruct Hfirst as [rest Hrest].
    + unfold flying. rewrite Hy. reflexivity.
    + exists rest. rewrite Hrest, Hx, Hy, Hz, Ht. reflexivity.
Qed.

(** The summary of a variant is read off the last point of its
    trajectory. *)
Lemma variant_of_ok (lm : Py.Libm) (archetype : ShotArchetype) (m : float)
  (p : TrajectoryPoint) (rest : list TrajectoryPoint) (v : variant) :
  variant_of lm archetype m (p :: rest) = Py.Ok v ->
  let rnd := Py.py_round lm in
  let final := List.last (p :: rest) p in
  speed_mph v = rnd (ball_speed archetype * m) 1%Z /\
  carry_yards v = rnd (meters_to_yards (p_x final)) 1%Z /\
  curve_yards v = rnd (meters_to_yards (abs (p_z final))) 1%Z /\
  flight_time_seconds v = rnd (p_t final) 2%Z /\
  List.length (v_points v) = List.length (p :: rest).
Proof.
  unfold variant_of. cbn [max_y Py.bind].
  rewrite last_map_Some. intros H. inversion H; subst. cbn.
  repeat split; try reflexivity. rewrite length_map. reflexivity.
Qed.

(** The variants of any list of percentages: the generation ends, keeps
    the order of the percentages, and each variant is the summary of
    [calculate_trajectory] at that percentage of the typical speed. *)
Lemma variants_for_spec (lm : Py.Libm) (archetype : ShotArchetype)
  (pcts : list Z) :
  exists r,
    variants_for lm archetype pcts = Some r /\
    match r with
    | Py.Raise _ => True
    | Py.Ok vs =>
        map fst vs = pcts /\
        Forall (fun pv =>
                  let multiplier := Py.of_Z (fst pv) / 100.0 in
                  exists traj,
                    calculate_trajectory lm archetype multiplier
                      = Some (Py.Ok traj) /\
                    variant_of lm archetype multiplier traj = Py.Ok (snd pv)) vs
    end.
Proof.
  induction pcts as [|pct rest IH].
  - exists (Py.Ok []). simpl. auto.
  - cbn [variants_for].
    destruct (calculate_trajectory_spec lm archetype (Py.of_Z pct / 100.0))
      as (r & Hr & _).
    rewrite Hr. destruct r as [traj|e]; [|exists (Py.Raise e); auto].
    destruct (variant_of lm archetype _ traj) as [v|e] eqn:Ev;
      [|exists (Py.Raise e); auto].
    destruct IH as (rs & Hrs & Hspec). rewrite Hrs.
    destruct rs as [vs|e]; [|exists (Py.Raise e); auto].
    exists (Py.Ok ((pct, v) :: vs)). split; [reflexivity|].
    destruct Hspec as [Hm Hf]. split; [simpl; now rewrite Hm|].
    constructor; [|exact Hf]. cbv zeta. cbn [fst snd]. eauto.
Qed.

(** C6, as the claim states it, fails.  For the archetype
    [high_straight] at 100% of its speed the table entry has 169 points,
    a carry of 165.0 yards, a maximum height of 15.0 yards and a flight
    time of 3.36 s; [simulate_flight] at the same speed, launch angle,
    backspin and spin axis gives 379 points, 181.2 yards, 17.5 yards and
    3.79 s. *)
Lemma batch_differs_from_single_shot :
  In Samples.high_straight ARCHETYPES /\
  exists vs v f,
    generate_speed_variants Samples.libm Samples.high_straight
      = Some (Py.Ok vs) /\
    In (100%Z, v) vs /\
    Physics.simulate_flight Samples.libm Samples.simulator
      (Samples.shot (155 * (Py.of_Z 100 / 100.0)) 16 3000 0) = Some (Py.Ok f) /\
    List.length (v_points v) = 169%nat /\ Physics.num_points f = 379%nat /\
    carry_yards v = 165 /\
    Samples.between 181.2 (Physics.carry_distance_yards f) 181.3 = true /\
    max_height_yards v = 15 /\
    Samples.between 17.5 (Physics.apex_height_yards f) 17.6 = true /\
    flight_time_seconds v = 3.36 /\
    Physics.flight_time_seconds f = 3.7899999999999632.
Proof.
  split; [right; left; reflexivity|].
  do 3 eexists. vm_compute.
  split; [reflexivity|]. split; [do 4 right; left; reflexivity|].
  repeat split; reflexivity.
Qed.

(** C6 (amended): for every archetype the batch generator ends and
    yields one variant per speed percentage 60, 70, ..., 120, in that
    order, unless it raises; each variant is computed by the module's own
    integrator [calculate_trajectory] at that percentage of the
    archetype's ball speed, and its summary is read off that trajectory:
    speed, carry from the last point's [x], curve from the last point's
    [|z|], flight time from the last point's [t], each rounded, and as many
    points as the trajectory has.  [simulate_flight] takes no part. *)
Theorem batch_entries_by_own_integrator (lm : Py.Libm)
  (archetype : ShotArchetype) :
  exists r,
    generate_speed_variants lm archetype = Some r /\
    match r with
    | Py.Raise _ => True
    | Py.Ok vs =>
        map fst vs = [60; 70; 80; 90; 100; 110; 120]%Z /\
        Forall (fun pv =>
                  let multiplier := Py.of_Z (fst pv) / 100.0 in
                  let rnd := Py.py_round lm in
                  exists traj final,
                    calculate_trajectory lm archetype multiplier
                      = Some (Py.Ok traj) /\
                    variant_of lm archetype multiplier traj = Py.Ok (snd pv) /\
                    List.last (map Some traj) None = Some final /\
                    speed_mph (snd pv)
                      = rnd (ball_speed archetype * multiplier) 1%Z /\
                    carry_yards (snd pv)
                      = rnd (meters_to_yards (p_x final)) 1%Z /\
                    curve_yards (snd pv)
                      = rnd (meters_to_yards (abs (p_z final))) 1%Z /\
                    flight_time_seconds (snd pv) = rnd (p_t final) 2%Z /\
                    List.length (v_points (snd pv)) = List.length traj) vs
    end.
Proof.
  unfold generate_speed_variants.
  destruct (variants_for_spec lm archetype speed_percentages) as (r & Hr & Hs).
  exists r. split; [exact Hr|].
  destruct r as [vs|e]; [|exact I].
  destruct Hs as [Hm Hf]. split; [exact Hm|].
  eapply Forall_impl; [|exact Hf].
  intros [pct v]. cbv zeta. cbn [fst snd]. intros (traj & Ht & Hv).
  destruct traj as [|p rest]; [discriminate Hv|].
  destruct (variant_of_ok lm archetype _ p rest v Hv) as (H1 & H2 & H3 & H4 & H5).
  exists (p :: rest), (List.last (p :: rest) p).
  repeat split; auto.
  apply last_map_Some.
Qed.

End TablesFacts.

(** ** The recorded point sequences of both integrators *)

Module TrajectoryFacts.

(** C3, as the claim states it, fails in its second part.  The driver
    shot of the module's own test (145 mph, 12 degrees, 2500 rpm) ends
    after 2.76 s, far from the time cap, and the last of its 276 recorded
    points is between 0.09 and 0.1 m above the ground; the table
    trajectory of [high_straight] at its typical speed ends at 3.36 s with
    a last point between 0.07 and 0.08 m above the ground.  Both loops record a point before they
    step, so the first state below ground is never recorded. *)
Lemma last_point_above_ground :
  exists f traj,
    Physics.simulate_flight Samples.libm Samples.simulator
      (Samples.shot 145 12 2500 0) = Some (Py.Ok f) /\
    Physics.num_points f = 276%nat /\
    Physics.flight_time_seconds f = 2.7599999999999851 /\
    (Physics.flight_time_seconds f <? Physics.max_time) = true /\
    Samples.between 0.09 (snd (List.last (Physics.points f) (0, 0, 0))) 0.1
      = true /\
    (snd (List.last (Physics.points f) (0, 0, 0)) <=? 0) = false /\
    Tables.calculate_trajectory Samples.libm Samples.high_straight 1.0
      = Some (Py.Ok traj) /\
    List.length traj = 169%nat /\
    Tables.p_t (List.last traj (Tables.mkPoint 0 0 0 0)) = 3.3600000000000025 /\
    Samples.between 0.07 (Tables.p_y (List.last traj (Tables.mkPoint 0 0 0 0)))
                    0.08 = true /\
    (Tables.p_y (List.last traj (Tables.mkPoint 0 0 0 0)) <=? 0) = false.
Proof.
  do 2 eexists. vm_compute. repeat split; reflexivity.
Qed.

(** C3 (amended): both point sequences are recorded in time order and
    hold only points that passed the loop test.  [simulate_flight]
    records its [num_points] points at the clock values 0, 0.01, ...,
    which increase strictly, returns the clock value after the last of
    them as the flight time, and every recorded point has height [>= 0].
    The batch generator's list starts at the origin, its [t] fields are
    the clock values 0, 0.02, ..., strictly increasing, and every point
    has height [>= 0] or [t < 0.1].  In both, the state that ends the
    loop is not part of the list. *)
Theorem recorded_points_in_flight (lm : Py.Libm) (sim : Physics.simulator)
  (a : Physics.launch) (f : Physics.flight)
  (archetype : Tables.ShotArchetype) (m : float)
  (traj : list Tables.TrajectoryPoint) :
  (Physics.simulate_flight lm sim a = Some (Py.Ok f) ->
   Forall Physics.above (Physics.points f) /\
   Physics.num_points f = List.length (Physics.points f) /\
   Physics.flight_time_seconds f
     = Py.time_after Physics.dt (Physics.num_points f) 0 /\
   Py.increasing (Py.times Physics.dt (Physics.num_points f) 0) = true) /\
  (Tables.calculate_trajectory lm archetype m = Some (Py.Ok traj) ->
   map Tables.p_t traj = Py.times 0.02 (List.length traj) 0.0 /\
   Py.increasing (map Tables.p_t traj) = true /\
   Forall Tables.in_flight traj /\
   exists rest, traj = Tables.mkPoint 0.0 0.0 0.0 0.0 :: rest).
Proof.
  split.
  - unfold Physics.simulate_flight, Physics.simulate_flight_fuel.
    destruct (Physics.prepare lm sim a) as [[[sim' w] l0]|e] eqn:Ep;
      [|discriminate].
    destruct (PhysicsFacts.flight_initial lm sim sim' a w l0 Ep) as [Ht Hp].
    destruct (Physics.flight_loop lm Physics.max_steps sim' w l0)
      as [[l|e]|] eqn:El; try discriminate.
    intros Hf. assert (Hfin : Physics.finish lm l = Py.Ok f) by congruence.
    destruct (PhysicsFacts.finish_ok lm l f Hfin) as (Hpts & Hn & Htime).
    destruct (PhysicsFacts.flight_loop_points lm sim' w _ l0 l El)
      as (new & Hnew & Hlen & Hab & Hclock & _).
    rewrite Hp in Hnew. simpl in Hnew. rewrite Ht in Hclock.
    rewrite Hn, Htime, Hpts, Hnew. repeat split; auto.
    apply (TimeFacts.times_increasing Physics.dt _ Physics.max_steps 0 Hlen).
    apply PhysicsFacts.clock_reaches_cap.
  - intros Hc.
    destruct (TablesFacts.calculate_trajectory_spec lm archetype m)
      as (r & Hr & Hs).
    rewrite Hc in Hr. inversion Hr; subst. tauto.
Qed.

(** The amended C3 on the driver shot and on [high_straight]: all the
    recorded points are at or above ground level, and the table's times
    increase. *)
Lemma recorded_points_in_flight_witness :
  exists f traj,
    Physics.simulate_flight Samples.libm Samples.simulator
      (Samples.shot 145 12 2500 0) = Some (Py.Ok f) /\
    Tables.calculate_trajectory Samples.libm Samples.high_straight 1.0
      = Some (Py.Ok traj) /\
    Forall Physics.above (Physics.points f) /\
    Py.increasing (map Tables.p_t traj) = true.
Proof.
  do 2 eexists.
  split; [vm_compute; reflexivity|].
  split; [vm_compute; reflexivity|].
  split.
  - eapply (proj1 (recorded_points_in_flight Samples.libm Samples.simulator
                     (Samples.shot 145 12 2500 0) _
                     Samples.high_straight 1.0 [])).
    vm_compute. reflexivity.
  - eapply (proj2 (recorded_points_in_flight Samples.libm Samples.simulator
                     (Samples.shot 145 12 2500 0)
                     (Physics.mkFlight [] 0 0 0 0 0 0)
                     Samples.high_straight 1.0 _)).
    vm_compute. reflexivity.
Defined.

End TrajectoryFacts.
(** ** The tracker's life cycle: [reset], [get_velocity] and mixed runs *)

Module KalmanLifecycle.
Import Np Kalman.

Lemma consistent_cases (k : tracker) :
  consistent k = true ->
  (is_initialized k = true /\ exists xv Pv, x k = Some xv /\ P k = Some Pv) \/
  (is_initialized k = false /\ x k = None /\ P k = None).
Proof.
  unfold consistent.
  destruct (is_initialized k), (x k) as [xv|], (P k) as [Pv|]; try discriminate;
    intros _; [left | right]; eauto.
Qed.

(** [np.linalg.inv] raises nothing but [LinAlgError]. *)
Lemma inv_raises (a : matrix) (e : Py.exn) :
  inv a = Py.Raise e -> e = Py.LinAlgError.
Proof.
  unfold inv.
  destruct a as [|[|a00 [|a01 [|? ?]]] [|[|a10 [|a11 [|? ?]]] [|? ?]]];
    try congruence.
  destruct (abs a00 <? abs a10); cbv zeta;
    repeat match goal with
           | |- (if ?c then _ else _) = _ -> _ => destruct c; try congruence
           end; discriminate.
Qed.

(** One detection on a live track: either [inv] raises and the predicted
    state stays, or the corrected state is returned. *)
Lemma update_detection_step (k : tracker) (xv Pv : matrix)
  (x_meas y_meas radius : float) :
  is_initialized k = true -> x k = Some xv -> P k = Some Pv ->
  (exists xp Pp,
     update k (Some (x_meas, y_meas, radius))
       = (set_P (set_x k (Some xp)) (Some Pp), Py.Raise Py.LinAlgError)) \/
  (exists xn Pn,
     update k (Some (x_meas, y_meas, radius))
       = (set_miss_count (set_P (set_x k (Some xn)) (Some Pn)) 0%Z,
          Py.Ok (Some (estimate_of xn radius false)))).
Proof.
  intros Hi Hx HP. unfold update. rewrite Hi. cbn [negb].
  rewrite (KalmanFacts.predict_initialized k xv Pv) by assumption.
  cbn [x P H R set_x set_P].
  match goal with |- context [inv ?S] => destruct (inv S) as [Sinv|e] eqn:ES end.
  - right. eexists _, _. reflexivity.
  - left. eexists _, _.
    rewrite (inv_raises _ _ ES). reflexivity.
Qed.

Lemma update_consistent (k : tracker) (m : option (float * float * float)) :
  consistent k = true ->
  consistent (fst (update k m)) = true /\
  (forall e, snd (update k m) = Py.Raise e -> e = Py.LinAlgError).
Proof.
  intros Hc. destruct (consistent_cases k Hc) as [(Hi & xv & Pv & Hx & HP) | (Hi & Hx & HP)].
  - destruct m as [[[xm ym] r]|].
    + destruct (update_detection_step k xv Pv xm ym r Hi Hx HP)
        as [(xp & Pp & ->) | (xn & Pn & ->)]; simpl;
        unfold consistent; simpl; rewrite Hi; split; auto; congruence.
    + rewrite (KalmanFacts.update_none_step k xv Pv) by assumption.
      destruct (miss_count k + 1 >=? max_misses k)%Z; simpl;
        unfold consistent; simpl; rewrite ?Hi; split; auto; congruence.
  - destruct m as [[[xm ym] r]|]; unfold update.
    + rewrite Hi. simpl. split; [reflexivity | congruence].
    + cbn [miss_count max_misses set_miss_count].
      destruct (miss_count k + 1 >=? max_misses k)%Z.
      * simpl. split; [reflexivity | congruence].
      * unfold predict. cbn [is_initialized set_miss_count]. rewrite Hi.
        cbn [negb x set_miss_count]. rewrite Hx.
        split; [|simpl; congruence].
        cbn [fst]. unfold consistent. simpl. rewrite Hi, Hx, HP. reflexivity.
Qed.

(** The constructor's object is consistent. *)
Lemma init_consistent (lm : Py.Libm) (q r dt : float) (k : tracker) :
  init lm q r dt = Py.Ok k -> consistent k = true.
Proof.
  unfold init, Py.bind.
  destruct (Py.py_pow lm dt 4); [|discriminate].
  destruct (Py.py_pow lm dt 3); [|discriminate].
  destruct (Py.py_pow lm dt 2); [|discriminate].
  intros [= <-]. reflexivity.
Qed.

(** Between calls the state vector and the covariance are present exactly
    when the tracker is initialized: the constructor establishes this,
    [reset], [predict] and [update] keep it, also when [update] raises.  On
    such a tracker no sequence of [update] calls meets a [None] where an
    array is expected: the only exception that can leave [update] is the
    [LinAlgError] of [np.linalg.inv], and short of it every call returns. *)
Theorem tracker_stays_consistent (k : tracker)
  (ms : list (option (float * float * float))) :
  consistent k = true ->
  consistent (reset k) = true /\
  consistent (fst (predict k)) = true /\
  consistent (fst (run k ms)) = true /\
  match snd (run k ms) with
  | Py.Ok rs => List.length rs = List.length ms
  | Py.Raise e => e = Py.LinAlgError
  end.
Proof.
  intros Hc. split; [reflexivity|]. split.
  - destruct (consistent_cases k Hc) as [(Hi & xv & Pv & Hx & HP) | (Hi & Hx & HP)].
    + rewrite (KalmanFacts.predict_initialized k xv Pv) by assumption.
      unfold consistent. simpl. rewrite Hi. reflexivity.
    + unfold predict. rewrite Hi. exact Hc.
  - revert k Hc. induction ms as [|m ms IH]; intros k Hc; [simpl; auto|].
    cbn [run].
    destruct (update_consistent k m Hc) as [Hk He].
    destruct (update k m) as [k1 [r|e]].
    + specialize (IH k1 Hk). destruct (run k1 ms) as [k2 [rs|e]]; simpl in *.
      * destruct IH as [? ?]. split; [assumption | lia].
      * exact IH.
    + simpl in *. split; [assumption | apply He; reflexivity].
Qed.

(** The tracker of the spec's scenario after its first detection, through six
    misses and a new detection. *)
Lemma tracker_stays_consistent_witness :
  consistent Samples.tracked = true /\
  consistent (fst (run Samples.tracked (misses 6 ++ [Some (100, 200, 5)]))) = true.
Proof.
  split; [reflexivity|].
  destruct (tracker_stays_consistent Samples.tracked
              (misses 6 ++ [Some (100, 200, 5)]) eq_refl) as (_ & _ & Hrun & _).
  exact Hrun.
Defined.




(** [get_velocity] agrees with what [update] has just returned: after a
    call that returned an estimate it gives that estimate's [vx] and [vy],
    after a call that returned [None] (no track, or the track was just
    discarded) it gives [(0.0, 0.0)]; and so it does after [reset]. *)
Theorem get_velocity_after_update (k : tracker)
  (m : option (float * float * float)) (r : option estimate) :
  consistent k = true ->
  snd (update k m) = Py.Ok r ->
  get_velocity (fst (update k m)) =
    match r with
    | Some e => (e_vx e, e_vy e)
    | None => (0, 0)
    end /\
  get_velocity (reset (fst (update k m))) = (0, 0).
Proof.
  intros Hc Hr. split; [|reflexivity]. revert Hr.
  destruct (consistent_cases k Hc) as [(Hi & xv & Pv & Hx & HP) | (Hi & Hx & HP)].
  - destruct m as [[[xm ym] rad]|].
    + destruct (update_detection_step k xv Pv xm ym rad Hi Hx HP)
        as [(xp & Pp & ->) | (xn & Pn & ->)]; cbn [fst snd]; [discriminate|].
      intros [= <-]. unfold get_velocity. simpl. rewrite Hi. reflexivity.
    + rewrite (KalmanFacts.update_none_step k xv Pv) by assumption.
      destruct (miss_count k + 1 >=? max_misses k)%Z; cbn [fst snd];
        intros [= <-]; unfold get_velocity; simpl; rewrite ?Hi; reflexivity.
  - destruct m as [[[xm ym] rad]|]; unfold update.
    + rewrite Hi. cbn [negb fst snd]. intros [= <-]. reflexivity.
    + cbn [miss_count max_misses set_miss_count].
      destruct (miss_count k + 1 >=? max_misses k)%Z.
      * cbn [fst snd]. intros [= <-]. reflexivity.
      * unfold predict. cbn [is_initialized set_miss_count]. rewrite Hi.
        cbn [negb x set_miss_count]. rewrite Hx. cbn [fst snd].
        intros [= <-]. unfold get_velocity. simpl. rewrite Hi. reflexivity.
Qed.

(** One miss on that tracker: the velocity is the prediction's. *)
Lemma get_velocity_after_update_witness :
  consistent Samples.tracked = true /\
  get_velocity (fst (update Samples.tracked None)) =
    (e_vx (estimate_of [[100]; [200]; [0]; [0]] 0 true),
     e_vy (estimate_of [[100]; [200]; [0]; [0]] 0 true)).
Proof.
  split; [reflexivity|].
  assert (Hr : snd (update Samples.tracked None) =
               Py.Ok (Some (estimate_of [[100]; [200]; [0]; [0]] 0 true)))
    by (vm_compute; reflexivity).
  destruct (get_velocity_after_update Samples.tracked None _ eq_refl Hr)
    as [Hw _].
  exact Hw.
Defined.

(** A tracker without a track never invents one: while no detection has
    come (or after [reset], or after the track was discarded), every frame
    without a detection returns [None], however many there are; the miss
    counter keeps growing past [max_misses] meanwhile. *)
Theorem no_track_no_prediction (k : tracker) (n : nat) :
  is_initialized k = false -> x k = None ->
  exists k',
    run k (misses n) = (k', Py.Ok (repeat None n)) /\
    is_initialized k' = false /\ x k' = None /\
    miss_count k' = (miss_count k + Z.of_nat n)%Z.
Proof.
  revert k. induction n as [|n IH]; intros k Hi Hx.
  - exists k. simpl. repeat split; auto. lia.
  - cbn [misses repeat run]. unfold update.
    cbn [miss_count max_misses set_miss_count].
    destruct (miss_count k + 1 >=? max_misses k)%Z.
    + set (k1 := set_P _ _).
      destruct (IH k1 eq_refl eq_refl) as (k' & Hr & Hi' & Hx' & Hm).
      unfold misses in Hr. rewrite Hr. exists k'. subst k1. simpl in Hm.
      repeat split; auto. lia.
    + unfold predict. cbn [is_initialized set_miss_count]. rewrite Hi.
      cbn [negb x set_miss_count]. rewrite Hx.
      set (k1 := set_miss_count _ _).
      destruct (IH k1 Hi Hx) as (k' & Hr & Hi' & Hx' & Hm).
      unfold misses in Hr. rewrite Hr. exists k'. subst k1. simpl in Hm.
      repeat split; auto. lia.
Qed.

(** Eight misses after a [reset]: [None] eight times. *)
Lemma no_track_no_prediction_witness :
  exists k',
    run (reset Samples.tracked) (misses 8) = (k', Py.Ok (repeat None 8)) /\
    is_initialized k' = false /\ x k' = None /\
    miss_count k' = (miss_count (reset Samples.tracked) + Z.of_nat 8)%Z.
Proof.
  apply (no_track_no_prediction (reset Samples.tracked) 8 eq_refl eq_refl).
Defined.

(** A detection is always answered.  On a tracker in a consistent state,
    [update] with a measurement never returns [None]: it returns an
    estimate that is not a prediction and carries the measured radius,
    leaving the tracker initialized with the miss counter at zero, or it
    raises the [LinAlgError] of the inversion, which only an initialized
    tracker can.  On a tracker with no track the estimate is the measured
    position with zero velocity. *)
Theorem detection_always_answers (k : tracker) (x_meas y_meas radius : float) :
  consistent k = true ->
  let k' := fst (update k (Some (x_meas, y_meas, radius))) in
  match snd (update k (Some (x_meas, y_meas, radius))) with
  | Py.Ok (Some e) =>
      predicted e = false /\ e_r e = radius /\
      is_initialized k' = true /\ miss_count k' = 0%Z /\
      (is_initialized k = false ->
       e_x e = x_meas /\ e_y e = y_meas /\ e_vx e = 0 /\ e_vy e = 0)
  | Py.Ok None => False
  | Py.Raise e => e = Py.LinAlgError /\ is_initialized k = true
  end.
Proof.
  intros Hc k'. subst k'.
  destruct (consistent_cases k Hc) as [(Hi & xv & Pv & Hx & HP) | (Hi & Hx & HP)].
  - destruct (update_detection_step k xv Pv x_meas y_meas radius Hi Hx HP)
      as [(xp & Pp & ->) | (xn & Pn & ->)]; cbn [fst snd].
    + split; [reflexivity | exact Hi].
    + cbn. rewrite Hi. repeat split; auto; congruence.
  - unfold update. rewrite Hi. cbn. repeat split; reflexivity.
Qed.

(** The first detection on a new tracker. *)
Lemma detection_always_answers_witness :
  consistent Samples.fresh_tracker = true /\
  snd (update Samples.fresh_tracker (Some (100, 200, 5))) =
    Py.Ok (Some {| e_x := 100; e_y := 200; e_vx := 0; e_vy := 0;
                   e_r := 5; predicted := false |}).
Proof.
  split; [reflexivity|].
  pose proof (detection_always_answers Samples.fresh_tracker 100 200 5 eq_refl)
    as Hw.
  cbv zeta in Hw.
  destruct (snd (update Samples.fresh_tracker (Some (100, 200, 5))))
    as [[e|]|e] eqn:Eu; [| contradiction | destruct Hw as [_ Hw]; discriminate Hw].
  destruct Hw as (Hp & Hr & _ & _ & Hz).
  destruct (Hz eq_refl) as (Hx & Hy & Hvx & Hvy).
  destruct e as [ex ey evx evy er ep]. cbn in *. subst. reflexivity.
Defined.

End KalmanLifecycle.
(** ** The detector over a run of frames, and inside [_detect_with_hough] *)

Module HybridTracking.
Import Hybrid.

Section WithDetectors.
Variable frame : Type.
Variable yolo_net : frame -> option rect.
Variable hough : frame -> option rect -> option ((Z * Z) * Z).

#[local] Abbreviation detect_ball := (detect_ball frame yolo_net hough).
#[local] Abbreviation acquire := (acquire frame yolo_net).
#[local] Abbreviation run := (run frame yolo_net hough).
#[local] Abbreviation after := (after frame yolo_net hough).
#[local] Abbreviation returned := (returned frame yolo_net hough).
#[local] Abbreviation trace := (trace frame yolo_net hough).

(** What one call does to the object, by cases on the wide scan and on
    the local search. *)
Lemma detect_ball_cases (d : detector) (f : frame) :
  let d0 := set_frame_count d (frame_count d + 1)%Z in
  let scan := should_run_yolo d0 in
  let box := if scan then Hybrid._detect_with_yolo frame yolo_net d0 f else None in
  let roi1 := match box with
              | Some (x, y, w, h) =>
                  Some (Z.max 0 (x - 20), Z.max 0 (y - 20), w + 40, h + 40)%Z
              | None => roi d
              end in
  trace d f = (if scan then [RunYolo f] else []) ++ [RunHough f roi1] /\
  yolo_available (after d f) = yolo_available d /\
  max_misses (after d f) = max_misses d /\
  yolo_frequency (after d f) = yolo_frequency d /\
  frame_count (after d f) = (frame_count d + 1)%Z /\
  match hough f roi1 with
  | Some ((cx, cy), r) =>
      returned d f = (Some (cx, cy), r) /\
      consecutive_misses (after d f) = 0%Z /\
      roi (after d f) =
        match roi1 with
        | Some _ => Some (Z.max 0 (cx - 50), Z.max 0 (cy - 50), 100, 100)%Z
        | None => None
        end
  | None =>
      returned d f = (None, 0%Z) /\
      consecutive_misses (after d f) = (consecutive_misses d + 1)%Z /\
      roi (after d f) =
        if (consecutive_misses d + 1 >? max_misses d)%Z then None else roi1
  end.
Proof.
  cbv zeta.
  unfold Hybrid.trace, Hybrid.after, Hybrid.returned, Hybrid.detect_ball, Hybrid.acquire.
  destruct (should_run_yolo (set_frame_count d (frame_count d + 1)%Z));
    [destruct (Hybrid._detect_with_yolo frame yolo_net _ f) as [[[[bx by_] bw] bh]|]|];
    try (replace (bw + 2 * 20)%Z with (bw + 40)%Z by lia;
         replace (bh + 2 * 20)%Z with (bh + 40)%Z by lia);
    cbn [roi set_roi set_frame_count fst snd app];
    destruct (hough f _) as [[[cx cy] r]|];
    cbn [roi consecutive_misses max_misses set_consecutive_misses set_roi
         set_frame_count];
    try destruct (roi d) eqn:Er;
    try destruct (consecutive_misses d + 1 >? max_misses d)%Z;
    cbn; rewrite ?Er; repeat split; reflexivity.
Qed.

(** A property of the object that every call keeps holds after a run. *)
Lemma run_invariant (Inv : detector -> Prop) :
  (forall d f, Inv d -> Inv (after d f)) ->
  forall fs d, Inv d -> Inv (fst (fst (run d fs))).
Proof.
  intros Hstep. induction fs as [|f fs IH]; intros d Hd; [exact Hd|].
  cbn [Hybrid.run].
  specialize (Hstep d f Hd). unfold Hybrid.after in Hstep.
  destruct (detect_ball d f) as [[d1 r1] tr1]. cbn [fst] in Hstep.
  specialize (IH d1 Hstep).
  destruct (run d1 fs) as [[d2 rs] trs]. exact IH.
Qed.

Lemma tracking_step (b : bool) (d : detector) (f : frame) :
  tracking b d -> tracking b (after d f).
Proof.
  intros (Hy & HM & HF & H0 & Hlost & Hroi).
  pose proof (detect_ball_cases d f) as Hc. cbv zeta in Hc.
  destruct Hc as (_ & Hy' & HM' & HF' & _ & Hh).
  match type of Hh with
  | match hough f ?r with _ => _ end => set (roi1 := r) in Hh
  end.
  assert (Hroi1 : match roi1 with
                  | Some (x, y, _, _) => (0 <= x /\ 0 <= y)%Z
                  | None => True
                  end).
  { subst roi1.
    destruct (if should_run_yolo _ then _ else None) as [[[[bx by_] bw] bh]|];
      [lia | exact Hroi]. }
  unfold tracking. rewrite Hy', HM', HF'.
  destruct (hough f roi1) as [[[cx cy] r]|].
  - destruct Hh as (_ & Hm & Hr). rewrite Hm, Hr.
    repeat split; auto; try lia.
    destruct roi1; [lia | exact I].
  - destruct Hh as (_ & Hm & Hr). rewrite Hm, Hr, HM.
    repeat split; auto; try lia.
    + intros Hgt. destruct (consecutive_misses d + 1 >? 3)%Z eqn:E; [reflexivity | lia].
    + destruct (consecutive_misses d + 1 >? 3)%Z; [exact I | exact Hroi1].
Qed.

Lemma tracking_run (b : bool) (fs : list frame) :
  tracking b (fst (fst (run (init b) fs))).
Proof.
  apply (run_invariant (tracking b)).
  - intros d f. apply tracking_step.
  - unfold tracking, init. simpl. repeat split; auto; lia.
Qed.

(** [reset] takes a detector back to the state the constructor left it
    in, whatever frames it has seen since. *)
Theorem reset_restores_initial_state (b : bool) (fs : list frame) :
  reset (fst (fst (run (init b) fs))) = init b.
Proof.
  pose proof (tracking_run b fs) as (Hy & HM & HF & _).
  destruct (fst (fst (run (init b) fs))) as [ya r cm mm fc yf].
  simpl in *. subst. reflexivity.
Qed.

End WithDetectors.

Section WithImage.
Variable image : Type.
Variable shape : image -> Z * Z.
Variable hough_circles : image -> option rect -> Z -> option (list (Z * Z * Z)).
Variable yolo_net : image -> option rect.

#[local] Abbreviation _detect_with_hough := (_detect_with_hough image shape hough_circles).
#[local] Abbreviation hough_of := (hough_of image shape hough_circles).
#[local] Abbreviation searched := (searched image shape).
#[local] Abbreviation tracked_run := (Hybrid.run image yolo_net hough_of).

(** The circle the loop of [_detect_with_hough] returns. *)
Lemma first_valid_found (circles : list (Z * Z * Z)) (x y cx cy r : Z) :
  first_valid circles x y = (Some (cx, cy), r) ->
  exists circle_x circle_y,
    In (circle_x, circle_y, r) circles /\
    cx = (circle_x + x)%Z /\ cy = (circle_y + y)%Z /\ (2 <= r)%Z.
Proof.
  induction circles as [|[[c_x c_y] c_r] rest IH]; [discriminate|].
  cbn [first_valid]. destruct (c_r <? 2)%Z eqn:E.
  - intros Hf. destruct (IH Hf) as (a & b & Hin & Hx & Hy & Hr).
    exists a, b. repeat split; auto. right. exact Hin.
  - intros [= <- <- <-]. exists c_x, c_y. repeat split; auto; [left; reflexivity | lia].
Qed.

(** The outcomes of [_detect_with_hough] that are [UnboundLocalError]. *)
Lemma detect_with_hough_unbound (f : image) (x y w h : Z) :
  (_detect_with_hough f (Some (x, y, w, h)) = UnboundLocalError <->
   (w <= 0 \/ h <= 0 \/
    snd (shape f) <= Z.max 0 x \/ fst (shape f) <= Z.max 0 y)%Z) /\
  _detect_with_hough f None <> UnboundLocalError.
Proof.
  split.
  - unfold Hybrid._detect_with_hough. destruct (shape f) as [fh fw]. cbn [fst snd].
    destruct (Z.max 0 x + w >? fw)%Z eqn:Ew, (Z.max 0 y + h >? fh)%Z eqn:Eh;
      match goal with
      | |- context [(?a <=? 0)%Z || (?b <=? 0)%Z] =>
          destruct (a <=? 0)%Z eqn:Ea; destruct (b <=? 0)%Z eqn:Eb
      end; cbn [orb];
      (split; [intros Hu; try lia | intros Hor; try reflexivity; try lia]);
      revert Hu; destruct (hough_circles f _ _); discriminate.
  - unfold Hybrid._detect_with_hough. destruct (hough_circles f None 60%Z); discriminate.
Qed.

(** When [_detect_with_hough] fails before it searches.  With an ROI
    [(x, y, w, h)] the call ends in [UnboundLocalError] exactly when the ROI
    is empty or starts at or beyond the right or the lower edge of the
    frame: the branch that was meant to fall back to the whole frame leaves
    [search_frame] unassigned.  Without an ROI the call always returns. *)
Theorem hough_unbound_iff_empty_crop (f : image) (x y w h : Z) :
  (_detect_with_hough f (Some (x, y, w, h)) = UnboundLocalError <->
   (w <= 0 \/ h <= 0 \/
    snd (shape f) <= Z.max 0 x \/ fst (shape f) <= Z.max 0 y)%Z) /\
  _detect_with_hough f None <> UnboundLocalError.
Proof.
  exact (detect_with_hough_unbound f x y w h).
Qed.

(** Where a returned centre lies. *)
Lemma detect_with_hough_region (f : image) (region : option rect)
  (c : option (Z * Z)) (r : Z) :
  (forall reg R circles circle,
     hough_circles f reg R = Some circles -> In circle circles ->
     let '(_, _, w, h) := searched f reg in centre_within w h circle) ->
  _detect_with_hough f region = Returns (c, r) ->
  match c with
  | None => r = 0%Z
  | Some (cx, cy) =>
      (2 <= r)%Z /\
      (0 <= cx < snd (shape f))%Z /\ (0 <= cy < fst (shape f))%Z /\
      match region with
      | Some (x, y, w, h) =>
          (Z.max 0 x <= cx < Z.max 0 x + w)%Z /\
          (Z.max 0 y <= cy < Z.max 0 y + h)%Z
      | None => True
      end
  end.
Proof.
  intros Hin. unfold Hybrid._detect_with_hough.
  assert (Hnone : forall cs a b, first_valid cs a b = (None, r) -> r = 0%Z).
  { induction cs as [|[[c_x c_y] c_r] rest IH]; intros a b; cbn [first_valid].
    - intros [= <-]. reflexivity.
    - destruct (c_r <? 2)%Z; [apply IH | discriminate]. }
  destruct region as [[[[x y] w] h]|].
  - destruct (shape f) as [fh fw] eqn:Es. cbn [fst snd].
    set (x' := Z.max 0 x). set (y' := Z.max 0 y).
    set (w' := if (x' + w >? fw)%Z then (fw - x')%Z else w).
    set (h' := if (y' + h >? fh)%Z then (fh - y')%Z else h).
    destruct ((w' <=? 0)%Z || (h' <=? 0)%Z) eqn:E; [discriminate|].
    apply orb_false_iff in E. destruct E as [Ew Eh].
    destruct (hough_circles f (Some (x', y', w', h')) 40%Z) as [cs|] eqn:Ec.
    + intros [= Hf]. destruct c as [[cx cy]|]; [|eapply Hnone; eauto].
      destruct (first_valid_found _ _ _ _ _ _ Hf) as (a & b & Hab & -> & -> & Hr).
      specialize (Hin _ _ _ _ Ec Hab). cbn in Hin.
      subst w' h'.
      destruct (x' + w >? fw)%Z eqn:E1, (y' + h >? fh)%Z eqn:E2; lia.
    + intros [= <- <-]. reflexivity.
  - destruct (hough_circles f None 60%Z) as [cs|] eqn:Ec.
    + intros [= Hf]. destruct c as [[cx cy]|]; [|eapply Hnone; eauto].
      destruct (first_valid_found _ _ _ _ _ _ Hf) as (a & b & Hab & -> & -> & Hr).
      specialize (Hin _ _ _ _ Ec Hab). cbn in Hin. lia.
    + intros [= <- <-]. reflexivity.
Qed.

(** A detection of [_detect_with_hough] lies where the search was made.
    When the circles OpenCV reports have their centres inside the image it
    was given, a returned centre has a radius of at least 2, lies inside the
    frame, and, when an ROI was passed, inside the ROI (moved to start at
    non-negative coordinates); a call that finds nothing returns [(None, 0)]. *)
Theorem hough_detection_in_search_region (f : image) (region : option rect)
  (c : option (Z * Z)) (r : Z) :
  (forall reg R circles circle,
     hough_circles f reg R = Some circles -> In circle circles ->
     let '(_, _, w, h) := searched f reg in centre_within w h circle) ->
  _detect_with_hough f region = Returns (c, r) ->
  match c with
  | None => r = 0%Z
  | Some (cx, cy) =>
      (2 <= r)%Z /\
      (0 <= cx < snd (shape f))%Z /\ (0 <= cy < fst (shape f))%Z /\
      match region with
      | Some (x, y, w, h) =>
          (Z.max 0 x <= cx < Z.max 0 x + w)%Z /\
          (Z.max 0 y <= cy < Z.max 0 y + h)%Z
      | None => True
      end
  end.
Proof.
  exact (detect_with_hough_region f region c r).
Qed.

(** One call on frames of one size keeps the ROI inside the frame. *)
Lemma roi_in_frame_step (fh fw : Z) (d : detector) (f : image) :
  (0 < fh)%Z -> (0 < fw)%Z ->
  shape f = (fh, fw) ->
  (forall x y w h, yolo_net f = Some (x, y, w, h) ->
     (x < fw /\ y < fh /\ 0 <= w /\ 0 <= h)%Z) ->
  (forall reg R circles circle,
     hough_circles f reg R = Some circles -> In circle circles ->
     let '(_, _, w, h) := searched f reg in centre_within w h circle) ->
  roi_in_frame fh fw d ->
  roi_in_frame fh fw (Hybrid.after image yolo_net hough_of d f) /\
  forall f' r, In (RunHough f' r) (Hybrid.trace image yolo_net hough_of d f) ->
    _detect_with_hough f' r <> UnboundLocalError.
Proof.
  intros Hfh Hfw Hs Hy Hc Hd.
  pose proof (detect_ball_cases image yolo_net hough_of d f) as Hcases.
  cbv zeta in Hcases. destruct Hcases as (Ht & _ & _ & _ & _ & Hh).
  match type of Hh with
  | match hough_of f ?r with _ => _ end => set (roi1 := r) in *
  end.
  assert (Hroi1 : match roi1 with
                  | Some (x, y, w, h) =>
                      (0 <= x < fw /\ 0 <= y < fh /\ 0 < w /\ 0 < h)%Z
                  | None => True
                  end).
  { subst roi1.
    destruct (should_run_yolo _); [|exact Hd].
    unfold Hybrid._detect_with_yolo.
    destruct (negb _); [exact Hd|].
    destruct (yolo_net f) as [[[[bx by_] bw] bh]|] eqn:Eb; [|exact Hd].
    specialize (Hy _ _ _ _ eq_refl). lia. }
  assert (Hok : _detect_with_hough f roi1 <> UnboundLocalError).
  { destruct roi1 as [[[[x y] w] h]|].
    - intros Hu. apply (proj1 (detect_with_hough_unbound f x y w h)) in Hu.
      rewrite Hs in Hu. cbn [fst snd] in Hu. lia.
    - apply (proj2 (detect_with_hough_unbound f 0 0 0 0)). }
  split.
  - unfold roi_in_frame.
    destruct (hough_of f roi1) as [[[cx cy] r]|] eqn:Eh.
    + destruct Hh as (_ & _ & ->).
      destruct roi1 as [r1|] eqn:Er1; [|exact I].
      unfold Hybrid.hough_of in Eh.
      destruct (_detect_with_hough f (Some r1)) as [[[c|] r']|] eqn:Ed;
        try discriminate.
      injection Eh as -> ->.
      pose proof (detect_with_hough_region f (Some r1) _ _ Hc Ed) as Hin.
      rewrite Hs in Hin. cbn [fst snd] in Hin. lia.
    + destruct Hh as (_ & _ & ->).
      destruct (_ >? _)%Z; [exact I | exact Hroi1].
  - intros f' r. rewrite Ht. intros Hin. apply in_app_or in Hin.
    destruct Hin as [Hin|[Hin|[]]].
    + destruct (should_run_yolo _); [destruct Hin as [Hin|[]]; discriminate | destruct Hin].
    + injection Hin as <- <-. exact Hok.
Qed.

(** Tracking never meets the unassigned [search_frame].  Over a run of
    frames of one size, when every box YOLO reports starts inside the frame
    with a non-negative size and every circle OpenCV reports has its centre
    inside the image searched, the ROI is at every call a non-empty
    rectangle that starts inside the frame, so no call of
    [_detect_with_hough] made by [detect_ball] ends in [UnboundLocalError]. *)
Theorem tracking_never_reads_unbound_frame (frame_height frame_width : Z)
  (fs : list image) : forall d : detector,
  (0 < frame_height)%Z -> (0 < frame_width)%Z ->
  (forall f, In f fs -> shape f = (frame_height, frame_width)) ->
  (forall f x y w h, In f fs -> yolo_net f = Some (x, y, w, h) ->
     (x < frame_width /\ y < frame_height /\ 0 <= w /\ 0 <= h)%Z) ->
  (forall f reg R circles circle, In f fs ->
     hough_circles f reg R = Some circles -> In circle circles ->
     let '(_, _, w, h) := searched f reg in centre_within w h circle) ->
  roi_in_frame frame_height frame_width d ->
  roi_in_frame frame_height frame_width (fst (fst (tracked_run d fs))) /\
  forall f r, In (RunHough f r) (snd (tracked_run d fs)) ->
    _detect_with_hough f r <> UnboundLocalError.
Proof.
  induction fs as [|f fs IH]; intros d Hfh Hfw Hs Hy Hc Hd.
  - simpl. split; [exact Hd | intros f r []].
  - cbn [Hybrid.run].
    destruct (roi_in_frame_step frame_height frame_width d f Hfh Hfw
                (Hs f (or_introl eq_refl))
                (fun x y w h => Hy f x y w h (or_introl eq_refl))
                (fun reg R cs c => Hc f reg R cs c (or_introl eq_refl)) Hd)
      as [Hd1 Htr].
    unfold Hybrid.after, Hybrid.trace in Hd1, Htr.
    destruct (Hybrid.detect_ball image yolo_net hough_of d f) as [[d1 r1] tr1].
    cbn [fst snd] in Hd1, Htr.
    destruct (IH d1 Hfh Hfw (fun f' H' => Hs f' (or_intror H'))
                (fun f' x y w h H' => Hy f' x y w h (or_intror H'))
                (fun f' reg R cs c H' => Hc f' reg R cs c (or_intror H')) Hd1)
      as [Hd2 Htr2].
    destruct (tracked_run d1 fs) as [[d2 rs] trs]. cbn [fst snd] in *.
    split; [exact Hd2|].
    intros f' r Hin. apply in_app_or in Hin. destruct Hin; eauto.
Qed.

End WithImage.

Lemma centre_circle_within (f : nat) (reg : option rect) (R : Z)
  (circles : list (Z * Z * Z)) (circle : Z * Z * Z) :
  Samples.centre_circle f reg R = Some circles -> In circle circles ->
  let '(_, _, w, h) := searched nat Samples.frame_shape f reg in
  centre_within w h circle.
Proof.
  unfold Samples.centre_circle.
  destruct (searched nat Samples.frame_shape f reg) as [[[x y] w] h].
  destruct (0 <? w)%Z eqn:Ew; [|discriminate].
  destruct (0 <? h)%Z eqn:Eh; [|discriminate].
  intros [= <-] [<-|[]]. unfold centre_within.
  assert (0 < w)%Z by lia. assert (0 < h)%Z by lia.
  pose proof (Z.div_pos w 2). pose proof (Z.div_lt w 2).
  pose proof (Z.div_pos h 2). pose proof (Z.div_lt h 2). lia.
Qed.

(** A search in the ROI [(280, 180, 64, 64)] of frame 9: the circle at
    the centre of the crop comes back in frame coordinates. *)
Lemma hough_detection_in_search_region_witness :
  _detect_with_hough nat Samples.frame_shape Samples.centre_circle 9%nat
    (Some (280, 180, 64, 64)%Z) = Returns (Some (312, 212)%Z, 6%Z) /\
  (2 <= 6)%Z /\
  (0 <= 312 < snd (Samples.frame_shape 9))%Z /\
  (0 <= 212 < fst (Samples.frame_shape 9))%Z /\
  (Z.max 0 280 <= 312 < Z.max 0 280 + 64)%Z /\
  (Z.max 0 180 <= 212 < Z.max 0 180 + 64)%Z.
Proof.
  split; [reflexivity|].
  exact (hough_detection_in_search_region nat Samples.frame_shape
           Samples.centre_circle 9%nat (Some (280, 180, 64, 64)%Z)
           (Some (312, 212)%Z) 6%Z (centre_circle_within 9%nat) eq_refl).
Defined.

(** Four frames from the constructor's state, with the model loaded: the
    ROI stays inside the 640 x 480 frame. *)
Lemma tracking_never_reads_unbound_frame_witness :
  roi_in_frame 480 640 (init true) /\
  roi_in_frame 480 640
    (fst (fst (Hybrid.run nat Samples.yolo_box
                 (hough_of nat Samples.frame_shape Samples.centre_circle)
                 (init true) [1; 2; 9; 10]%nat))).
Proof.
  split; [exact I|].
  refine (proj1 (tracking_never_reads_unbound_frame nat Samples.frame_shape
                   Samples.centre_circle Samples.yolo_box 480 640
                   [1; 2; 9; 10]%nat (init true) eq_refl eq_refl
                   (fun f _ => eq_refl) _ (fun f reg R cs c _ => centre_circle_within f reg R cs c) I)).
  intros f x y w h _ [= <- <- <- <-]. lia.
Defined.

End HybridTracking.
(** ** The launch vector: confidence range, window and frame-rate edge *)

Module LaunchVector.
Import Launch.

Section WithLibm.
Variable lm : Py.Libm.
Variable calibrator : option (float * float -> Py.res (float * float)).

#[local] Abbreviation _calculate_speed := (_calculate_speed lm calibrator).
#[local] Abbreviation _calculate_confidence := (_calculate_confidence lm).
#[local] Abbreviation calculate_launch_vector := (calculate_launch_vector lm calibrator).

(** The final clamp of [_calculate_confidence]. *)
Lemma confidence_clamped (points : list point) (speed : speed_result)
  (ang : angle_result) (c : float) :
  _calculate_confidence points speed ang = Py.Ok c ->
  is_nan c = false /\ (0 <=? c) = true /\ (c <=? 1) = true.
Proof.
  unfold Launch._calculate_confidence.
  destruct (3 <=? List.length points)%nat.
  - destruct (_calculate_linearity lm _) as [l|e]; [|discriminate].
    cbn [Py.bind]. intros [= <-]. apply (PyFacts.clamp_range 0 1 _ eq_refl).
  - cbn [Py.bind]. intros [= <-]. apply (PyFacts.clamp_range 0 1 _ eq_refl).
Qed.

(** The confidence of a launch vector is a number between 0 and 1, never
    NaN, whatever the points, the sensor data and the C library give: the
    final [max(0, min(1, confidence))] also maps a NaN product to a number.
    The vector carries an error marker exactly when fewer than three points
    were passed, and then speed, angle, direction and confidence are all
    [0]. *)
Theorem launch_confidence_range (points : list point) (gyro_data : option float)
  (compass_heading fps : float) (v : launch_vector) :
  calculate_launch_vector points gyro_data compass_heading fps = Py.Ok v ->
  is_nan (lv_confidence v) = false /\
  (0 <=? lv_confidence v) = true /\ (lv_confidence v <=? 1) = true /\
  (lv_error v <> None <-> (List.length points < 3)%nat) /\
  ((List.length points < 3)%nat ->
   lv_speed_mph v = 0 /\ lv_launch_angle v = 0 /\ lv_direction v = 0 /\
   lv_confidence v = 0 /\ lv_frames_used v = None).
Proof.
  unfold Launch.calculate_launch_vector.
  destruct (List.length points <? 3)%nat eqn:E.
  - apply Nat.ltb_lt in E. intros [= <-]. cbn.
    repeat split; auto; try reflexivity. discriminate.
  - apply Nat.ltb_ge in E.
    destruct (_calculate_speed _ _) as [sp|e]; [|discriminate]. cbn [Py.bind].
    destruct (_calculate_launch_angle lm _ _) as [an|e]; [|discriminate]. cbn [Py.bind].
    destruct (_calculate_direction lm _ _) as [di|e]; [|discriminate]. cbn [Py.bind].
    destruct (_calculate_confidence _ _ _) as [co|e] eqn:Ec; [|discriminate].
    cbn [Py.bind]. intros [= <-]. cbn.
    destruct (confidence_clamped _ _ _ _ Ec) as (Hn & H0 & H1).
    repeat split; auto; try lia. intros Hne. contradiction Hne. reflexivity.
Qed.

(** Only the first ten tracked points count: the launch vector of a
    trajectory is the launch vector of its first ten points, and a vector
    without an error marker was computed from between three and ten
    frames. *)
Theorem launch_window_is_first_ten (points : list point) (gyro_data : option float)
  (compass_heading fps : float) :
  calculate_launch_vector points gyro_data compass_heading fps =
    calculate_launch_vector (firstn 10 points) gyro_data compass_heading fps /\
  forall v, calculate_launch_vector points gyro_data compass_heading fps = Py.Ok v ->
    match lv_frames_used v with
    | Some k => k = Nat.min 10 (List.length points) /\ (3 <= k <= 10)%nat
    | None => (List.length points < 3)%nat
    end.
Proof.
  split.
  - unfold Launch.calculate_launch_vector.
    pose proof (length_firstn 10 points) as Hlen.
    destruct (List.length points <? 3)%nat eqn:E.
    + apply Nat.ltb_lt in E.
      replace (List.length (firstn 10 points) <? 3)%nat with true
        by (symmetry; apply Nat.ltb_lt; lia).
      reflexivity.
    + apply Nat.ltb_ge in E.
      replace (List.length (firstn 10 points) <? 3)%nat with false
        by (symmetry; apply Nat.ltb_ge; lia).
      rewrite firstn_firstn.
      replace (Nat.min (Nat.min 10 (List.length (firstn 10 points))) 10)
        with (Nat.min 10 (List.length points)) by lia.
      reflexivity.
  - intros v. unfold Launch.calculate_launch_vector.
    destruct (List.length points <? 3)%nat eqn:E.
    + apply Nat.ltb_lt in E. intros [= <-]. exact E.
    + apply Nat.ltb_ge in E.
      set (k := Nat.min 10 (List.length points)).
      assert (Hk : k = Nat.min 10 (List.length points)) by reflexivity.
      clearbody k.
      destruct (_calculate_speed _ _) as [sp|e]; [|discriminate]. cbn [Py.bind].
      destruct (_calculate_launch_angle lm _ _) as [an|e]; [|discriminate]. cbn [Py.bind].
      destruct (_calculate_direction lm _ _) as [di|e]; [|discriminate]. cbn [Py.bind].
      destruct (_calculate_confidence _ _ _) as [co|e]; [|discriminate].
      cbn [Py.bind]. intros [= <-]. cbn [lv_frames_used].
      rewrite length_firstn. lia.
Qed.

(** A frame rate of zero.  When the elapsed time has to come from frame
    numbers (the first or the last point of the window has no timestamp),
    [_calculate_speed] with [fps = 0] on two or more points never returns:
    the division [frame_diff / fps] raises [ZeroDivisionError], unless the
    squares or the square root before it have raised already. *)
Theorem zero_frame_rate_raises (points : list point) (first last : point)
  (fps : float) :
  (2 <= List.length points)%nat ->
  nth_error points 0 = Some first ->
  nth_error points (List.length points - 1) = Some last ->
  timestamp first = None \/ timestamp last = None ->
  (fps =? 0) = true ->
  exists e, _calculate_speed points fps = Py.Raise e /\
            (e = Py.ZeroDivisionError \/ e = Py.OverflowError \/ e = Py.ValueError).
Proof.
  intros Hlen Hf Hl Ht Hz. unfold Launch._calculate_speed.
  replace (List.length points <? 2)%nat with false
    by (symmetry; apply Nat.ltb_ge; exact Hlen).
  unfold index. rewrite Hf, Hl. cbn [Py.bind].
  destruct (Py.py_pow lm (px last - px first) 2) as [dx2|e] eqn:Ex.
  2:{ exists e. split; [reflexivity|]. right. left.
      revert Ex. unfold Py.py_pow.
      repeat match goal with
             | |- (if ?c then _ else _) = _ -> _ => destruct c; try discriminate
             end.
      intros [= <-]. reflexivity. }
  cbn [Py.bind].
  destruct (Py.py_pow lm (py last - py first) 2) as [dy2|e] eqn:Ey.
  2:{ exists e. split; [reflexivity|]. right. left.
      revert Ey. unfold Py.py_pow.
      repeat match goal with
             | |- (if ?c then _ else _) = _ -> _ => destruct c; try discriminate
             end.
      intros [= <-]. reflexivity. }
  cbn [Py.bind].
  destruct (Py.msqrt (dx2 + dy2)) as [d|e] eqn:Es.
  2:{ exists e. split; [reflexivity|]. right. right.
      revert Es. unfold Py.msqrt, Py.math_1.
      repeat match goal with
             | |- (if ?c then _ else _) = _ -> _ => destruct c; try discriminate
             end; intros [= <-]; reflexivity. }
  cbn [Py.bind].
  exists Py.ZeroDivisionError. split; [|left; reflexivity].
  assert (Hd : forall n, Py.fdiv n fps = Py.Raise Py.ZeroDivisionError)
    by (intros n; unfold Py.fdiv; rewrite Hz; reflexivity).
  destruct Ht as [Ht|Ht]; rewrite Ht.
  - rewrite Hd. reflexivity.
  - destruct (timestamp first); rewrite Hd; reflexivity.
Qed.

End WithLibm.

(** The module's test trajectory: six points, so all of them are used and
    the confidence is a number in [0, 1]. *)
Lemma launch_confidence_range_witness :
  exists v,
    Launch.calculate_launch_vector Samples.libm None Samples.test_trajectory
      None 45 30 = Py.Ok v /\
    is_nan (lv_confidence v) = false /\
    (0 <=? lv_confidence v) = true /\ (lv_confidence v <=? 1) = true.
Proof.
  assert (Hv : exists v,
             Launch.calculate_launch_vector Samples.libm None
               Samples.test_trajectory None 45 30 = Py.Ok v)
    by (eexists; vm_compute; reflexivity).
  destruct Hv as [v Hv]. exists v. split; [exact Hv|].
  destruct (launch_confidence_range Samples.libm None Samples.test_trajectory
              None 45 30 v Hv) as (Hn & H0 & H1 & _).
  repeat split; assumption.
Defined.

(** Two points that carry frame numbers only, at a frame rate of zero. *)
Lemma zero_frame_rate_raises_witness :
  exists e,
    Launch._calculate_speed Samples.libm None
      [Launch.mkPoint 100 200 None (Some 0%Z);
       Launch.mkPoint 120 195 None (Some 1%Z)] 0 = Py.Raise e /\
    (e = Py.ZeroDivisionError \/ e = Py.OverflowError \/ e = Py.ValueError).
Proof.
  apply (zero_frame_rate_raises Samples.libm None
           [Launch.mkPoint 100 200 None (Some 0%Z);
            Launch.mkPoint 120 195 None (Some 1%Z)]
           (Launch.mkPoint 100 200 None (Some 0%Z))
           (Launch.mkPoint 120 195 None (Some 1%Z)) 0).
  - simpl. lia.
  - reflexivity.
  - reflexivity.
  - left. reflexivity.
  - reflexivity.
Defined.

End LaunchVector.
(** ** More about float comparisons *)

Module FloatFacts.

Lemma eqb_leb (a b : float) : (a =? b) = true -> (a <=? b) = true.
Proof.
  rewrite eqb_spec, leb_spec. unfold SFeqb, SFleb.
  destruct (SFcompare _ _) as [[]|]; congruence.
Qed.

Lemma abs_opp (a : float) : abs (- a) = abs a.
Proof.
  apply Prim2SF_inj. rewrite !abs_spec, opp_spec.
  destruct (Prim2SF a); reflexivity.
Qed.

Lemma ltb_nan_l (a b : float) : is_nan a = true -> (a <? b) = false.
Proof.
  rewrite PyFacts.is_nan_spec, ltb_spec.
  destruct (Prim2SF a); try discriminate. reflexivity.
Qed.

Lemma ltb_nan_r (a b : float) : is_nan b = true -> (a <? b) = false.
Proof.
  rewrite PyFacts.is_nan_spec, ltb_spec.
  destruct (Prim2SF b); try discriminate. intros _.
  destruct (Prim2SF a); reflexivity.
Qed.

Lemma abs_nan (a : float) : is_nan a = true -> is_nan (abs a) = true.
Proof.
  rewrite !PyFacts.is_nan_spec, abs_spec.
  destruct (Prim2SF a); try discriminate. reflexivity.
Qed.

(** Anything strictly above a non-negative number is non-negative. *)
Lemma zero_leb_ltb (m q : float) :
  (0 <=? m) = true -> (m <? q) = true -> (0 <=? q) = true.
Proof.
  rewrite !leb_spec, ltb_spec. unfold SFleb, SFltb.
  change (Prim2SF 0) with (S754_zero false).
  destruct (Prim2SF m) as [sm|sm| |sm mm em], (Prim2SF q) as [sq|sq| |sq mq eq_];
    simpl; try discriminate; try reflexivity;
    try (destruct sm; discriminate);
    try (destruct sq; try discriminate; reflexivity);
    try (destruct sm; destruct sq; try discriminate; reflexivity).
Qed.

End FloatFacts.

(** ** homography_calibration.py: the guards of the calibrator *)

Module Calibration.
Import Homography.

Section WithCv.
Variable lm : Py.Libm.
Variable homography : Type.
Variable perspectiveTransform : homography -> float * float -> float * float.

#[local] Abbreviation calibrator := (calibrator homography).
#[local] Abbreviation calibrate_from_known_object :=
  (calibrate_from_known_object homography).
#[local] Abbreviation calibrate_from_distance_marker :=
  (calibrate_from_distance_marker lm homography).
#[local] Abbreviation pixel_to_meters :=
  (pixel_to_meters homography perspectiveTransform).
#[local] Abbreviation is_calibrated := (is_calibrated homography).
#[local] Abbreviation quick_calibrate_from_ball :=
  (quick_calibrate_from_ball homography).
#[local] Abbreviation for_launch := (for_launch homography perspectiveTransform).

(** The guard of [calibrate_from_known_object] makes its division safe.
    The call raises [ValueError] when a diameter is [<= 0] and otherwise
    returns the ratio [pixel_diameter / real_diameter_meters] and stores it,
    leaving the calibrator calibrated: a zero divisor never reaches the
    division, so [ZeroDivisionError] cannot occur.
    [quick_calibrate_from_ball] inherits this with the doubled radius, and
    [calibrate_from_distance_marker], which has no guard, never returns for
    a real distance of zero. *)
Theorem known_object_guard (c : calibrator) (pixel_diameter real_diameter : float) :
  calibrate_from_known_object c pixel_diameter real_diameter =
    (if (pixel_diameter <=? 0) || (real_diameter <=? 0)
     then Py.Raise Py.ValueError
     else Py.Ok ({| homography_matrix := homography_matrix homography c;
                    pixels_per_meter := Some (pixel_diameter / real_diameter);
                    calibration_method := Some "known_object"%string |},
                 pixel_diameter / real_diameter)) /\
  (forall c' ratio,
     calibrate_from_known_object c pixel_diameter real_diameter = Py.Ok (c', ratio) ->
     is_calibrated c' = true /\ pixels_per_meter homography c' = Some ratio) /\
  (forall ball_radius_pixels,
     quick_calibrate_from_ball ball_radius_pixels =
       if ball_radius_pixels * 2 <=? 0 then Py.Raise Py.ValueError
       else Py.Ok {| homography_matrix := None;
                     pixels_per_meter := Some (ball_radius_pixels * 2 / 0.0427);
                     calibration_method := Some "known_object"%string |}) /\
  (forall point1_px point2_px real_distance r,
     (real_distance =? 0) = true ->
     calibrate_from_distance_marker c point1_px point2_px real_distance <> Py.Ok r).
Proof.
  assert (Hmain : forall c0 pd rd,
    calibrate_from_known_object c0 pd rd =
      (if (pd <=? 0) || (rd <=? 0)
       then Py.Raise Py.ValueError
       else Py.Ok ({| homography_matrix := homography_matrix homography c0;
                      pixels_per_meter := Some (pd / rd);
                      calibration_method := Some "known_object"%string |},
                   pd / rd))).
  { intros c0 pd rd. unfold Homography.calibrate_from_known_object, Py.fdiv.
    destruct ((pd <=? 0) || (rd <=? 0)) eqn:E; [reflexivity|].
    apply orb_false_iff in E. destruct E as [_ Er].
    destruct (rd =? 0) eqn:Ez; [|reflexivity].
    apply FloatFacts.eqb_leb in Ez. congruence. }
  split; [apply Hmain|]. split; [|split].
  - intros c' ratio. rewrite Hmain.
    destruct ((pixel_diameter <=? 0) || (real_diameter <=? 0)); [discriminate|].
    intros [= <- <-]. split; reflexivity.
  - intros r. unfold Homography.quick_calibrate_from_ball. rewrite Hmain.
    replace (0.0427 <=? 0) with false by reflexivity. rewrite orb_false_r.
    destruct (r * 2 <=? 0); reflexivity.
  - intros p1 p2 rd r Hz. unfold Homography.calibrate_from_distance_marker.
    destruct (Py.py_pow lm _ 2); [|discriminate]. cbn [Py.bind].
    destruct (Py.py_pow lm _ 2); [|discriminate]. cbn [Py.bind].
    destruct (Py.msqrt _); [|discriminate]. cbn [Py.bind].
    unfold Py.fdiv. rewrite Hz. discriminate.
Qed.

(** [is_calibrated] and the "Not calibrated" error agree.  With the default
    [use_homography=True], [pixel_to_meters] raises [ValueError] exactly
    when [is_calibrated()] is false; with [use_homography=False] it raises
    it exactly when no scale is stored, also on a calibrator that holds a
    homography and reports itself calibrated.  The launch calculator uses a
    calibrator exactly when it reports itself calibrated. *)
Theorem not_calibrated_error (c : calibrator) (pixel_point : float * float) :
  (pixel_to_meters c pixel_point true = Py.Raise Py.ValueError <->
   is_calibrated c = false) /\
  (pixel_to_meters c pixel_point false = Py.Raise Py.ValueError <->
   pixels_per_meter homography c = None) /\
  (for_launch (Some c) = None <-> is_calibrated c = false) /\
  for_launch None = None.
Proof.
  assert (Hscale : forall ratio,
    (x_meters <- Py.fdiv (fst pixel_point) ratio ;;
     y_meters <- Py.fdiv (snd pixel_point) ratio ;;
     Py.Ok (x_meters, y_meters)) <> Py.Raise Py.ValueError).
  { intros ratio. unfold Py.fdiv. destruct (ratio =? 0); cbn; discriminate. }
  unfold Homography.pixel_to_meters, Homography.is_calibrated, Homography.for_launch.
  unfold Homography.is_calibrated.
  destruct (homography_matrix homography c) as [m|],
           (pixels_per_meter homography c) as [ratio|]; cbn [orb];
    repeat split; intros H; try reflexivity; try discriminate;
    try (exfalso; exact (Hscale ratio H)).
Qed.

End WithCv.

End Calibration.

(** ** shot_archetypes.py: the estimate is always a known archetype *)

Module ArchetypeFacts.
Import Archetypes.

(** Whatever curve is observed and whatever the direction string, the key
    [estimate_archetype_from_curve] returns is a key of [SHOT_TYPES], so
    [get_archetype] of it is never [None]; for ["right"] the archetype
    found has a spin axis tilted right or not at all, for any other string
    one tilted left or not at all.  Only the magnitude of the curve counts,
    and a NaN curve gives ["straight"]. *)
Theorem estimated_archetype_is_known (observed_curve_yards : float)
  (direction : string) :
  let key := estimate_archetype_from_curve observed_curve_yards direction in
  (exists s, get_archetype key = Some s /\
     if String.eqb direction "right" then (0 <= side_spin_axis s)%Z
     else (side_spin_axis s <= 0)%Z) /\
  estimate_archetype_from_curve (- observed_curve_yards) direction = key /\
  (is_nan observed_curve_yards = true -> key = "straight"%string).
Proof.
  cbv zeta. split; [|split].
  - unfold estimate_archetype_from_curve.
    destruct (String.eqb direction "right");
      repeat match goal with
             | |- context [if Py.gtb ?a ?b then _ else _] => destruct (Py.gtb a b)
             end;
      (eexists; split; [vm_compute; reflexivity | vm_compute; congruence]).
  - unfold estimate_archetype_from_curve. rewrite FloatFacts.abs_opp. reflexivity.
  - intros Hn. unfold estimate_archetype_from_curve, Py.gtb.
    rewrite !(FloatFacts.ltb_nan_r _ _ (FloatFacts.abs_nan _ Hn)).
    destruct (String.eqb direction "right"); reflexivity.
Qed.

End ArchetypeFacts.
(** ** The simulated flight and its GPS track *)

Module FlightFacts.
Import Physics.

(** The loop of [simulate_flight] starts at the origin, with the first
    loop test true. *)
Lemma prepare_origin (lm : Py.Libm) (sim sim' : simulator) (a : launch)
  (w : float * float) (l0 : loop_state) :
  prepare lm sim a = Py.Ok (sim', w, l0) ->
  s_x (l_state l0) = 0 /\ s_y (l_state l0) = 0 /\ s_z (l_state l0) = 0 /\
  l_points l0 = [] /\ airborne l0 = true.
Proof.
  unfold prepare.
  destruct (set_conditions sim _ _) as [s1|e]; [|discriminate]. cbn [Py.bind].
  destruct (Py.mcos lm _) as [ca|e]; [|discriminate]. cbn [Py.bind].
  destruct (Py.msin lm _) as [sa|e]; [|discriminate]. cbn [Py.bind].
  destruct (Py.mcos lm _) as [cw|e]; [|discriminate]. cbn [Py.bind].
  destruct (Py.msin lm _) as [sw|e]; [|discriminate]. cbn [Py.bind].
  intros H. inversion H; subst. repeat split; reflexivity.
Qed.

(** What a returned flight holds: the origin first, then points at or
    above ground level. *)
Lemma flight_points (lm : Py.Libm) (sim : simulator) (a : launch) (f : flight) :
  simulate_flight lm sim a = Some (Py.Ok f) ->
  exists rest,
    points f = (0, 0, 0) :: rest /\
    Forall above (points f) /\
    num_points f = S (List.length rest).
Proof.
  unfold simulate_flight, simulate_flight_fuel.
  destruct (prepare lm sim a) as [[[sim' w] l0]|e] eqn:Ep; [|discriminate].
  destruct (prepare_origin lm sim sim' a w l0 Ep) as (Hx & Hy & Hz & Hp & Ha).
  destruct (flight_loop lm max_steps sim' w l0) as [[l|e]|] eqn:El; try discriminate.
  intros Hf. injection Hf as Hf.
  destruct (PhysicsFacts.finish_ok lm l f Hf) as (Hpts & Hnum & _).
  destruct (PhysicsFacts.flight_loop_points lm sim' w max_steps l0 l El)
    as (new & Hnew & _ & Habove & _ & _).
  rewrite Hp in Hnew. cbn [app] in Hnew.
  change max_steps with (S 1500) in El. cbn [flight_loop] in El.
  rewrite Ha in El.
  destruct (loop_body lm sim' w l0) as [l1|e] eqn:Eb; [|discriminate].
  destruct (PhysicsFacts.flight_body_ok lm sim' w l0 l1 Eb) as [_ Hp1].
  destruct (PhysicsFacts.flight_loop_points lm sim' w 1500 l1 l El)
    as (new1 & Hnew1 & _).
  rewrite Hp1, Hp, Hx, Hy, Hz in Hnew1. cbn [app] in Hnew1.
  exists new1. rewrite Hnum, Hpts.
  split; [exact Hnew1|]. split.
  - rewrite Hnew. exact Habove.
  - rewrite Hnew1. reflexivity.
Qed.

(** Every flight [simulate_flight] returns starts at the tee: the list of
    points is never empty and its first point is the origin [(0, 0, 0)],
    recorded before the first integration step. *)
Theorem flight_starts_at_origin (lm : Py.Libm) (sim : simulator) (a : launch)
  (f : flight) :
  simulate_flight lm sim a = Some (Py.Ok f) ->
  (1 <= num_points f)%nat /\
  exists rest, points f = (0, 0, 0) :: rest.
Proof.
  intros Hf. destruct (flight_points lm sim a f Hf) as (rest & Hp & _ & Hn).
  split; [lia | exists rest; exact Hp].
Qed.

(** [simulate_flight] sets the air density itself, from its own
    temperature and altitude arguments (70 F and sea level by default): the
    density the simulator object holds when the call is made, for instance
    from an earlier [set_conditions], has no effect on the result. *)
Theorem simulate_flight_resets_air_density (lm : Py.Libm) (sim : simulator)
  (a : launch) (density : float) :
  simulate_flight lm
    (mkSimulator (ball_mass sim) (ball_diameter sim) (ball_radius sim)
                 (ball_area sim) density (drag_coefficient sim)
                 (lift_coefficient_per_spin sim) (gravity sim)) a
  = simulate_flight lm sim a /\
  forall altitude temperature sim',
    set_conditions sim altitude temperature = Py.Ok sim' ->
    simulate_flight lm sim' a = simulate_flight lm sim a.
Proof.
  assert (Hgen : forall d,
    simulate_flight lm
      (mkSimulator (ball_mass sim) (ball_diameter sim) (ball_radius sim)
                   (ball_area sim) d (drag_coefficient sim)
                   (lift_coefficient_per_spin sim) (gravity sim)) a
    = simulate_flight lm sim a)
    by (intros d; reflexivity).
  split; [apply Hgen|].
  intros alt temp sim'. unfold set_conditions.
  destruct (Py.fdiv _ _) as [tr|e]; [|discriminate]. cbn [Py.bind].
  intros [= <-]. apply Hgen.
Qed.

Section WithLibm.
Variable lm : Py.Libm.
Variable c_asin : float -> float.

#[local] Abbreviation trajectory_to_gps := (Gps.trajectory_to_gps lm c_asin).
#[local] Abbreviation point_to_gps := (Gps.point_to_gps lm c_asin).

(** One point of the track keeps its elevation, and the origin goes to
    the start coordinates. *)
Lemma point_to_gps_elevation (start_lat start_lon bearing : float)
  (p g : float * float * float) :
  point_to_gps start_lat start_lon bearing p = Py.Ok g ->
  snd g = snd p /\
  (fst p = (0, 0) -> g = (start_lat, start_lon, snd p)).
Proof.
  destruct p as [[x y] z]. unfold Gps.point_to_gps.
  destruct (Py.py_pow lm x 2) as [x2|e] eqn:Ex; [|discriminate]. cbn [Py.bind].
  destruct (Py.py_pow lm y 2) as [y2|e] eqn:Ey; [|discriminate]. cbn [Py.bind].
  destruct (Py.msqrt (x2 + y2)) as [d|e] eqn:Ed; [|discriminate]. cbn [Py.bind].
  destruct (d <? 0.1) eqn:En.
  - intros [= <-]. split; [reflexivity | intros _; reflexivity].
  - destruct (Py.matan2 lm y x) as [t|e]; [|discriminate]. cbn [Py.bind].
    destruct (Gps.calculate_new_gps lm c_asin _ _ _ _) as [[la lo]|e];
      [|discriminate]. cbn [Py.bind].
    intros [= <-]. split; [reflexivity|].
    intros [= -> ->]. exfalso.
    cbv in Ex. cbv in Ey. injection Ex as <-. injection Ey as <-.
    cbv in Ed. injection Ed as <-. cbv in En. discriminate.
Qed.

(** The shape of a returned track. *)
Lemma trajectory_to_gps_shape (pts : list (float * float * float))
  (start_lat start_lon bearing : float) (gps : list (float * float * float)) :
  trajectory_to_gps pts start_lat start_lon bearing = Py.Ok gps ->
  List.length gps = List.length pts /\
  map snd gps = map snd pts /\
  forall z rest, pts = (0, 0, z) :: rest ->
    exists track, gps = (start_lat, start_lon, z) :: track.
Proof.
  revert gps. induction pts as [|p pts IH]; intros gps.
  - intros [= <-]. repeat split. intros z rest H. discriminate.
  - cbn [Gps.trajectory_to_gps].
    destruct (point_to_gps start_lat start_lon bearing p) as [g|e] eqn:Eg;
      [|discriminate]. cbn [Py.bind].
    destruct (trajectory_to_gps pts start_lat start_lon bearing) as [gs|e];
      [|discriminate]. cbn [Py.bind].
    intros [= <-].
    destruct (point_to_gps_elevation _ _ _ _ _ Eg) as [Hz H0].
    destruct (IH gs eq_refl) as (Hl & Hm & _).
    cbn [List.length map]. rewrite Hl, Hm, Hz. repeat split.
    intros z rest [= -> ->]. exists gs. rewrite (H0 eq_refl). reflexivity.
Qed.

(** [trajectory_to_gps] keeps the shape of the trajectory.  When it
    returns, the GPS track has one entry per trajectory point, in order,
    each with the elevation [z] of its point unchanged, and a trajectory that
    starts at the origin gives a track that starts at the start
    coordinates. *)
Theorem gps_track_keeps_elevation (pts : list (float * float * float))
  (start_lat start_lon bearing : float) (gps : list (float * float * float)) :
  trajectory_to_gps pts start_lat start_lon bearing = Py.Ok gps ->
  List.length gps = List.length pts /\
  map snd gps = map snd pts /\
  forall z rest, pts = (0, 0, z) :: rest ->
    exists track, gps = (start_lat, start_lon, z) :: track.
Proof.
  exact (trajectory_to_gps_shape pts start_lat start_lon bearing gps).
Qed.

(** The GPS track of a simulated flight, as the shot analysis builds it:
    when both calls return, the track has [num_points] entries, so it is
    never empty and has a last entry to take as the landing point; it
    starts at the start coordinates with elevation 0; and no entry has a
    negative elevation. *)
Theorem flight_track_starts_at_tee (sim : simulator) (a : launch) (f : flight)
  (start_lat start_lon bearing : float) (gps : list (float * float * float)) :
  simulate_flight lm sim a = Some (Py.Ok f) ->
  trajectory_to_gps (points f) start_lat start_lon bearing = Py.Ok gps ->
  List.length gps = num_points f /\
  (exists track, gps = (start_lat, start_lon, 0) :: track) /\
  Forall (fun g => Py.geb (snd g) 0 = true) gps.
Proof.
  intros Hf Hg.
  destruct (flight_points lm sim a f Hf) as (rest & Hp & Ha & Hn).
  destruct (trajectory_to_gps_shape _ _ _ _ _ Hg) as (Hl & Hm & H0).
  split; [|split].
  - rewrite Hl, Hp, Hn. reflexivity.
  - exact (H0 0 rest Hp).
  - assert (Hz : Forall (fun z => Py.geb z 0 = true) (map snd gps)).
    { rewrite Hm. apply Forall_map. exact Ha. }
    apply Forall_map in Hz. exact Hz.
Qed.

End WithLibm.

(** The driver shot of the module's own test starts at the origin. *)
Lemma flight_starts_at_origin_witness :
  exists f rest,
    simulate_flight Samples.libm Samples.simulator (Samples.shot 145 12 2500 0)
      = Some (Py.Ok f) /\
    points f = (0, 0, 0) :: rest.
Proof.
  assert (Hf : exists f,
             simulate_flight Samples.libm Samples.simulator
               (Samples.shot 145 12 2500 0) = Some (Py.Ok f))
    by (eexists; vm_compute; reflexivity).
  destruct Hf as [f Hf].
  destruct (flight_starts_at_origin Samples.libm Samples.simulator _ f Hf)
    as [_ [rest Hrest]].
  exists f, rest. split; assumption.
Defined.

(** A track of two points next to the start, the second 1.5 m up. *)
Lemma gps_track_keeps_elevation_witness :
  Gps.trajectory_to_gps Samples.libm Samples.asin
    [(0, 0, 0); (0.05, 0, 1.5)] 36.5 (-122) 45
    = Py.Ok [(36.5, -122, 0); (36.5, -122, 1.5)] /\
  map snd [(36.5, -122, 0); (36.5, -122, 1.5)]
    = map snd [(0, 0, 0); (0.05, 0, 1.5)].
Proof.
  assert (Hg : Gps.trajectory_to_gps Samples.libm Samples.asin
                 [(0, 0, 0); (0.05, 0, 1.5)] 36.5 (-122) 45
               = Py.Ok [(36.5, -122, 0); (36.5, -122, 1.5)])
    by (vm_compute; reflexivity).
  split; [exact Hg|].
  exact (proj1 (proj2 (gps_track_keeps_elevation Samples.libm Samples.asin
                         _ _ _ _ _ Hg))).
Defined.

(** The chip of 1 mph from (36.5, -122): two track entries, the first at
    the start coordinates. *)
Lemma flight_track_starts_at_tee_witness :
  exists f gps track,
    simulate_flight Samples.libm Samples.simulator Samples.chip = Some (Py.Ok f) /\
    Gps.trajectory_to_gps Samples.libm Samples.asin (points f) 36.5 (-122) 45
      = Py.Ok gps /\
    List.length gps = num_points f /\
    gps = (36.5, -122, 0) :: track.
Proof.
  assert (Hf : exists f,
             simulate_flight Samples.libm Samples.simulator Samples.chip
               = Some (Py.Ok f))
    by (eexists; vm_compute; reflexivity).
  destruct Hf as [f Hf].
  assert (Hg : exists gps,
             Gps.trajectory_to_gps Samples.libm Samples.asin (points f)
               36.5 (-122) 45 = Py.Ok gps).
  { assert (Hp : points f =
              [(0, 0, 0); (0.0043726658289715541, 0, 0.00043894674448593038)]).
    { revert Hf. vm_compute. intros [= <-]. reflexivity. }
    rewrite Hp. eexists. vm_compute. reflexivity. }
  destruct Hg as [gps Hg].
  destruct (flight_track_starts_at_tee Samples.libm Samples.asin
              Samples.simulator Samples.chip f 36.5 (-122) 45 gps Hf Hg)
    as (Hl & [track Ht] & _).
  exists f, gps, track. repeat split; assumption.
Defined.

End FlightFacts.
(** ** The batch generator: its summaries and its errors *)

Module TableSummary.
Import Tables.

(** A running maximum that starts non-negative stays non-negative. *)
Lemma max_fold_nonneg (ps : list TrajectoryPoint) : forall m0 : float,
  (0 <=? m0) = true ->
  (0 <=? fold_left (fun m q => Py.max2 m (p_y q)) ps m0) = true.
Proof.
  induction ps as [|q ps IH]; intros m0 H0; [exact H0|].
  cbn [fold_left]. apply IH. unfold Py.max2, Py.gtb.
  destruct (m0 <? p_y q) eqn:E; [|exact H0].
  exact (FloatFacts.zero_leb_ltb m0 (p_y q) H0 E).
Qed.

(** The summary of a trajectory that starts at the origin. *)
Lemma variant_of_total (lm : Py.Libm) (archetype : ShotArchetype) (m : float)
  (rest : list TrajectoryPoint) :
  let traj := mkPoint 0.0 0.0 0.0 0.0 :: rest in
  exists height v,
    max_y traj = Py.Ok height /\ (0 <=? height) = true /\
    variant_of lm archetype m traj = Py.Ok v /\
    List.length (v_points v) = List.length traj.
Proof.
  cbv zeta. eexists. eexists. split; [reflexivity|]. split.
  - apply max_fold_nonneg. reflexivity.
  - unfold variant_of. cbn [max_y Py.bind]. split; [reflexivity|].
    cbn [v_points]. apply length_map.
Qed.

(** The summary of a generated trajectory cannot fail.  A trajectory
    returned by [calculate_trajectory] is never empty, so the
    [max(p.y for p in trajectory)] of [generate_speed_variants] never meets
    an empty sequence: the variant is always built, with one rounded point
    per trajectory point, and the maximum height it is built from is not
    negative. *)
Theorem table_summary_never_fails (lm : Py.Libm) (archetype : ShotArchetype)
  (m : float) (traj : list TrajectoryPoint) :
  calculate_trajectory lm archetype m = Some (Py.Ok traj) ->
  exists height v,
    max_y traj = Py.Ok height /\ (0 <=? height) = true /\
    variant_of lm archetype m traj = Py.Ok v /\
    List.length (v_points v) = List.length traj.
Proof.
  intros Hc.
  destruct (TablesFacts.calculate_trajectory_spec lm archetype m) as (r & Hr & Hspec).
  rewrite Hc in Hr. injection Hr as <-.
  destruct Hspec as (_ & _ & _ & _ & rest & ->).
  apply variant_of_total.
Qed.

Lemma variants_for_raise (lm : Py.Libm) (archetype : ShotArchetype)
  (e : Py.exn) : forall pcts : list Z,
  variants_for lm archetype pcts = Some (Py.Raise e) ->
  exists speed_pct,
    In speed_pct pcts /\
    calculate_trajectory lm archetype (Py.of_Z speed_pct / 100.0)
      = Some (Py.Raise e).
Proof.
  induction pcts as [|pct pcts IH]; [discriminate|].
  cbn [variants_for].
  destruct (calculate_trajectory lm archetype (Py.of_Z pct / 100.0))
    as [[traj|e']|] eqn:Ec; [| |discriminate].
  - destruct (TablesFacts.calculate_trajectory_spec lm archetype
                (Py.of_Z pct / 100.0)) as (r & Hr & Hspec).
    rewrite Ec in Hr. injection Hr as <-.
    destruct Hspec as (_ & _ & _ & _ & rest & ->).
    destruct (variant_of_total lm archetype (Py.of_Z pct / 100.0) rest)
      as (h & v & _ & _ & Hv & _).
    cbv zeta in Hv. rewrite Hv.
    destruct (variants_for lm archetype pcts) as [[vs|e'']|]; try discriminate.
    intros [= ->]. destruct (IH eq_refl) as (p & Hin & Hp).
    exists p. split; [right; exact Hin | exact Hp].
  - intros [= ->]. exists pct. split; [left; reflexivity | exact Ec].
Qed.

(** Where an exception of the batch generator comes from: when
    [generate_speed_variants] raises, [calculate_trajectory] has raised
    that exception at one of the seven speed percentages; the summary
    statistics add no failure of their own. *)
Theorem batch_errors_come_from_integrator (lm : Py.Libm)
  (archetype : ShotArchetype) (e : Py.exn) :
  generate_speed_variants lm archetype = Some (Py.Raise e) ->
  exists speed_pct,
    In speed_pct [60; 70; 80; 90; 100; 110; 120]%Z /\
    calculate_trajectory lm archetype (Py.of_Z speed_pct / 100.0)
      = Some (Py.Raise e).
Proof.
  apply variants_for_raise.
Qed.

(** The table trajectory of [high_straight] at its typical speed has a
    summary, with a non-negative maximum height. *)
Lemma table_summary_never_fails_witness :
  exists traj height v,
    calculate_trajectory Samples.libm Samples.high_straight 1.0
      = Some (Py.Ok traj) /\
    max_y traj = Py.Ok height /\ (0 <=? height) = true /\
    variant_of Samples.libm Samples.high_straight 1.0 traj = Py.Ok v.
Proof.
  assert (Hc : exists traj,
             calculate_trajectory Samples.libm Samples.high_straight 1.0
               = Some (Py.Ok traj))
    by (eexists; vm_compute; reflexivity).
  destruct Hc as [traj Hc].
  destruct (table_summary_never_fails Samples.libm Samples.high_straight 1.0
              traj Hc) as (height & v & Hm & H0 & Hv & _).
  exists traj, height, v. repeat split; assumption.
Defined.

(** An archetype with a ball speed of 1e200 mph: the batch raises the
    [OverflowError] of the integrator's [vx**2]. *)
Lemma batch_errors_come_from_integrator_witness :
  generate_speed_variants Samples.libm Samples.overflowing
    = Some (Py.Raise Py.OverflowError) /\
  exists speed_pct,
    In speed_pct [60; 70; 80; 90; 100; 110; 120]%Z /\
    calculate_trajectory Samples.libm Samples.overflowing
      (Py.of_Z speed_pct / 100.0) = Some (Py.Raise Py.OverflowError).
Proof.
  assert (Hg : generate_speed_variants Samples.libm Samples.overflowing
               = Some (Py.Raise Py.OverflowError))
    by (vm_compute; reflexivity).
  split; [exact Hg|].
  exact (batch_errors_come_from_integrator Samples.libm Samples.overflowing
           Py.OverflowError Hg).
Defined.

End TableSummary.
(** ** Which exceptions the arithmetic can raise *)

Module Raises.

Lemma py_pow_raises (lm : Py.Libm) (x : float) (n : positive) (e : Py.exn) :
  Py.py_pow lm x n = Py.Raise e -> e = Py.OverflowError.
Proof.
  unfold Py.py_pow.
  repeat match goal with
         | |- (if ?c then _ else _) = _ -> _ => destruct c; try discriminate
         end.
  intros [= <-]. reflexivity.
Qed.

Lemma math_1_raises (f : float -> float) (x : float) (e : Py.exn) :
  Py.math_1 f x = Py.Raise e -> e = Py.ValueError.
Proof.
  unfold Py.math_1.
  repeat match goal with
         | |- (if ?c then _ else _) = _ -> _ => destruct c; try discriminate
         end; intros [= <-]; reflexivity.
Qed.

Lemma matan2_raises (lm : Py.Libm) (y x : float) (e : Py.exn) :
  Py.matan2 lm y x = Py.Raise e -> e = Py.OverflowError \/ e = Py.ValueError.
Proof.
  unfold Py.matan2.
  repeat match goal with
         | |- (if ?c then _ else _) = _ -> _ => destruct c; try discriminate
         end; intros [= <-]; auto.
Qed.

Lemma fdiv_raises (a b : float) (e : Py.exn) :
  Py.fdiv a b = Py.Raise e -> e = Py.ZeroDivisionError /\ (b =? 0) = true.
Proof.
  unfold Py.fdiv. destruct (b =? 0); [|discriminate].
  intros [= <-]. split; reflexivity.
Qed.

Lemma py_mod_raises (lm : Py.Libm) (a b : float) (e : Py.exn) :
  Py.py_mod lm a b = Py.Raise e -> e = Py.ZeroDivisionError /\ (b =? 0) = true.
Proof.
  unfold Py.py_mod. destruct (b =? 0); [intros [= <-]; split; reflexivity|].
  repeat match goal with
         | |- (if ?c then _ else _) = _ -> _ => destruct c; try discriminate
         end.
Qed.

(** A number that is not below a positive bound is not zero. *)
Lemma not_below_nonzero (v c : float) :
  (0 <? c) = true -> (v <? c) = false -> (v =? 0) = false.
Proof.
  rewrite !ltb_spec, eqb_spec. unfold SFltb, SFeqb.
  change (Prim2SF 0) with (S754_zero false).
  destruct (Prim2SF v) as [sv|sv| |sv mv ev], (Prim2SF c) as [sc|sc| |sc mc ec];
    simpl; try discriminate; try reflexivity;
    try (destruct sv; reflexivity);
    try (destruct sc; discriminate).
Qed.

(** A number that is not [<= 0] is not zero. *)
Lemma not_leb_nonzero (v : float) : (v <=? 0) = false -> (v =? 0) = false.
Proof.
  intros H. destruct (v =? 0) eqn:E; [|reflexivity].
  apply FloatFacts.eqb_leb in E. congruence.
Qed.

Lemma index_in_range {A : Type} (xs : list A) (i : nat) :
  (i < List.length xs)%nat -> exists a, Launch.index xs i = Py.Ok a.
Proof.
  intros H. unfold Launch.index.
  destruct (nth_error xs i) as [a|] eqn:E; [eauto|].
  apply nth_error_None in E. lia.
Qed.

End Raises.

(** ** launch_vector.py: the exceptions of the launch calculation *)

Module LaunchErrors.
Import Launch.

Section WithLibm.
Variable lm : Py.Libm.

(** The goal at the first operation that can raise: either it returned,
    and the proof goes on, or it raised, and [tac] closes the case from the
    equation of the operation. *)
Ltac first_operation tac :=
  match goal with
  | |- Py.bind ?m _ = Py.Raise _ -> _ =>
      let E := fresh "E" in
      let H := fresh "H" in
      destruct m eqn:E; cbn [Py.bind];
      [ | intros H; injection H as <-; tac E ]
  end.

Ltac by_pow E := left; exact (Raises.py_pow_raises _ _ _ _ E).
Ltac by_math E := right; left; exact (Raises.math_1_raises _ _ _ E).
Ltac by_atan2 E :=
  destruct (Raises.matan2_raises _ _ _ _ E) as [-> | ->]; auto.

Lemma speed_raises (points : list point) (fps : float) (e : Py.exn) :
  _calculate_speed lm None points fps = Py.Raise e ->
  e = Py.OverflowError \/ e = Py.ValueError \/
  (e = Py.ZeroDivisionError /\ (fps =? 0) = true).
Proof.
  unfold _calculate_speed.
  destruct (List.length points <? 2)%nat eqn:El; [discriminate|].
  apply Nat.ltb_ge in El.
  destruct (Raises.index_in_range points 0) as [first ->]; [lia|].
  destruct (Raises.index_in_range points (List.length points - 1)) as [last ->];
    [lia|].
  cbn [Py.bind].
  first_operation by_pow. first_operation by_pow.
  unfold Py.msqrt at 1. first_operation by_math.
  match goal with
  | |- Py.bind ?m _ = Py.Raise _ -> _ => destruct m as [dt|e'] eqn:Edt
  end; cbn [Py.bind].
  - destruct (dt <=? 0) eqn:Ed; [discriminate|].
    assert (Hs : (10 / 0.0214 =? 0) = false) by reflexivity.
    unfold Py.fdiv at 1. rewrite Hs. cbn [Py.bind].
    unfold Py.fdiv. rewrite (Raises.not_leb_nonzero dt Ed). discriminate.
  - intros [= <-]. right. right.
    destruct (timestamp first), (timestamp last); try discriminate;
      exact (Raises.fdiv_raises _ _ _ Edt).
Qed.

Lemma angle_raises (points : list point) (gyro_data : option float) (e : Py.exn) :
  _calculate_launch_angle lm points gyro_data = Py.Raise e ->
  e = Py.OverflowError \/ e = Py.ValueError.
Proof.
  unfold _calculate_launch_angle.
  destruct (List.length points <? 3)%nat eqn:El; [discriminate|].
  apply Nat.ltb_ge in El.
  unfold measured_angle.
  destruct (Raises.index_in_range points 0) as [first ->]; [lia|].
  destruct (Raises.index_in_range points (Nat.min 5 (List.length points - 1)))
    as [last ->]; [lia|].
  cbn [Py.bind].
  destruct (Py.gtb _ 1).
  - destruct (Py.matan2 lm _ _) as [a|e'] eqn:Ea; cbn [Py.bind].
    + destruct gyro_data; discriminate.
    + intros [= <-]. exact (Raises.matan2_raises _ _ _ _ Ea).
  - cbn [Py.bind]. destruct gyro_data; discriminate.
Qed.

Lemma direction_raises (points : list point) (compass_heading : float)
  (e : Py.exn) :
  _calculate_direction lm points compass_heading = Py.Raise e ->
  e = Py.OverflowError \/ e = Py.ValueError.
Proof.
  unfold _calculate_direction.
  destruct (List.length points <? 2)%nat eqn:El; [discriminate|].
  apply Nat.ltb_ge in El.
  destruct (Raises.index_in_range points 0) as [first ->]; [lia|].
  destruct (Raises.index_in_range points (List.length points - 1)) as [last ->];
    [lia|].
  cbn [Py.bind].
  assert (Hmod : forall a r, Py.py_mod lm a 360 <> Py.Raise r).
  { intros a r Hr. apply Raises.py_mod_raises in Hr. destruct Hr as [_ Hr].
    discriminate Hr. }
  destruct (_ || _).
  - destruct (Py.matan2 lm _ _) as [a|e'] eqn:Ea; cbn [Py.bind].
    + destruct (Py.py_mod lm _ 360) eqn:Em; cbn [Py.bind]; [discriminate|].
      exfalso. exact (Hmod _ _ Em).
    + intros [= <-]. exact (Raises.matan2_raises _ _ _ _ Ea).
  - cbn [Py.bind].
    destruct (Py.py_mod lm _ 360) eqn:Em; cbn [Py.bind]; [discriminate|].
    exfalso. exact (Hmod _ _ Em).
Qed.

(** The inner loop of [_calculate_linearity] raises what [**] raises. *)
Lemma squares_raise (m : float) (vs : list float) (e : Py.exn) :
  (fix go (vs : list float) : Py.res (list float) :=
     match vs with
     | [] => Py.Ok []
     | v :: vs' =>
         s <- Py.py_pow lm (v - m) 2 ;;
         r <- go vs' ;;
         Py.Ok (s :: r)
     end) vs = Py.Raise e ->
  e = Py.OverflowError.
Proof.
  induction vs as [|v vs IH]; [discriminate|].
  destruct (Py.py_pow lm (v - m) 2) as [s|e'] eqn:Es; cbn [Py.bind].
  - match goal with
    | |- Py.bind ?g _ = _ -> _ => destruct g as [r|e'] eqn:Eg
    end; cbn [Py.bind]; [discriminate|].
    intros [= <-]. apply IH. reflexivity.
  - intros [= <-]. exact (Raises.py_pow_raises _ _ _ _ Es).
Qed.

Lemma linearity_raises (positions : list (float * float)) (e : Py.exn) :
  (List.length positions <= 10)%nat ->
  _calculate_linearity lm positions = Py.Raise e ->
  e = Py.OverflowError \/ e = Py.ValueError.
Proof.
  intros Hlen. unfold _calculate_linearity.
  destruct (List.length positions <? 3)%nat eqn:El; [discriminate|].
  apply Nat.ltb_ge in El.
  rewrite length_map.
  assert (Hn : (Py.of_Z (Z.of_nat (List.length positions)) =? 0) = false).
  { destruct (List.length positions) as [|[|[|[|[|[|[|[|[|[|[|n]]]]]]]]]]];
      try lia; reflexivity. }
  unfold Py.fdiv at 1 2. rewrite Hn. cbn [Py.bind].
  match goal with
  | |- Py.bind ?g _ = _ -> _ => destruct g as [sx|e'] eqn:Ex
  end; cbn [Py.bind];
    [|intros [= <-]; left; exact (squares_raise _ _ _ Ex)].
  match goal with
  | |- Py.bind ?g _ = _ -> _ => destruct g as [sy|e'] eqn:Ey
  end; cbn [Py.bind];
    [|intros [= <-]; left; exact (squares_raise _ _ _ Ey)].
  unfold Py.msqrt at 1.
  destruct (Py.math_1 sqrt _) as [d|e'] eqn:Ed; cbn [Py.bind];
    [|intros [= <-]; right; exact (Raises.math_1_raises _ _ _ Ed)].
  destruct (d =? 0) eqn:Ez; [discriminate|].
  unfold Py.fdiv. rewrite Ez. cbn [Py.bind].
  intros Hp. left. exact (Raises.py_pow_raises _ _ _ _ Hp).
Qed.

Lemma confidence_raises (points : list point) (speed : speed_result)
  (ang : angle_result) (e : Py.exn) :
  (List.length points <= 10)%nat ->
  _calculate_confidence lm points speed ang = Py.Raise e ->
  e = Py.OverflowError \/ e = Py.ValueError.
Proof.
  intros Hlen. unfold _calculate_confidence.
  destruct (3 <=? List.length points)%nat; [|discriminate].
  destruct (_calculate_linearity lm _) as [l|e'] eqn:El; cbn [Py.bind];
    [discriminate|].
  intros [= <-]. apply (linearity_raises _ _ (eq_ind _ (fun n => (n <= 10)%nat) Hlen _ (eq_sym (length_map _ _))) El).
Qed.

(** What the launch calculation can raise.  Without a calibrator, on
    points that carry their coordinates, [calculate_launch_vector] never
    fails on an index or on a missing value: whatever it raises is the
    [OverflowError] of a square, the [ValueError] of [math.sqrt] or
    [math.atan2], or, only when [fps] is zero, the [ZeroDivisionError] of
    the division by it.  Equal timestamps and a zero denominator of the
    correlation are answered with a value, not with a division error. *)
Theorem launch_vector_exceptions (points : list point) (gyro_data : option float)
  (compass_heading fps : float) (e : Py.exn) :
  calculate_launch_vector lm None points gyro_data compass_heading fps
    = Py.Raise e ->
  e = Py.OverflowError \/ e = Py.ValueError \/
  (e = Py.ZeroDivisionError /\ (fps =? 0) = true).
Proof.
  unfold calculate_launch_vector.
  destruct (List.length points <? 3)%nat; [discriminate|].
  set (window := firstn _ points).
  assert (Hw : (List.length window <= 10)%nat)
    by (subst window; rewrite length_firstn; lia).
  destruct (_calculate_speed lm None window fps) as [sp|e'] eqn:Es;
    cbn [Py.bind]; [|intros [= <-]; exact (speed_raises _ _ _ Es)].
  destruct (_calculate_launch_angle lm window gyro_data) as [an|e'] eqn:Ea;
    cbn [Py.bind];
    [|intros [= <-]; destruct (angle_raises _ _ _ Ea) as [-> | ->]; auto].
  destruct (_calculate_direction lm window compass_heading) as [di|e'] eqn:Ed;
    cbn [Py.bind];
    [|intros [= <-]; destruct (direction_raises _ _ _ Ed) as [-> | ->]; auto].
  destruct (_calculate_confidence lm window sp an) as [co|e'] eqn:Ec;
    cbn [Py.bind]; [discriminate|].
  intros [= <-]. destruct (confidence_raises _ _ _ _ Hw Ec) as [-> | ->]; auto.
Qed.

End WithLibm.

(** Three points that carry frame numbers only, at a frame rate of zero. *)
Lemma launch_vector_exceptions_witness :
  Launch.calculate_launch_vector Samples.libm None
    [Launch.mkPoint 100 200 None (Some 0%Z);
     Launch.mkPoint 120 195 None (Some 1%Z);
     Launch.mkPoint 140 190 None (Some 2%Z)] None 45 0
    = Py.Raise Py.ZeroDivisionError /\
  (Py.ZeroDivisionError = Py.OverflowError \/
   Py.ZeroDivisionError = Py.ValueError \/
   (Py.ZeroDivisionError = Py.ZeroDivisionError /\ (0 =? 0) = true)).
Proof.
  assert (Hr : Launch.calculate_launch_vector Samples.libm None
                 [Launch.mkPoint 100 200 None (Some 0%Z);
                  Launch.mkPoint 120 195 None (Some 1%Z);
                  Launch.mkPoint 140 190 None (Some 2%Z)] None 45 0
               = Py.Raise Py.ZeroDivisionError)
    by (vm_compute; reflexivity).
  split; [exact Hr|].
  exact (launch_vector_exceptions Samples.libm _ _ _ _ _ Hr).
Defined.

End LaunchErrors.
(** ** trajectory_physics.py and generate_archetype_tables.py: the
    exceptions of the two integrators *)

Module IntegratorErrors.

Ltac first_operation tac :=
  match goal with
  | |- Py.bind ?m _ = Py.Raise _ -> _ =>
      let E := fresh "E" in
      let H := fresh "H" in
      destruct m eqn:E; cbn [Py.bind];
      [ | intros H; injection H as <-; tac E ]
  end.

Ltac by_div Hz E :=
  exfalso; apply Raises.fdiv_raises in E; destruct E as [_ E];
  rewrite Hz in E; discriminate E.

(** Closes the case of an operation that raised: a square, a [math]
    function, or a division whose divisor is known not to be zero. *)
Ltac by_arith Hmass Hv E :=
  first [ discriminate E
        | left; exact (Raises.py_pow_raises _ _ _ _ E)
        | right; exact (Raises.math_1_raises _ _ _ E)
        | by_div Hmass E
        | by_div Hv E ].

Section Flight.
Import Physics.
Variable lm : Py.Libm.
Variable sim : simulator.
Hypothesis mass_not_zero : (ball_mass sim =? 0) = false.

Lemma forces_raise (state : vec8) (wind_vector : float * float) (e : Py.exn) :
  _forces lm sim state wind_vector = Py.Raise e ->
  e = Py.OverflowError \/ e = Py.ValueError.
Proof.
  unfold _forces, Py.msqrt, Py.mcos, Py.msin.
  do 4 first_operation ltac:(by_arith mass_not_zero mass_not_zero).
  match goal with
  | |- (if ?v <? 0.1 then _ else _) = _ -> _ => destruct (v <? 0.1) eqn:Ev
  end; [discriminate|].
  pose proof (Raises.not_below_nonzero _ 0.1 eq_refl Ev) as Hv.
  repeat first_operation ltac:(by_arith mass_not_zero Hv).
  discriminate.
Qed.

Lemma derivative_raises (w : float * float) (s : vec8) (e : Py.exn) :
  derivative lm sim w s = Py.Raise e ->
  e = Py.OverflowError \/ e = Py.ValueError.
Proof.
  unfold derivative.
  destruct (_forces lm sim s w) as [[[ax ay] az]|e'] eqn:Ef; cbn [Py.bind];
    [discriminate|].
  intros [= <-]. exact (forces_raise _ _ _ Ef).
Qed.

Lemma rk4_raises (state : vec8) (dt : float) (w : float * float) (e : Py.exn) :
  _rk4_step lm sim state dt w = Py.Raise e ->
  e = Py.OverflowError \/ e = Py.ValueError.
Proof.
  unfold _rk4_step.
  do 4 first_operation ltac:(fun E => exact (derivative_raises _ _ _ E)).
  discriminate.
Qed.

Lemma flight_loop_raises (w : float * float) (e : Py.exn) (n : nat) :
  forall l : loop_state,
  flight_loop lm n sim w l = Some (Py.Raise e) ->
  e = Py.OverflowError \/ e = Py.ValueError.
Proof.
  induction n as [|n IH]; intros l; cbn [flight_loop];
    (destruct (airborne l); [|discriminate]); [discriminate|].
  destruct (loop_body lm sim w l) as [l'|e'] eqn:Eb; [apply IH|].
  intros [= <-]. revert Eb. unfold loop_body.
  first_operation ltac:(fun E => exact (rk4_raises _ _ _ _ E)).
  discriminate.
Qed.

End Flight.

Import Physics.

(** What [simulate_flight] can raise.  On a simulator whose ball mass is
    not zero (the constructor's is 0.0459), a call that does not return
    raises the [OverflowError] of a square, the [ValueError] of a [math]
    function, or, at the one temperature that makes [273 + temp_c] zero, the
    [ZeroDivisionError] of [set_conditions]: the divisions by the relative
    speed are reached only when that speed is at least 0.1. *)
Theorem flight_exceptions (lm : Py.Libm) (sim : simulator) (a : launch)
  (e : Py.exn) :
  (ball_mass sim =? 0) = false ->
  simulate_flight lm sim a = Some (Py.Raise e) ->
  e = Py.OverflowError \/ e = Py.ValueError \/
  (e = Py.ZeroDivisionError /\
   (273 + (temperature_f a - 32) * 5 / 9 =? 0) = true).
Proof.
  intros Hm. unfold simulate_flight, simulate_flight_fuel.
  destruct (prepare lm sim a) as [[[sim' w] l0]|e'] eqn:Ep.
  - assert (Hm' : (ball_mass sim' =? 0) = false).
    { revert Ep. unfold prepare, set_conditions.
      destruct (Py.fdiv _ _) as [tr|?]; [|discriminate]. cbn [Py.bind].
      destruct (Py.mcos lm _); [|discriminate]. cbn [Py.bind].
      destruct (Py.msin lm _); [|discriminate]. cbn [Py.bind].
      destruct (Py.mcos lm _); [|discriminate]. cbn [Py.bind].
      destruct (Py.msin lm _); [|discriminate]. cbn [Py.bind].
      intros [= <- _ _]. exact Hm. }
    destruct (flight_loop lm max_steps sim' w l0) as [[l|e']|] eqn:El;
      [| |discriminate].
    + intros [= Hf]. revert Hf. unfold finish.
      assert (Harith : forall x, x = Py.OverflowError \/ x = Py.ValueError ->
                x = Py.OverflowError \/ x = Py.ValueError \/
                (x = Py.ZeroDivisionError /\
                 (273 + (temperature_f a - 32) * 5 / 9 =? 0) = true))
        by (intros x [-> | ->]; auto).
      unfold Py.msqrt.
      do 3 first_operation ltac:(fun E => apply Harith; by_arith Hm Hm E).
      discriminate.
    + intros [= <-].
      destruct (flight_loop_raises lm sim' Hm' w e' max_steps l0 El)
        as [-> | ->]; auto.
  - intros [= <-]. revert Ep. unfold prepare, set_conditions, Py.mcos, Py.msin.
    match goal with
    | |- Py.bind (Py.bind ?m _) _ = _ -> _ => destruct m as [tr|e''] eqn:Ed
    end; cbn [Py.bind].
    + do 4 first_operation
        ltac:(fun E => right; left; exact (Raises.math_1_raises _ _ _ E)).
      discriminate.
    + intros [= <-]. right. right. exact (Raises.fdiv_raises _ _ _ Ed).
Qed.

(** A launch speed of 1e200 mph: the [OverflowError] of the first square. *)
Lemma flight_exceptions_witness :
  simulate_flight Samples.libm Samples.simulator (Samples.shot 1e200 0 2500 0)
    = Some (Py.Raise Py.OverflowError) /\
  (Py.OverflowError = Py.OverflowError \/ Py.OverflowError = Py.ValueError \/
   (Py.OverflowError = Py.ZeroDivisionError /\
    (273 + (temperature_f (Samples.shot 1e200 0 2500 0) - 32) * 5 / 9 =? 0)
      = true)).
Proof.
  assert (Hr : simulate_flight Samples.libm Samples.simulator
                 (Samples.shot 1e200 0 2500 0)
               = Some (Py.Raise Py.OverflowError))
    by (vm_compute; reflexivity).
  split; [exact Hr|].
  exact (flight_exceptions Samples.libm Samples.simulator _ _ eq_refl Hr).
Defined.

Section Table.
Import Tables.
Variable lm : Py.Libm.
Variable archetype : ShotArchetype.
Variable k : constants.
Variable dt : float.
Hypothesis mass_not_zero : (mass k =? 0) = false.

Lemma trajectory_body_raises (l : loop_state) (e : Py.exn) :
  loop_body lm archetype k dt l = Py.Raise e ->
  e = Py.OverflowError \/ e = Py.ValueError.
Proof.
  unfold loop_body, Py.msqrt, Py.mcos, Py.msin.
  cbn [l_vx l_vy l_vz l_x l_y l_z l_t l_trajectory].
  do 4 first_operation ltac:(by_arith mass_not_zero mass_not_zero).
  match goal with
  | |- (if ?v <? 0.01 then _ else _) = _ -> _ => destruct (v <? 0.01) eqn:Ev
  end; [discriminate|].
  pose proof (Raises.not_below_nonzero _ 0.01 eq_refl Ev) as Hv.
  repeat first_operation ltac:(by_arith mass_not_zero Hv).
  destruct (Py.gtb _ 15); discriminate.
Qed.

Lemma trajectory_loop_raises (e : Py.exn) (n : nat) : forall l : loop_state,
  trajectory_loop lm n archetype k dt l = Some (Py.Raise e) ->
  e = Py.OverflowError \/ e = Py.ValueError.
Proof.
  induction n as [|n IH]; intros l; cbn [trajectory_loop];
    (destruct (flying l); [|discriminate]); [discriminate|].
  destruct (loop_body lm archetype k dt l) as [[l'|l']|e'] eqn:Eb;
    [apply IH | discriminate |].
  intros [= <-]. exact (trajectory_body_raises _ _ Eb).
Qed.

End Table.

Import Tables.

Lemma calculate_trajectory_raises (lm : Py.Libm) (archetype : ShotArchetype)
  (m : float) (e : Py.exn) :
  calculate_trajectory lm archetype m = Some (Py.Raise e) ->
  e = Py.OverflowError \/ e = Py.ValueError.
Proof.
  unfold calculate_trajectory, calculate_trajectory_fuel.
  destruct (prepare lm archetype m) as [[k l0]|e'] eqn:Ep.
  - assert (Hm : (mass k =? 0) = false).
    { revert Ep. unfold prepare.
      destruct (Py.mcos lm _); [|discriminate]. cbn [Py.bind].
      destruct (Py.msin lm _); [|discriminate]. cbn [Py.bind].
      destruct (Py.py_pow lm _ 2); [|discriminate]. cbn [Py.bind].
      intros [= <- _]. reflexivity. }
    destruct (trajectory_loop lm max_steps archetype k 0.02 l0) as [[l|e']|] eqn:El;
      try discriminate.
    intros [= <-]. exact (trajectory_loop_raises lm archetype k 0.02 Hm e' _ _ El).
  - intros [= <-]. revert Ep. unfold prepare, Py.mcos, Py.msin.
    assert (Hz : (0.0459 =? 0) = false) by reflexivity.
    do 3 first_operation ltac:(by_arith Hz Hz).
    discriminate.
Qed.

(** What the batch generator can raise.  [calculate_trajectory] never
    divides by zero: the divisions by the speed are reached only when the
    speed is at least 0.01, and the mass is a non-zero constant.  So a call
    of [calculate_trajectory] or of [generate_speed_variants] that does not
    return raises the [OverflowError] of a square or the [ValueError] of a
    [math] function, and nothing else. *)
Theorem table_exceptions (lm : Py.Libm) (archetype : ShotArchetype) (m : float)
  (e : Py.exn) :
  calculate_trajectory lm archetype m = Some (Py.Raise e) \/
  generate_speed_variants lm archetype = Some (Py.Raise e) ->
  e = Py.OverflowError \/ e = Py.ValueError.
Proof.
  intros [Hc | Hg].
  - exact (calculate_trajectory_raises lm archetype m e Hc).
  - destruct (TableSummary.variants_for_raise lm archetype e _ Hg)
      as (pct & _ & Hc).
    exact (calculate_trajectory_raises lm archetype _ e Hc).
Qed.

(** The archetype with a ball speed of 1e200 mph. *)
Lemma table_exceptions_witness :
  generate_speed_variants Samples.libm Samples.overflowing
    = Some (Py.Raise Py.OverflowError) /\
  (Py.OverflowError = Py.OverflowError \/ Py.OverflowError = Py.ValueError).
Proof.
  assert (Hg : generate_speed_variants Samples.libm Samples.overflowing
               = Some (Py.Raise Py.OverflowError))
    by (vm_compute; reflexivity).
  split; [exact Hg|].
  exact (table_exceptions Samples.libm Samples.overflowing 1.0 _
           (or_intror Hg)).
Defined.

End IntegratorErrors.
(** ** gps_converter.py: the exceptions of the conversion *)

Module GpsErrors.

Section WithLibm.
Variable lm : Py.Libm.
Variable c_asin : float -> float.

Ltac first_operation tac :=
  match goal with
  | |- Py.bind ?m _ = Py.Raise _ -> _ =>
      let E := fresh "E" in
      let H := fresh "H" in
      destruct m eqn:E; cbn [Py.bind];
      [ | intros H; injection H as <-; tac E ]
  end.

(** Closes the case of an operation that raised. *)
Ltac by_arith E :=
  first [ discriminate E
        | left; exact (Raises.py_pow_raises _ _ _ _ E)
        | right; exact (Raises.math_1_raises _ _ _ E)
        | destruct (Raises.matan2_raises _ _ _ _ E) as [-> | ->]; auto ].

Lemma calculate_new_gps_raises (start_lat start_lon distance bearing : float)
  (e : Py.exn) :
  Gps.calculate_new_gps lm c_asin start_lat start_lon distance bearing
    = Py.Raise e ->
  e = Py.OverflowError \/ e = Py.ValueError.
Proof.
  unfold Gps.calculate_new_gps, Gps.masin, Py.mcos, Py.msin.
  repeat first_operation by_arith.
  discriminate.
Qed.

Lemma point_to_gps_raises (start_lat start_lon bearing : float)
  (p : float * float * float) (e : Py.exn) :
  Gps.point_to_gps lm c_asin start_lat start_lon bearing p = Py.Raise e ->
  e = Py.OverflowError \/ e = Py.ValueError.
Proof.
  destruct p as [[x y] z]. unfold Gps.point_to_gps, Py.msqrt.
  do 3 first_operation by_arith.
  match goal with
  | |- (if ?c then _ else _) = _ -> _ => destruct c
  end; [discriminate|].
  first_operation by_arith.
  first_operation ltac:(fun E => exact (calculate_new_gps_raises _ _ _ _ _ E)).
  match goal with
  | |- (let '(_, _) := ?p in _) = _ -> _ => destruct p
  end.
  discriminate.
Qed.

Lemma circle_points_raise (lat lon radius : float) (e : Py.exn) :
  forall angles : list Z,
  Gps.circle_points lm c_asin lat lon radius angles = Py.Raise e ->
  e = Py.OverflowError \/ e = Py.ValueError.
Proof.
  induction angles as [|angle angles IH]; [discriminate|].
  cbn [Gps.circle_points].
  first_operation ltac:(fun E => exact (calculate_new_gps_raises _ _ _ _ _ E)).
  destruct (Gps.circle_points lm c_asin lat lon radius angles) as [ps|e'];
    cbn [Py.bind]; [discriminate|].
  intros [= <-]. apply IH. reflexivity.
Qed.

(** What the GPS conversion can raise.  [trajectory_to_gps] and
    [create_search_zone] raise nothing but the [OverflowError] of a square
    and the [ValueError] of a [math] function (a domain error of [asin], a
    non-finite argument): the only division is by the Earth radius. *)
Theorem gps_exceptions (pts : list (float * float * float))
  (start_lat start_lon bearing : float) (landing : float * float)
  (radius : float) (e : Py.exn) :
  Gps.trajectory_to_gps lm c_asin pts start_lat start_lon bearing = Py.Raise e \/
  Gps.create_search_zone lm c_asin landing radius = Py.Raise e ->
  e = Py.OverflowError \/ e = Py.ValueError.
Proof.
  intros [Ht | Hz].
  - revert Ht. induction pts as [|p pts IH]; [discriminate|].
    cbn [Gps.trajectory_to_gps].
    first_operation ltac:(fun E => exact (point_to_gps_raises _ _ _ _ _ E)).
    destruct (Gps.trajectory_to_gps lm c_asin pts start_lat start_lon bearing)
      as [gs|e']; cbn [Py.bind]; [discriminate|].
    intros [= <-]. apply IH. reflexivity.
  - revert Hz. unfold Gps.create_search_zone. destruct landing as [lat lon].
    first_operation ltac:(fun E => exact (circle_points_raise _ _ _ _ _ E)).
    discriminate.
Qed.

End WithLibm.

(** A point 1e200 m down the fairway: its square overflows. *)
Lemma gps_exceptions_witness :
  Gps.trajectory_to_gps Samples.libm Samples.asin [(1e200, 0, 0)] 36.5 (-122) 45
    = Py.Raise Py.OverflowError /\
  (Py.OverflowError = Py.OverflowError \/ Py.OverflowError = Py.ValueError).
Proof.
  assert (Hr : Gps.trajectory_to_gps Samples.libm Samples.asin
                 [(1e200, 0, 0)] 36.5 (-122) 45 = Py.Raise Py.OverflowError)
    by (vm_compute; reflexivity).
  split; [exact Hr|].
  exact (gps_exceptions Samples.libm Samples.asin _ _ _ _ (0, 0) 15 _
           (or_introl Hr)).
Defined.

End GpsErrors.

(** ** [detect_ball] over calls that may raise *)

Module DetectorCalls.
Import Hybrid.

Section WithFrames.
Variable image : Type.
Variable shape : image -> Z * Z.
Variable hough_circles : image -> option rect -> Z -> option (list (Z * Z * Z)).
Variable yolo_net : image -> option rect.

#[local] Abbreviation _detect_with_hough :=
  (_detect_with_hough image shape hough_circles).
#[local] Abbreviation hough_of := (hough_of image shape hough_circles).
#[local] Abbreviation detect_ball :=
  (HybridCalls.detect_ball image shape hough_circles yolo_net).
#[local] Abbreviation after :=
  (HybridCalls.after image shape hough_circles yolo_net).
#[local] Abbreviation ends :=
  (HybridCalls.ends image shape hough_circles yolo_net).
#[local] Abbreviation trace :=
  (HybridCalls.trace image shape hough_circles yolo_net).
#[local] Abbreviation run :=
  (HybridCalls.run image shape hough_circles yolo_net).

(** What one call does to the object, by cases on the wide scan and on
    how the local search ends. *)
Lemma call_cases (d : detector) (f : image) :
  let d0 := set_frame_count d (frame_count d + 1)%Z in
  let scan := should_run_yolo d0 in
  let box := if scan then Hybrid._detect_with_yolo image yolo_net d0 f else None in
  let searched := match box with
                  | Some (x, y, w, h) =>
                      Some (Z.max 0 (x - 20), Z.max 0 (y - 20), w + 40, h + 40)%Z
                  | None => roi d
                  end in
  trace d f = (if scan then [RunYolo f] else []) ++ [RunHough f searched] /\
  yolo_available (after d f) = yolo_available d /\
  max_misses (after d f) = max_misses d /\
  yolo_frequency (after d f) = yolo_frequency d /\
  frame_count (after d f) = (frame_count d + 1)%Z /\
  match _detect_with_hough f searched with
  | UnboundLocalError =>
      ends d f = HybridCalls.Raised /\
      consecutive_misses (after d f) = consecutive_misses d /\
      roi (after d f) = searched
  | Returns (Some (cx, cy), r) =>
      ends d f = HybridCalls.Returned (Some (cx, cy), r) /\
      consecutive_misses (after d f) = 0%Z /\
      roi (after d f) =
        match searched with
        | Some _ => Some (Z.max 0 (cx - 50), Z.max 0 (cy - 50), 100, 100)%Z
        | None => None
        end
  | Returns (None, _) =>
      ends d f = HybridCalls.Returned (None, 0%Z) /\
      consecutive_misses (after d f) = (consecutive_misses d + 1)%Z /\
      roi (after d f) =
        if (consecutive_misses d + 1 >? max_misses d)%Z then None else searched
  end.
Proof.
  cbv zeta.
  unfold HybridCalls.trace, HybridCalls.after, HybridCalls.ends,
    HybridCalls.detect_ball, Hybrid.acquire.
  destruct (should_run_yolo (set_frame_count d (frame_count d + 1)%Z));
    [destruct (Hybrid._detect_with_yolo image yolo_net _ f) as [[[[bx by_] bw] bh]|]|];
    try (replace (bw + 2 * 20)%Z with (bw + 40)%Z by lia;
         replace (bh + 2 * 20)%Z with (bh + 40)%Z by lia);
    cbn [roi set_roi set_frame_count fst snd app];
    destruct (_detect_with_hough f _) as [[[[cx cy]|] r]|];
    cbn [roi consecutive_misses max_misses set_consecutive_misses set_roi
         set_frame_count];
    try destruct (roi d) eqn:Er;
    try destruct (consecutive_misses d + 1 >? max_misses d)%Z;
    cbn; rewrite ?Er; repeat split; reflexivity.
Qed.

(** While the local search returns, a call is the call of the model with
    a total local detector, taken at [hough_of]. *)
Lemma returning_call (d : detector) (f : image) :
  ends d f <> HybridCalls.Raised ->
  detect_ball d f =
    (Hybrid.after image yolo_net hough_of d f,
     HybridCalls.Returned (Hybrid.returned image yolo_net hough_of d f),
     Hybrid.trace image yolo_net hough_of d f).
Proof.
  unfold HybridCalls.ends, HybridCalls.detect_ball, Hybrid.after,
    Hybrid.returned, Hybrid.trace, Hybrid.detect_ball.
  destruct (Hybrid.acquire image yolo_net _ f) as [d1 ev].
  unfold Hybrid.hough_of.
  destruct (_detect_with_hough f (roi d1)) as [[[c|] r]|]; cbn.
  - intros _. destruct (roi d1); reflexivity.
  - intros _. destruct (_ >? _)%Z; reflexivity.
  - intros H. contradiction H. reflexivity.
Qed.

(** What holds of the object between calls, whatever the calls ended in:
    the configuration is the constructor's, the miss counter is not
    negative, the ROI starts at non-negative coordinates. *)
Lemma always_step (b : bool) (d : detector) (f : image) :
  yolo_available d = b /\ max_misses d = 3%Z /\ yolo_frequency d = 5%Z /\
  (0 <= consecutive_misses d)%Z /\
  match roi d with
  | Some (x, y, _, _) => (0 <= x /\ 0 <= y)%Z
  | None => True
  end ->
  yolo_available (after d f) = b /\ max_misses (after d f) = 3%Z /\
  yolo_frequency (after d f) = 5%Z /\
  (0 <= consecutive_misses (after d f))%Z /\
  match roi (after d f) with
  | Some (x, y, _, _) => (0 <= x /\ 0 <= y)%Z
  | None => True
  end.
Proof.
  intros (Hy & HM & HF & H0 & Hroi).
  pose proof (call_cases d f) as Hc. cbv zeta in Hc.
  destruct Hc as (_ & Hy' & HM' & HF' & _ & Hh).
  match type of Hh with
  | match _detect_with_hough f ?r with _ => _ end => set (searched := r) in Hh
  end.
  assert (Hs : match searched with
               | Some (x, y, _, _) => (0 <= x /\ 0 <= y)%Z
               | None => True
               end).
  { subst searched.
    destruct (if should_run_yolo _ then _ else None) as [[[[bx by_] bw] bh]|];
      [lia | exact Hroi]. }
  rewrite Hy', HM', HF'.
  destruct (_detect_with_hough f searched) as [[[[cx cy]|] r]|].
  - destruct Hh as (_ & Hm & Hr). rewrite Hm, Hr.
    repeat split; auto; try lia. destruct searched; [lia | exact I].
  - destruct Hh as (_ & Hm & Hr). rewrite Hm, Hr.
    repeat split; auto; try lia.
    destruct (_ >? _)%Z; [exact I | exact Hs].
  - destruct Hh as (_ & Hm & Hr). rewrite Hm, Hr.
    repeat split; auto.
Qed.

Lemma always_run (b : bool) (fs : list image) : forall d : detector,
  yolo_available d = b /\ max_misses d = 3%Z /\ yolo_frequency d = 5%Z /\
  (0 <= consecutive_misses d)%Z /\
  match roi d with
  | Some (x, y, _, _) => (0 <= x /\ 0 <= y)%Z
  | None => True
  end ->
  let d' := fst (fst (run d fs)) in
  yolo_available d' = b /\ max_misses d' = 3%Z /\ yolo_frequency d' = 5%Z /\
  (0 <= consecutive_misses d')%Z /\
  match roi d' with
  | Some (x, y, _, _) => (0 <= x /\ 0 <= y)%Z
  | None => True
  end.
Proof.
  induction fs as [|f fs IH]; intros d Hd; [exact Hd|].
  cbn [HybridCalls.run].
  pose proof (always_step b d f Hd) as Hs. unfold HybridCalls.after in Hs.
  destruct (detect_ball d f) as [[d1 o1] tr1]. cbn [fst] in Hs.
  specialize (IH d1 Hs).
  destruct (run d1 fs) as [[d2 os] trs]. exact IH.
Qed.

Lemma run_frame_count (fs : list image) : forall d : detector,
  frame_count (fst (fst (run d fs))) =
    (frame_count d + Z.of_nat (List.length fs))%Z.
Proof.
  induction fs as [|f fs IH]; intros d; [simpl; lia|].
  cbn [HybridCalls.run].
  pose proof (call_cases d f) as Hc. cbv zeta in Hc.
  destruct Hc as (_ & _ & _ & _ & Hn & _). unfold HybridCalls.after in Hn.
  destruct (detect_ball d f) as [[d1 o1] tr1]. cbn [fst] in Hn.
  specialize (IH d1). destruct (run d1 fs) as [[d2 os] trs]. cbn [fst] in *.
  rewrite IH, Hn. cbn [List.length]. lia.
Qed.

(** While every call returns, a miss counter beyond [max_misses] goes
    with no ROI. *)
Lemma returning_run (b : bool) (fs : list image) : forall d : detector,
  max_misses d = 3%Z ->
  ((consecutive_misses d > 3)%Z -> roi d = None) ->
  forallb HybridCalls.is_returned (snd (fst (run d fs))) = true ->
  let d' := fst (fst (run d fs)) in
  (consecutive_misses d' > 3)%Z -> roi d' = None.
Proof.
  induction fs as [|f fs IH]; intros d HM Hd; [intros _; exact Hd|].
  cbn [HybridCalls.run].
  pose proof (call_cases d f) as Hc. cbv zeta in Hc.
  destruct Hc as (_ & _ & HM' & _ & _ & Hh).
  unfold HybridCalls.after, HybridCalls.ends in HM', Hh.
  destruct (detect_ball d f) as [[d1 o1] tr1]. cbn [fst snd] in HM', Hh.
  specialize (IH d1).
  destruct (run d1 fs) as [[d2 os] trs]. cbn [fst snd forallb] in *.
  intros Hall. apply andb_true_iff in Hall. destruct Hall as [Ho Hos].
  apply IH; [congruence | | exact Hos].
  destruct (_detect_with_hough f _) as [[[[cx cy]|] r]|].
  - destruct Hh as (_ & Hm & _). lia.
  - destruct Hh as (_ & Hm & Hr). rewrite Hm, Hr, HM. intros Hgt.
    destruct (consecutive_misses d + 1 >? 3)%Z eqn:E; [reflexivity | lia].
  - destruct Hh as (-> & _). discriminate Ho.
Qed.

(** Over any sequence of calls on one detector, also when calls raise and
    the caller goes on with the same object: every frame is handed to the
    Hough search exactly once, in order; every call ends in one outcome;
    YOLO runs at most once per frame, on frames of the sequence only, and
    not at all without the model; the frame counter advances by one per
    call, raising calls included. *)
Theorem one_local_search_per_frame (fs : list image) : forall d : detector,
  hough_frames (snd (run d fs)) = fs /\
  List.length (snd (fst (run d fs))) = List.length fs /\
  frame_count (fst (fst (run d fs))) =
    (frame_count d + Z.of_nat (List.length fs))%Z /\
  (List.length (yolo_frames (snd (run d fs))) <= List.length fs)%nat /\
  incl (yolo_frames (snd (run d fs))) fs /\
  (yolo_available d = false -> yolo_frames (snd (run d fs)) = []).
Proof.
  induction fs as [|f fs IH]; intros d.
  - simpl. repeat split; auto. lia. intros a [].
  - pose proof (run_frame_count (f :: fs) d) as Hn.
    cbn [HybridCalls.run] in *.
    pose proof (call_cases d f) as Hc. cbv zeta in Hc.
    destruct Hc as (Ht & Hy & _).
    unfold HybridCalls.trace, HybridCalls.after in Ht, Hy.
    assert (Hscan : yolo_available d = false ->
              should_run_yolo (set_frame_count d (frame_count d + 1)%Z) = false).
    { intros Hf. unfold should_run_yolo. cbn [yolo_available set_frame_count].
      rewrite Hf. reflexivity. }
    destruct (detect_ball d f) as [[d1 o1] tr1]. cbn [fst snd] in Ht, Hy.
    specialize (IH d1). destruct (run d1 fs) as [[d2 os] trs].
    cbn [fst snd] in *.
    destruct IH as (Hh & Hl & _ & Hyl & Hi & Hoff).
    unfold hough_frames, yolo_frames in *.
    rewrite !flat_map_app, Ht, !flat_map_app.
    destruct (should_run_yolo _) eqn:Es; cbn [flat_map app List.length] in *;
      rewrite ?Hh.
    + split; [reflexivity|]. split; [lia|]. split; [exact Hn|].
      split; [lia|]. split.
      * intros a [<-|Ha]; [left; reflexivity | right; apply Hi, Ha].
      * intros Hf. discriminate (Hscan Hf).
    + split; [reflexivity|]. split; [lia|]. split; [exact Hn|].
      split; [lia|]. split.
      * intros a Ha. right. apply Hi, Ha.
      * intros Hf. apply Hoff. congruence.
Qed.

(** When the wide scan runs.  On a detector that started from the
    constructor and whose calls so far have all returned, a call runs YOLO
    exactly when the model is available and there is no ROI or the number of
    the frame is a multiple of five: the third test of the source,
    [consecutive_misses > max_misses], does not decide, because the miss
    that takes the counter past [max_misses] also clears the ROI.  (A call
    that raised leaves the ROI of its scan with the counter untouched; after
    one the third test can decide.) *)
Theorem yolo_schedule (b : bool) (fs : list image) (f : image) :
  forallb HybridCalls.is_returned (snd (fst (run (init b) fs))) = true ->
  let d := fst (fst (run (init b) fs)) in
  yolo_frames (trace d f) =
    if b && (match roi d with None => true | Some _ => false end
             || ((Z.of_nat (List.length fs) + 1) mod 5 =? 0)%Z)
    then [f] else [].
Proof.
  intros Hall d.
  assert (Hinit : yolo_available (init b) = b /\ max_misses (init b) = 3%Z /\
                  yolo_frequency (init b) = 5%Z /\
                  (0 <= consecutive_misses (init b))%Z /\
                  match roi (init b) with
                  | Some (x, y, _, _) => (0 <= x /\ 0 <= y)%Z
                  | None => True
                  end)
    by (unfold init; simpl; repeat split; auto; lia).
  pose proof (always_run b fs (init b) Hinit) as (Hy & HM & HF & _ & _).
  fold d in Hy, HM, HF.
  assert (Hlost : (consecutive_misses d > 3)%Z -> roi d = None).
  { apply (returning_run b fs (init b)); [reflexivity | | exact Hall].
    unfold init. simpl. lia. }
  pose proof (run_frame_count fs (init b)) as Hn. fold d in Hn. simpl in Hn.
  pose proof (call_cases d f) as Hc. cbv zeta in Hc.
  destruct Hc as (Ht & _). rewrite Ht.
  unfold should_run_yolo. cbn [yolo_available roi consecutive_misses max_misses
    frame_count yolo_frequency set_frame_count].
  rewrite Hy, HM, HF, Hn.
  assert (Hdead : (match roi d with None => true | Some _ => false end
                   || (consecutive_misses d >? 3)%Z) =
                  match roi d with None => true | Some _ => false end).
  { destruct (roi d) eqn:Er; [|reflexivity]. simpl.
    destruct (consecutive_misses d >? 3)%Z eqn:E; [|reflexivity].
    assert (Hgt : (consecutive_misses d > 3)%Z) by lia.
    specialize (Hlost Hgt). discriminate. }
  rewrite Hdead.
  unfold yolo_frames. destruct (b && _); reflexivity.
Qed.

(** The ROI follows the ball.  Each call hands one ROI (or none) to the
    Hough search, the one its trace records, and then: a call that returns
    a centre [(cx, cy)] puts the miss counter to zero and, exactly when that
    search ran in an ROI, makes the ROI the 100 x 100 square
    [(max(0, cx - 50), max(0, cy - 50), 100, 100)], leaving it [None]
    otherwise; a call that returns [(None, 0)] adds one to the counter and
    keeps the searched ROI, or clears it when the counter has passed
    [max_misses]; a call that raises keeps the counter and the searched
    ROI.  On a detector that started from the constructor the corner of the
    ROI never has a negative coordinate, whatever the calls ended in. *)
Theorem roi_follows_detection (d : detector) (f : image) :
  (exists scan searched,
     trace d f = scan ++ [RunHough f searched] /\
     match ends d f with
     | HybridCalls.Returned (Some (cx, cy), _) =>
         consecutive_misses (after d f) = 0%Z /\
         roi (after d f) =
           match searched with
           | Some _ => Some (Z.max 0 (cx - 50), Z.max 0 (cy - 50), 100, 100)%Z
           | None => None
           end
     | HybridCalls.Returned (None, r) =>
         r = 0%Z /\
         consecutive_misses (after d f) = (consecutive_misses d + 1)%Z /\
         roi (after d f) =
           if (consecutive_misses d + 1 >? max_misses d)%Z then None
           else searched
     | HybridCalls.Raised =>
         consecutive_misses (after d f) = consecutive_misses d /\
         roi (after d f) = searched
     end) /\
  forall (b : bool) (fs : list image),
    match roi (fst (fst (run (init b) fs))) with
    | Some (x, y, _, _) => (0 <= x /\ 0 <= y)%Z
    | None => True
    end.
Proof.
  split.
  - pose proof (call_cases d f) as Hc. cbv zeta in Hc.
    destruct Hc as (Ht & _ & _ & _ & _ & Hh).
    eexists _, _. split; [exact Ht|].
    destruct (_detect_with_hough f _) as [[[[cx cy]|] r]|].
    + destruct Hh as (-> & Hm & Hr). split; assumption.
    + destruct Hh as (-> & Hm & Hr). repeat split; assumption.
    + destruct Hh as (-> & Hm & Hr). split; assumption.
  - intros b fs.
    assert (Hinit : yolo_available (init b) = b /\ max_misses (init b) = 3%Z /\
                    yolo_frequency (init b) = 5%Z /\
                    (0 <= consecutive_misses (init b))%Z /\
                    match roi (init b) with
                    | Some (x, y, _, _) => (0 <= x /\ 0 <= y)%Z
                    | None => True
                    end)
      by (unfold init; simpl; repeat split; auto; lia).
    pose proof (always_run b fs (init b) Hinit) as (_ & _ & _ & _ & Hr).
    exact Hr.
Qed.

End WithFrames.

(** Four frames through the ROI paths, every call returning: the fifth
    call is a periodic scan. *)
Lemma yolo_schedule_witness :
  forallb HybridCalls.is_returned
    (snd (fst (HybridCalls.run nat Samples.frame_shape Samples.centre_circle
                 Samples.yolo_box (init true) [1; 2; 9; 10]%nat))) = true /\
  yolo_frames
    (HybridCalls.trace nat Samples.frame_shape Samples.centre_circle
       Samples.yolo_box
       (fst (fst (HybridCalls.run nat Samples.frame_shape Samples.centre_circle
                    Samples.yolo_box (init true) [1; 2; 9; 10]%nat))) 11%nat)
    = [11%nat].
Proof.
  split; [reflexivity|].
  exact (yolo_schedule nat Samples.frame_shape Samples.centre_circle
           Samples.yolo_box true [1; 2; 9; 10]%nat 11%nat eq_refl).
Defined.

(** After a call that raised, the third test does decide.  Four frames
    without a circle, then a scan whose box lies beyond the right edge: the
    fifth call raises with the ROI set and the counter at 4, and the sixth
    call, with an ROI and a frame number that is no multiple of five, runs
    YOLO again. *)
Lemma lost_ball_test_after_raise :
  let run5 := HybridCalls.run nat Samples.frame_shape Samples.no_circles
                Samples.yolo_beyond_edge (init true) [1; 2; 3; 4; 5]%nat in
  let d := fst (fst run5) in
  snd (fst run5) =
    [HybridCalls.Returned (None, 0%Z); HybridCalls.Returned (None, 0%Z);
     HybridCalls.Returned (None, 0%Z); HybridCalls.Returned (None, 0%Z);
     HybridCalls.Raised] /\
  roi d = Some (680, 80, 64, 64)%Z /\ consecutive_misses d = 4%Z /\
  frame_count d = 5%Z /\
  yolo_frames
    (HybridCalls.trace nat Samples.frame_shape Samples.no_circles
       Samples.yolo_beyond_edge d 6%nat) = [6%nat].
Proof.
  cbv zeta. repeat split; reflexivity.
Qed.

End DetectorCalls.
